(** * airflow/operators/python.py: a shallow embedding

    The Python operators of [airflow.operators.python] are embedded as Rocq
    functions.  Dictionaries are stdpp [gmap]s keyed by strings, exceptions
    are an inductive type carried by a small error monad, and code that
    touches the file system, the log or a subprocess runs in a state monad
    over a [world] that records the files and the chronological trace of
    the effects performed. *)

From Stdlib Require Import Ascii String DecimalString DecimalNat.
From stdpp Require Import gmap strings list fin_maps sorting.

Set Warnings "-register-all".
Open Scope string_scope.

(** ** Strings as Python uses them here *)

Module PyStr.

Definition nl : string := String (ascii_of_nat 10) EmptyString.
Definition dquote : string := String (ascii_of_nat 34) EmptyString.

(** [str.lower()] on ASCII text. *)
Definition lower_ascii (c : ascii) : ascii :=
  let n := nat_of_ascii c in
  if Nat.leb 65 n && Nat.leb n 90 then ascii_of_nat (n + 32) else c.

Fixpoint lower (s : string) : string :=
  match s with
  | EmptyString => EmptyString
  | String c r => String (lower_ascii c) (lower r)
  end.

(** [s.startswith(p)] *)
Definition startswith (s p : string) : bool := String.prefix p s.

(** [sep.join(l)] *)
Definition join (sep : string) (l : list string) : string := String.concat sep l.

(** [str(s)] of a string is the string. *)
Definition str (s : string) : string := s.

(** [s[0]] *)
Definition first_char (s : string) : option string :=
  match s with
  | EmptyString => None
  | String c _ => Some (String c EmptyString)
  end.

Fixpoint endswith_slash (s : string) : bool :=
  match s with
  | EmptyString => false
  | String c EmptyString => Nat.eqb (nat_of_ascii c) 47
  | String _ r => endswith_slash r
  end.

(** [os.path.join(a, b)] on POSIX. *)
Definition os_path_join (a b : string) : string :=
  if String.prefix "/" b then b
  else match a with
       | EmptyString => b
       | _ => if endswith_slash a then a +:+ b else a +:+ "/" +:+ b
       end.

(** [str(n)] for a non-negative integer. *)
Definition str_of_nat (n : nat) : string := NilZero.string_of_uint (Nat.to_uint n).

(** Text is held as its UTF-8 encoding: a character of a [str] is one to
    four bytes of the [string], and a text file holds the encoding of
    what was written to it. *)

(** The ASCII characters [str.strip()] removes when called without
    argument: TAB, LF, VT, FF, CR, FS, GS, RS, US and space. *)
Definition isspace (c : ascii) : bool :=
  let n := nat_of_ascii c in
  (Nat.leb 9 n && Nat.leb n 13) || (Nat.leb 28 n && Nat.leb n 32).

(** The other characters for which [str.isspace()] holds in Python 3, as
    the bytes of their encoding: U+0085 and U+00A0 take two bytes;
    U+1680, U+2000 to U+200A, U+2028, U+2029, U+202F, U+205F and U+3000
    take three. *)
Definition isspace2 (a b : ascii) : bool :=
  Nat.eqb (nat_of_ascii a) 194
  && (Nat.eqb (nat_of_ascii b) 133 || Nat.eqb (nat_of_ascii b) 160).

Definition isspace3 (a b c : ascii) : bool :=
  let l := nat_of_ascii a in
  let m := nat_of_ascii b in
  let n := nat_of_ascii c in
  (Nat.eqb l 225 && Nat.eqb m 154 && Nat.eqb n 128)
  || (Nat.eqb l 226 && Nat.eqb m 128
      && ((Nat.leb 128 n && Nat.leb n 138)
          || Nat.eqb n 168 || Nat.eqb n 169 || Nat.eqb n 175))
  || (Nat.eqb l 226 && Nat.eqb m 129 && Nat.eqb n 159)
  || (Nat.eqb l 227 && Nat.eqb m 128 && Nat.eqb n 128).

Fixpoint lstrip (s : string) : string :=
  match s with
  | EmptyString => EmptyString
  | String a r =>
      if isspace a then lstrip r
      else
        match r with
        | EmptyString => s
        | String b r1 =>
            if isspace2 a b then lstrip r1
            else
              match r1 with
              | EmptyString => s
              | String c r2 => if isspace3 a b c then lstrip r2 else s
              end
        end
  end.

Fixpoint reverse_onto (s acc : string) : string :=
  match s with
  | EmptyString => acc
  | String c r => reverse_onto r (String c acc)
  end.

Definition reverse (s : string) : string := reverse_onto s EmptyString.

(** [lstrip] on a text read from its end: the bytes of a character come
    last byte first. *)
Fixpoint lstrip_reversed (s : string) : string :=
  match s with
  | EmptyString => EmptyString
  | String c r =>
      if isspace c then lstrip_reversed r
      else
        match r with
        | EmptyString => s
        | String b r1 =>
            if isspace2 b c then lstrip_reversed r1
            else
              match r1 with
              | EmptyString => s
              | String a r2 => if isspace3 a b c then lstrip_reversed r2 else s
              end
        end
  end.

Definition rstrip (s : string) : string :=
  reverse (lstrip_reversed (reverse s)).

Definition strip (s : string) : string := rstrip (lstrip s).

(** A continuation byte of UTF-8. *)
Definition is_continuation (c : ascii) : bool :=
  let n := nat_of_ascii c in Nat.leb 128 n && Nat.leb n 191.

(** The second byte that may follow the lead byte [a] of a sequence of
    three or four bytes: no overlong form, no surrogate, nothing above
    U+10FFFF. *)
Definition second_byte_ok (a b : ascii) : bool :=
  let l := nat_of_ascii a in
  let n := nat_of_ascii b in
  if Nat.eqb l 224 then Nat.leb 160 n && Nat.leb n 191
  else if Nat.eqb l 237 then Nat.leb 128 n && Nat.leb n 159
  else if Nat.eqb l 240 then Nat.leb 144 n && Nat.leb n 191
  else if Nat.eqb l 244 then Nat.leb 128 n && Nat.leb n 143
  else is_continuation b.

(** The bytes are the UTF-8 encoding of a text. *)
Fixpoint valid_utf8 (s : string) : bool :=
  match s with
  | EmptyString => true
  | String a r =>
      let l := nat_of_ascii a in
      if Nat.leb l 127 then valid_utf8 r
      else if Nat.leb 194 l && Nat.leb l 223 then
        match r with
        | String b r1 => is_continuation b && valid_utf8 r1
        | _ => false
        end
      else if Nat.leb 224 l && Nat.leb l 239 then
        match r with
        | String b (String c r2) =>
            second_byte_ok a b && is_continuation c && valid_utf8 r2
        | _ => false
        end
      else if Nat.leb 240 l && Nat.leb l 244 then
        match r with
        | String b (String c (String d r3)) =>
            second_byte_ok a b && is_continuation c && is_continuation d
            && valid_utf8 r3
        | _ => false
        end
      else false
  end.

(** Reading a text file with universal newlines: CR LF and a lone CR
    both arrive as LF. *)
Fixpoint universal_newlines (s : string) : string :=
  match s with
  | EmptyString => EmptyString
  | String c r =>
      if Nat.eqb (nat_of_ascii c) 13 then
        match r with
        | String c' r' =>
            if Nat.eqb (nat_of_ascii c') 10 then universal_newlines r
            else String (ascii_of_nat 10) (universal_newlines r)
        | EmptyString => String (ascii_of_nat 10) EmptyString
        end
      else String c (universal_newlines r)
  end.

(** [list(file)]: the lines of the text, each with its terminating LF,
    the last one without when the text does not end in LF. *)
Fixpoint lines_from (cur : string) (s : string) : list string :=
  match s with
  | EmptyString =>
      match cur with EmptyString => [] | _ => [cur] end
  | String c r =>
      if Nat.eqb (nat_of_ascii c) 10
      then (cur +:+ String c EmptyString) :: lines_from EmptyString r
      else lines_from (cur +:+ String c EmptyString) r
  end.

Definition readlines (content : string) : list string :=
  lines_from EmptyString (universal_newlines content).

(** [str.isidentifier()] on ASCII names. *)
Definition is_id_start (c : ascii) : bool :=
  let n := nat_of_ascii c in
  (Nat.leb 65 n && Nat.leb n 90) || (Nat.leb 97 n && Nat.leb n 122) || Nat.eqb n 95.

Definition is_id_continue (c : ascii) : bool :=
  let n := nat_of_ascii c in
  is_id_start c || (Nat.leb 48 n && Nat.leb n 57).

Fixpoint all_id_continue (s : string) : bool :=
  match s with
  | EmptyString => true
  | String c r => is_id_continue c && all_id_continue r
  end.

Definition isidentifier (s : string) : bool :=
  match s with
  | EmptyString => false
  | String c r => is_id_start c && all_id_continue r
  end.

End PyStr.

(** ** Python values, exceptions and callables *)

Inductive pyval : Type :=
| PyNone
| PyBool (b : bool)
| PyInt (z : Z)
| PyStr (s : string)
| PyList (l : list pyval)
| PyDict (d : gmap string pyval)
| PyObject (repr : string).

(** [v is not None] *)
Definition is_not_None (v : pyval) : bool :=
  match v with PyNone => false | _ => true end.

(** The exception classes that occur in the module or in the library calls
    it makes.  [UnicodeDecodeError] is the one subclass of [ValueError] a
    decoder raises.  [SystemExit] is what ends a process on purpose
    ([sys.exit], or [os._exit] without unwinding), with the status it
    was given, an integer from 0 on. *)
Inductive pyexn : Type :=
| AirflowException (msg : string)
| ValueError (msg : string)
| UnicodeDecodeError (msg : string)
| TypeError (msg : string)
| KeyError (key : string)
| IndexError (msg : string)
| NameError (name : string)
| AttributeError (msg : string)
| EOFError (msg : string)
| UnpicklingError (msg : string)
| PicklingError (msg : string)
| ModuleNotFoundError (name : string)
| FileNotFoundError (path : string)
| OSError (msg : string)
| CalledProcessError (cmd : list string)
| SystemExit (status : nat)
| OtherError (cls msg : string).

(** What [except ValueError:] catches. *)
Definition isinstance_ValueError (e : pyexn) : bool :=
  match e with
  | ValueError _ | UnicodeDecodeError _ => true
  | _ => false
  end.

(** A computation that returns or raises. *)
Inductive result (A : Type) : Type :=
| Ok (a : A)
| Raise (e : pyexn).
Arguments Ok {A} a.
Arguments Raise {A} e.

Definition bind_result {A B} (m : result A) (k : A -> result B) : result B :=
  match m with
  | Ok a => k a
  | Raise e => Raise e
  end.

Notation "'let*' x ':=' m 'in' k" := (bind_result m (fun x => k))
  (at level 10, x name, m at level 200, k at level 200).

Definition raises {A} (m : result A) : Prop :=
  match m with Raise _ => True | Ok _ => False end.

(** [inspect.Parameter] (here [PyParameter]): the kinds, and a parameter
    with the rendered text of its annotation and of its default, when it
    has them. *)
Inductive ParameterKind : Type :=
| POSITIONAL_ONLY
| POSITIONAL_OR_KEYWORD
| VAR_POSITIONAL
| KEYWORD_ONLY
| VAR_KEYWORD.

Record PyParameter : Type := {
  name : string;
  kind : ParameterKind;
  annotation_repr : option string;
  default_repr : option string
}.

(** [str(param)], as [inspect.Parameter.__str__] formats it. *)
Definition PyParameter_str (p : PyParameter) : string :=
  let formatted := name p in
  let formatted :=
    match annotation_repr p with
    | Some a => formatted +:+ ": " +:+ a
    | None => formatted
    end in
  let formatted :=
    match default_repr p with
    | Some d =>
        match annotation_repr p with
        | Some _ => formatted +:+ " = " +:+ d
        | None => formatted +:+ "=" +:+ d
        end
    | None => formatted
    end in
  match kind p with
  | VAR_POSITIONAL => "*" +:+ formatted
  | VAR_KEYWORD => "**" +:+ formatted
  | _ => formatted
  end.

(** How a function object came to be: by a [def] statement or by a
    [lambda] expression.  The code cannot tell the two apart but by the
    name the object carries. *)
Inductive function_form : Type :=
| def_statement
| lambda_expression.

(** The objects handed to an operator as [python_callable].  A function
    carries its [__name__], which starts as the name in its [def] or as
    ["<lambda>"] and can be assigned afterwards (by hand, or by
    [functools.wraps]), and the source text [inspect] finds for it, if it
    finds one: a function made by [exec] or typed at a prompt has
    none. *)
Inductive pyobj : Type :=
| PyFunction (form : function_form) (fname : string)
    (params : list PyParameter) (source : option string)
| PyMethod (fname : string) (params : list PyParameter) (source : option string)
| BuiltinFunction (fname : string) (params : option (list PyParameter))
| CallableInstance (cls : string) (params : list PyParameter)
| NotCallable (v : pyval).

(** A function defined with [def] that kept its name, a lambda that kept
    its name, and a bound method, each with its source at hand. *)
Abbreviation DefFunction fname params source :=
  (PyFunction def_statement fname params (Some source)).
Abbreviation LambdaFunction params source :=
  (PyFunction lambda_expression "<lambda>" params (Some source)).
Abbreviation BoundMethod fname params source :=
  (PyMethod fname params (Some source)).

(** [callable(x)] *)
Definition callable (x : pyobj) : bool :=
  match x with NotCallable _ => false | _ => true end.

(** [isinstance(x, types.FunctionType)] *)
Definition isinstance_FunctionType (x : pyobj) : bool :=
  match x with
  | PyFunction _ _ _ _ => true
  | _ => false
  end.

(** [x.__name__] *)
Definition __name__ (x : pyobj) : result string :=
  match x with
  | PyFunction _ n _ _ => Ok n
  | PyMethod n _ _ => Ok n
  | BuiltinFunction n _ => Ok n
  | CallableInstance c _ => Raise (AttributeError ("'" +:+ c +:+ "' object has no attribute '__name__'"))
  | NotCallable _ => Raise (AttributeError "object has no attribute '__name__'")
  end.

(** [inspect.getsource(x)] *)
Definition getsource (x : pyobj) : result string :=
  match x with
  | PyFunction _ _ _ (Some s) | PyMethod _ _ (Some s) => Ok s
  | PyFunction _ _ _ None | PyMethod _ _ None =>
      Raise (OSError "could not get source code")
  | _ => Raise (TypeError "module, class, method, function, traceback, frame, or code object was expected")
  end.

(** [signature(x).parameters.items()], in declaration order. *)
Definition signature (x : pyobj) : result (list PyParameter) :=
  match x with
  | PyFunction _ _ ps _ | PyMethod _ ps _
  | CallableInstance _ ps => Ok ps
  | BuiltinFunction n (Some ps) => Ok ps
  | BuiltinFunction n None =>
      Raise (ValueError ("no signature found for builtin <built-in function " +:+ n +:+ ">"))
  | NotCallable _ => Raise (TypeError "object is not a callable object")
  end.

(** Reading text from a file: the bytes are decoded. *)
Definition decode_utf8 (content : string) : result string :=
  if PyStr.valid_utf8 content then Ok content
  else Raise (UnicodeDecodeError "'utf-8' codec can't decode bytes").

(** ** The world: files, and the trace of effects *)

Inductive event : Type :=
| EvOpen (path mode : string)
| EvStat (path : string)
| EvDump (lib : string) (path : string)
| EvLoad (lib : string) (path : string)
| EvImport (module : string)
| EvCall (f : pyobj) (args : list pyval) (kwargs : gmap string pyval)
| EvScriptCall (fname : string) (args kwargs : pyval)
| EvLog (level fmt : string) (args : list pyval)
| EvSubprocess (cmd : list string).

Record world : Type := {
  fs : gmap string string;
  trace : list event
}.

(** Effectful code: a state monad over the world whose result may be an
    exception; the effects performed before a raise stay performed. *)
Definition M (A : Type) : Type := world -> world * result A.

Definition ret {A} (a : A) : M A := fun w => (w, Ok a).
Definition raise {A} (e : pyexn) : M A := fun w => (w, Raise e).
Definition lift {A} (r : result A) : M A := fun w => (w, r).

Definition bind {A B} (m : M A) (k : A -> M B) : M B :=
  fun w =>
    match m w with
    | (w', Ok a) => k a w'
    | (w', Raise e) => (w', Raise e)
    end.

Notation "x <- c ;; k" := (bind c (fun x => k))
  (at level 100, c at next level, k at level 200, right associativity).
Notation "c ;;; k" := (bind c (fun _ => k))
  (at level 100, k at level 200, right associativity).

(** Code of the host or of the user, outside of this module: it may
    change the files and return or raise; the trace records only what the
    operators themselves do. *)
Definition FsM (A : Type) : Type :=
  gmap string string -> gmap string string * result A.

Definition on_files {A} (m : FsM A) : M A :=
  fun w =>
    let '(files, r) := m (fs w) in
    ({| fs := files; trace := trace w |}, r).

Definition emit (e : event) : M unit :=
  fun w => ({| fs := fs w; trace := trace w ++ [e] |}, Ok tt).

Definition log_event (level fmt : string) (args : list pyval) : M unit :=
  emit (EvLog level fmt args).

(** [try: body except ValueError: handler; raise] *)
Definition except_ValueError_reraise {A} (body : M A) (handler : M unit) : M A :=
  fun w =>
    match body w with
    | (w', Raise e) =>
        if isinstance_ValueError e
        then (fst (handler w'), Raise e)
        else (w', Raise e)
    | r => r
    end.

(** [x or []], [x or {}] *)
Definition or_list {A} (x : option (list A)) : list A :=
  match x with
  | Some (a :: l) => a :: l
  | _ => []
  end.

Definition or_dict (x : option (gmap string pyval)) : gmap string pyval :=
  match x with
  | Some d => if decide (d = ∅) then ∅ else d
  | None => ∅
  end.

(** A dict that may be [None], as a value and as a condition. *)
Definition optional_dict_value (x : option (gmap string pyval)) : pyval :=
  match x with Some d => PyDict d | None => PyNone end.

Definition truthy_dict (x : option (gmap string pyval)) : bool :=
  match x with
  | Some d => negb (bool_decide (d = ∅))
  | None => false
  end.

(** ** class PythonOperator *)

Module PythonOperator.

(** The attributes of an instance. *)
Record instance : Type := {
  python_callable : pyobj;
  op_args : list pyval;
  op_kwargs : gmap string pyval;
  templates_dict : option (gmap string pyval);
  template_ext : list string
}.

Section Host.

(** The outcome of [BaseOperator.__init__] (with [apply_defaults]) on
    the arguments the operators hand up to the host unchanged. *)
Variable BaseOperator__init__ : result unit.

(** What calling [f( *args, **kwargs)] does in the host process. *)
Variable invoke : pyobj -> list pyval -> gmap string pyval -> FsM pyval.

Definition __init__
    (python_callable : pyobj)
    (op_args : option (list pyval))
    (op_kwargs : option (gmap string pyval))
    (templates_dict : option (gmap string pyval))
    (templates_exts : option (list string)) : result instance :=
  let* _ := BaseOperator__init__ in
  if negb (callable python_callable)
  then Raise (AirflowException "`python_callable` param must be callable")
  else
    Ok {| python_callable := python_callable;
          op_args := or_list op_args;
          op_kwargs := or_dict op_kwargs;
          templates_dict := templates_dict;
          template_ext := or_list templates_exts |}.

(** The [for] loop over [islice(sig, num_op_args)]. *)
Fixpoint check_reserved (context : gmap string pyval)
    (op_args_names : list PyParameter) : result unit :=
  match op_args_names with
  | [] => Ok tt
  | p :: rest =>
      if bool_decide (name p ∈ dom context)
      then Raise (ValueError
             ("The key " +:+ name p +:+
              " in the op_args is part of the context, and therefore reserved"))
      else check_reserved context rest
  end.

(** The dict comprehension [{name: context[name] for name, _ in sig if
    name in context}], filled in signature order. *)
Definition pick_from_context (context : gmap string pyval)
    (sig : list PyParameter) : gmap string pyval :=
  foldl (fun acc p =>
           match context !! name p with
           | Some v => <[name p := v]> acc
           | None => acc
           end) ∅ sig.

Definition determine_op_kwargs (python_callable : pyobj)
    (context : gmap string pyval) (num_op_args : nat)
    : result (gmap string pyval) :=
  let* sig := signature python_callable in
  let op_args_names := take num_op_args sig in
  let* _ := check_reserved context op_args_names in
  if existsb (fun param => PyStr.startswith (PyParameter_str param) "**") sig
  then Ok context
  else Ok (pick_from_context context sig).

Definition execute_callable (self : instance) : M pyval :=
  emit (EvCall (python_callable self) (op_args self) (op_kwargs self)) ;;;
  on_files (invoke (python_callable self) (op_args self) (op_kwargs self)).

(** [execute] mutates the context it is given and the operator; both
    are returned next to the world.  [execute_callable] is the method
    of the operator's class. *)
Definition execute (execute_callable : instance -> M pyval)
    (self : instance) (context : gmap string pyval) (w : world)
    : world * instance * gmap string pyval * result pyval :=
  let context := op_kwargs self ∪ context in
  let context := <["templates_dict" := optional_dict_value (templates_dict self)]> context in
  match determine_op_kwargs (python_callable self) context (length (op_args self)) with
  | Raise e => (w, self, context, Raise e)
  | Ok kw =>
      let self := {| python_callable := python_callable self;
                     op_args := op_args self;
                     op_kwargs := kw;
                     templates_dict := templates_dict self;
                     template_ext := template_ext self |} in
      match execute_callable self w with
      | (w', Raise e) => (w', self, context, Raise e)
      | (w', Ok return_value) =>
          (fst (log_event "info" "Done. Returned value was: %s" [return_value] w'),
           self, context, Ok return_value)
      end
  end.

End Host.

End PythonOperator.

(** ** Files and serialization libraries *)

(** A serialization module ([pickle] or [dill]): [dump(obj, file)] writes
    [dumps obj], [load(file)] returns [loads] of the file's content. *)
Record Pickler : Type := {
  dumps : pyval -> result string;
  loads : string -> result pyval
}.

(** [open(path, 'w')] or [open(path, 'wb')]: the file exists and is empty. *)
Definition open_write (path mode : string) : M unit :=
  fun w => ({| fs := <[path := ""]> (fs w);
               trace := trace w ++ [EvOpen path mode] |}, Ok tt).

(** [file.write(data)] on a file opened for writing. *)
Definition file_write (path data : string) : M unit :=
  fun w => ({| fs := <[path := default "" (fs w !! path) +:+ data]> (fs w);
               trace := trace w |}, Ok tt).

(** [open(path, 'r')] or [open(path, 'rb')], giving the content to read. *)
Definition open_read (path mode : string) : M string :=
  fun w =>
    let w' := {| fs := fs w; trace := trace w ++ [EvOpen path mode] |} in
    match fs w !! path with
    | Some content => (w', Ok content)
    | None => (w', Raise (FileNotFoundError path))
    end.

(** [os.stat(path).st_size] *)
Definition os_stat_st_size (path : string) : M nat :=
  fun w =>
    let w' := {| fs := fs w; trace := trace w ++ [EvStat path] |} in
    match fs w !! path with
    | Some content => (w', Ok (String.length content))
    | None => (w', Raise (FileNotFoundError path))
    end.

(** [lib.dump(obj, file)] *)
Definition pickler_dump (lib_name : string) (lib : Pickler) (obj : pyval)
    (path : string) : M unit :=
  emit (EvDump lib_name path) ;;;
  data <- lift (dumps lib obj) ;;
  file_write path data.

(** [lib.load(file)] *)
Definition pickler_load (lib_name : string) (lib : Pickler) (path : string)
    (content : string) : M pyval :=
  emit (EvLoad lib_name path) ;;;
  lift (loads lib content).

(** ** The generated driver script *)

(** The statements the generated script is made of, with the parts that
    vary: the serialization library, the index into [sys.argv], the
    callable's source and name. *)
Inductive stmt : Type :=
| SImport (module : string)
| SLoadArgs (lib : string) (argv_index : nat)
| SEmptyArgs
| SBindArgs
| SBindKwargs
| SReadStringArgs (argv_index : nat)
| SSource (text : string)
| SCall (fname : string)
| SWriteResult (lib : string) (argv_index : nat).

Definition render_stmt (s : stmt) : string :=
  match s with
  | SImport m => "import " +:+ m
  | SLoadArgs lib i =>
      "with open(sys.argv[" +:+ PyStr.str_of_nat i +:+ "], " +:+ PyStr.dquote +:+ "rb" +:+
      PyStr.dquote +:+ ") as file: arg_dict = " +:+ lib +:+ ".load(file)"
  | SEmptyArgs =>
      "arg_dict = {" +:+ PyStr.dquote +:+ "args" +:+ PyStr.dquote +:+ ": [], " +:+
      PyStr.dquote +:+ "kwargs" +:+ PyStr.dquote +:+ ": {}}"
  | SBindArgs =>
      "args = arg_dict[" +:+ PyStr.dquote +:+ "args" +:+ PyStr.dquote +:+ "]"
  | SBindKwargs =>
      "kwargs = arg_dict[" +:+ PyStr.dquote +:+ "kwargs" +:+ PyStr.dquote +:+ "]"
  | SReadStringArgs i =>
      "with open(sys.argv[" +:+ PyStr.str_of_nat i +:+ "], 'r') as file:" +:+ PyStr.nl +:+
      "    virtualenv_string_args = list(map(lambda x: x.strip(), list(file)))"
  | SSource text => text
  | SCall fname => "res = " +:+ fname +:+ "(*args, **kwargs)"
  | SWriteResult lib i =>
      "with open(sys.argv[" +:+ PyStr.str_of_nat i +:+ "], 'wb') as file:" +:+ PyStr.nl +:+
      "    res is not None and " +:+ lib +:+ ".dump(res, file)"
  end.

(** Every statement ends its last line. *)
Fixpoint render (program : list stmt) : string :=
  match program with
  | [] => ""
  | s :: rest => render_stmt s +:+ PyStr.nl +:+ render rest
  end.

(** What a global name of the running script is bound to: a module, a
    value that was decoded or returned, the list of string arguments, a
    file object, or what executing the source of the callable bound to
    the name. *)
Inductive gvalue : Type :=
| GModule (module : string)
| GValue (v : pyval)
| GLines (l : list string)
| GFile (path : string)
| GFunction (source : string).

(** The global names of the running script.  A builtin ([open]) is
    found when no global of that name hides it. *)
Abbreviation script_globals := (gmap string gvalue).

Definition initial_globals : script_globals := ∅.

(** A global name that must have been bound. *)
Definition global (g : script_globals) (var : string) : M gvalue :=
  match g !! var with
  | Some x => ret x
  | None => raise (NameError var)
  end.

(** What a name is bound to, as a value. *)
Definition as_value (x : gvalue) : pyval :=
  match x with
  | GValue v => v
  | GLines l => PyList (map PyStr l)
  | GModule m => PyObject ("<module '" +:+ m +:+ "'>")
  | GFile path => PyObject ("<file '" +:+ path +:+ "'>")
  | GFunction _ => PyObject "<function>"
  end.

(** [*x] in a call: a function or a module cannot be iterated over, a
    closed file refuses. *)
Definition star_args (x : gvalue) : result pyval :=
  match x with
  | GValue v => Ok v
  | GLines l => Ok (PyList (map PyStr l))
  | GFile _ => Raise (ValueError "I/O operation on closed file.")
  | GModule _ | GFunction _ =>
      Raise (TypeError "argument after * must be an iterable")
  end.

(** [**x] in a call *)
Definition star_kwargs (x : gvalue) : result pyval :=
  match x with
  | GValue v => Ok v
  | _ => Raise (TypeError "argument after ** must be a mapping")
  end.

(** [d[key]] *)
Definition getitem (d : pyval) (key : string) : M pyval :=
  match d with
  | PyDict m =>
      match m !! key with
      | Some v => ret v
      | None => raise (KeyError key)
      end
  | _ => raise (TypeError "object is not subscriptable")
  end.

(** The name is bound to the module of that name. *)
Definition imported (g : script_globals) (module : string) : bool :=
  match g !! module with
  | Some (GModule m) => String.eqb m module
  | _ => false
  end.

(** [sys.argv[i]] *)
Definition sys_argv (g : script_globals) (argv : list string) (i : nat) : M string :=
  x <- global g "sys" ;;
  match x with
  | GModule m =>
      if String.eqb m "sys" then
        match argv !! i with
        | Some a => ret a
        | None => raise (IndexError "list index out of range")
        end
      else raise (AttributeError ("module '" +:+ m +:+ "' has no attribute 'argv'"))
  | _ => raise (AttributeError "object has no attribute 'argv'")
  end.

(** The names of [names] bound to what the source [text] defines. *)
Definition bind_functions (text : string) (names : list string)
    (g : script_globals) : script_globals :=
  foldr (fun n acc => <[n := GFunction text]> acc) g names.

Section Interpreter.

(** The isolated environment: [pickle] belongs to every interpreter,
    [dill] only when it was installed. *)
Variable venv_pickle : Pickler.
Variable venv_dill : option Pickler.

(** Executing the source text of the callable as a statement of the
    script, whose globals are given: evaluating its decorators, default
    values and annotations raises, or the statement binds global names,
    for a plain [def] the one name of the function. *)
Variable exec_source : string -> script_globals -> FsM (list string).

(** What the object that the source text [source] bound to [fname] does
    when it is called with the unpacked [args] and [kwargs] in the script
    whose globals are given: it returns, it raises, or it ends the
    process ([SystemExit]).  It leaves the script's globals and
    [sys.argv] alone. *)
Variable run_callable : string -> string -> pyval -> pyval -> script_globals -> FsM pyval.

Definition find_module (module : string) : option (option Pickler) :=
  if String.eqb module "sys" then Some None
  else if String.eqb module "pickle" then Some (Some venv_pickle)
  else if String.eqb module "dill" then
    match venv_dill with Some d => Some (Some d) | None => None end
  else None.

(** The library bound to a name, for [lib.load] and [lib.dump]. *)
Definition library (g : script_globals) (lib : string) : M Pickler :=
  x <- global g lib ;;
  match x with
  | GModule m =>
      match find_module m with
      | Some (Some p) => ret p
      | _ => raise (AttributeError ("module '" +:+ m +:+ "' has no attribute 'load'"))
      end
  | _ => raise (AttributeError "object has no attribute 'load'")
  end.

(** [with open(path, mode) as file]: the builtin opens the file, unless
    the source of the callable has bound the name [open]; then the
    script calls what it bound, and the value that comes back is not a
    context manager. *)
Definition script_open {A} (g : script_globals) (path mode : string)
    (builtin_open : M A) : M A :=
  match g !! "open" with
  | None => builtin_open
  | Some (GFunction source) =>
      let args := PyList [PyStr path; PyStr mode] in
      emit (EvScriptCall "open" args (PyDict ∅)) ;;;
      on_files (run_callable source "open" args (PyDict ∅) g) ;;;
      raise (AttributeError "__enter__")
  | Some _ => raise (TypeError "object is not callable")
  end.

Definition exec_stmt (argv : list string) (s : stmt) (g : script_globals)
    : M script_globals :=
  match s with
  | SImport m =>
      emit (EvImport m) ;;;
      match find_module m with
      | Some _ => ret (<[m := GModule m]> g)
      | None => raise (ModuleNotFoundError m)
      end
  | SLoadArgs lib i =>
      path <- sys_argv g argv i ;;
      content <- script_open g path "rb" (open_read path "rb") ;;
      let g := <["file" := GFile path]> g in
      p <- library g lib ;;
      v <- pickler_load lib p path content ;;
      ret (<["arg_dict" := GValue v]> g)
  | SEmptyArgs =>
      ret (<["arg_dict" :=
               GValue (PyDict (<["args" := PyList []]> (<["kwargs" := PyDict ∅]> ∅)))]> g)
  | SBindArgs =>
      d <- global g "arg_dict" ;;
      v <- getitem (as_value d) "args" ;;
      ret (<["args" := GValue v]> g)
  | SBindKwargs =>
      d <- global g "arg_dict" ;;
      v <- getitem (as_value d) "kwargs" ;;
      ret (<["kwargs" := GValue v]> g)
  | SReadStringArgs i =>
      path <- sys_argv g argv i ;;
      content <- script_open g path "r" (open_read path "r") ;;
      text <- lift (decode_utf8 content) ;;
      ret (<["virtualenv_string_args" :=
               GLines (map PyStr.strip (PyStr.readlines text))]>
             (<["file" := GFile path]> g))
  | SSource text =>
      names <- on_files (exec_source text g) ;;
      ret (bind_functions text names g)
  | SCall fname =>
      f <- global g fname ;;
      a <- global g "args" ;;
      k <- global g "kwargs" ;;
      args <- lift (star_args a) ;;
      kwargs <- lift (star_kwargs k) ;;
      match f with
      | GFunction source =>
          emit (EvScriptCall fname args kwargs) ;;;
          res <- on_files (run_callable source fname args kwargs g) ;;
          ret (<["res" := GValue res]> g)
      | _ => raise (TypeError "object is not callable")
      end
  | SWriteResult lib i =>
      path <- sys_argv g argv i ;;
      script_open g path "wb" (open_write path "wb") ;;;
      let g := <["file" := GFile path]> g in
      res <- global g "res" ;;
      (if is_not_None (as_value res)
       then p <- library g lib ;; pickler_dump lib p (as_value res) path
       else ret tt) ;;;
      ret g
  end.

Fixpoint exec_stmts (argv : list string) (program : list stmt)
    (g : script_globals) : M script_globals :=
  match program with
  | [] => ret g
  | s :: rest => g' <- exec_stmt argv s g ;; exec_stmts argv rest g'
  end.

(** Running the interpreter on a script: [sys.argv] is the command line
    without the interpreter. *)
Definition run_script (program : list stmt) (argv : list string) : M script_globals :=
  exec_stmts argv program initial_globals.

(** The exit status of the interpreter, as the parent process sees it:
    0 when the script ran to its end, the low eight bits of the status of a
    [SystemExit], 1 for another exception. *)
Definition exit_status (r : result script_globals) : nat :=
  match r with
  | Ok _ => 0
  | Raise (SystemExit status) => status mod 256
  | Raise _ => 1
  end.

(** [execute_in_subprocess(cmd)], when the file [cmd[1]] holds the
    rendering of [program]: an exit status other than 0 is reported as
    [CalledProcessError]. *)
Definition execute_in_subprocess (program : list stmt) (cmd : list string) : M unit :=
  emit (EvSubprocess cmd) ;;;
  fun w =>
    let '(w', r) := run_script program (tail cmd) w in
    if Nat.eqb (exit_status r) 0 then (w', Ok tt)
    else (w', Raise (CalledProcessError cmd)).

End Interpreter.

(** ** class PythonVirtualenvOperator(PythonOperator) *)

Module PythonVirtualenvOperator.

(** The attributes of an instance: those of the base class and its own. *)
Record instance : Type := {
  base : PythonOperator.instance;
  requirements : list string;
  string_args : list string;
  python_version : option string;
  use_dill : bool;
  system_site_packages : bool
}.

Definition python_callable (self : instance) : pyobj :=
  PythonOperator.python_callable (base self).
Definition op_args (self : instance) : list pyval :=
  PythonOperator.op_args (base self).
Definition op_kwargs (self : instance) : gmap string pyval :=
  PythonOperator.op_kwargs (base self).
Definition templates_dict (self : instance) : option (gmap string pyval) :=
  PythonOperator.templates_dict (base self).

Definition __class____name__ : string := "PythonVirtualenvOperator".

(** [self.op_kwargs[key] = v] *)
Definition set_op_kwarg (self : instance) (key : string) (v : pyval) : instance :=
  {| base :=
       {| PythonOperator.python_callable := python_callable self;
          PythonOperator.op_args := op_args self;
          PythonOperator.op_kwargs := <[key := v]> (op_kwargs self);
          PythonOperator.templates_dict := templates_dict self;
          PythonOperator.template_ext := PythonOperator.template_ext (base self) |};
     requirements := requirements self;
     string_args := string_args self;
     python_version := python_version self;
     use_dill := use_dill self;
     system_site_packages := system_site_packages self |}.

Definition _pass_op_args (self : instance) : bool :=
  Nat.ltb 0 (length (op_args self) + size (op_kwargs self)).

(** The anonymous function [lambda x: 0] the constructor compares names
    with. *)
Definition lambda_x_0 : pyobj :=
  LambdaFunction
    [{| name := "x"; kind := POSITIONAL_OR_KEYWORD;
        annotation_repr := None; default_repr := None |}]
    "lambda x: 0".

Section Host.

Variable BaseOperator__init__ : result unit.

(** [sys.version_info[0]] of the interpreter that runs Airflow. *)
Variable sys_version_major : nat.

(** The serialization modules of the host interpreter. *)
Variable pickle : Pickler.
Variable dill : Pickler.

(** The isolated environment, and the source of the callable and the
    callable run in it. *)
Variable venv_pickle : Pickler.
Variable venv_dill : option Pickler.
Variable exec_source : string -> script_globals -> FsM (list string).
Variable run_callable : string -> string -> pyval -> pyval -> script_globals -> FsM pyval.

(** [prepare_virtualenv(venv_directory, python_bin, system_site_packages,
    requirements)] of [airflow.utils.python_virtualenv]. *)
Variable prepare_virtualenv : string -> option string -> bool -> list string -> FsM unit.

(** [textwrap.dedent] *)
Variable dedent : string -> string.

Definition __init__
    (python_callable : pyobj)
    (requirements : option (list string))
    (python_version : option string)
    (use_dill : bool)
    (system_site_packages : bool)
    (op_args : option (list pyval))
    (op_kwargs : option (gmap string pyval))
    (string_args : option (list string))
    (templates_dict : option (gmap string pyval))
    (templates_exts : option (list string)) : result instance :=
  let* super :=
    PythonOperator.__init__ BaseOperator__init__ python_callable
      op_args op_kwargs templates_dict templates_exts in
  let self :=
    {| base := super;
       requirements := or_list requirements;
       string_args := or_list string_args;
       python_version := python_version;
       use_dill := use_dill;
       system_site_packages := system_site_packages |} in
  (* check that dill is present if needed *)
  let dill_in_requirements :=
    map (fun x => PyStr.startswith (PyStr.lower x) "dill")
        (PythonVirtualenvOperator.requirements self) in
  if negb system_site_packages && use_dill
     && negb (existsb id dill_in_requirements)
  then Raise (AirflowException
         ("If using dill, dill must be in the environment " +:+
          "either via system_site_packages or requirements"))
  else
  (* check that a function is passed, and that it is not a lambda *)
  let* not_a_named_function :=
    if negb (isinstance_FunctionType (PythonVirtualenvOperator.python_callable self))
    then Ok true
    else
      let* n := __name__ (PythonVirtualenvOperator.python_callable self) in
      let* l := __name__ lambda_x_0 in
      Ok (String.eqb n l) in
  if not_a_named_function
  then Raise (AirflowException
         (__class____name__ +:+ " only supports functions for python_callable arg"))
  else
  (* check that args are passed iff python major version matches *)
  let* across_major_versions :=
    match python_version with
    | None => Ok false
    | Some v =>
        match PyStr.first_char (PyStr.str v) with
        | None => Raise (IndexError "string index out of range")
        | Some c =>
            if negb (String.eqb c (PyStr.str_of_nat sys_version_major))
            then Ok (_pass_op_args self)
            else Ok false
        end
    end in
  if across_major_versions
  then Raise (AirflowException
         ("Passing op_args or op_kwargs is not supported across " +:+
          "different Python major versions " +:+
          "for PythonVirtualenvOperator. " +:+
          "Please use string_args."))
  else Ok self.

Definition _write_string_args (self : instance) (filename : string) : M unit :=
  open_write filename "w" ;;;
  file_write filename (PyStr.join PyStr.nl (map PyStr.str (string_args self))).

Definition _write_args (self : instance) (input_filename : string) : M unit :=
  if _pass_op_args self then
    open_write input_filename "wb" ;;;
    let arg_dict :=
      PyDict (<["args" := PyList (op_args self)]>
              (<["kwargs" := PyDict (op_kwargs self)]> ∅)) in
    if use_dill self
    then pickler_dump "dill" dill arg_dict input_filename
    else pickler_dump "pickle" pickle arg_dict input_filename
  else ret tt.

Definition _read_result (self : instance) (output_filename : string) : M pyval :=
  st_size <- os_stat_st_size output_filename ;;
  if Nat.eqb st_size 0 then ret PyNone
  else
    content <- open_read output_filename "rb" ;;
    except_ValueError_reraise
      (if use_dill self
       then pickler_load "dill" dill output_filename content
       else pickler_load "pickle" pickle output_filename content)
      (log_event "error"
         ("Error deserializing result. " +:+
          "Note that result deserialization " +:+
          "is not supported across major Python versions.") []).

Definition _generate_python_cmd
    (tmp_dir script_filename input_filename output_filename
       string_args_filename : string) : list string :=
  [tmp_dir +:+ "/bin/python"; script_filename;
   input_filename; output_filename; string_args_filename].

Definition _generate_python_code (self : instance) : result string :=
  let pickling_library := if use_dill self then "dill" else "pickle" in
  (* dont try to read pickle if we didnt pass anything *)
  let load_args_line :=
    if _pass_op_args self
    then "with open(sys.argv[1], " +:+ PyStr.dquote +:+ "rb" +:+ PyStr.dquote +:+
         ") as file: arg_dict = " +:+ pickling_library +:+ ".load(file)"
    else "arg_dict = {" +:+ PyStr.dquote +:+ "args" +:+ PyStr.dquote +:+ ": [], " +:+
         PyStr.dquote +:+ "kwargs" +:+ PyStr.dquote +:+ ": {}}" in
  let* source := getsource (python_callable self) in
  let python_callable_lines := dedent source in
  let* python_callable_name := __name__ (python_callable self) in
  Ok ("import " +:+ pickling_library +:+ PyStr.nl +:+
      "import sys" +:+ PyStr.nl +:+
      load_args_line +:+ PyStr.nl +:+
      "args = arg_dict[" +:+ PyStr.dquote +:+ "args" +:+ PyStr.dquote +:+ "]" +:+ PyStr.nl +:+
      "kwargs = arg_dict[" +:+ PyStr.dquote +:+ "kwargs" +:+ PyStr.dquote +:+ "]" +:+ PyStr.nl +:+
      "with open(sys.argv[3], 'r') as file:" +:+ PyStr.nl +:+
      "    virtualenv_string_args = list(map(lambda x: x.strip(), list(file)))" +:+ PyStr.nl +:+
      python_callable_lines +:+ PyStr.nl +:+
      "res = " +:+ python_callable_name +:+ "(*args, **kwargs)" +:+ PyStr.nl +:+
      "with open(sys.argv[2], 'wb') as file:" +:+ PyStr.nl +:+
      "    res is not None and " +:+ pickling_library +:+ ".dump(res, file)" +:+ PyStr.nl).

(** The script of [_generate_python_code] statement by statement: its
    rendering is the generated text ([render_driver_script]). *)
Definition driver_script (self : instance) : result (list stmt) :=
  let pickling_library := if use_dill self then "dill" else "pickle" in
  let load_args_code :=
    if _pass_op_args self then SLoadArgs pickling_library 1 else SEmptyArgs in
  let* source := getsource (python_callable self) in
  let* python_callable_name := __name__ (python_callable self) in
  Ok [SImport pickling_library;
      SImport "sys";
      load_args_code;
      SBindArgs;
      SBindKwargs;
      SReadStringArgs 3;
      SSource (dedent source);
      SCall python_callable_name;
      SWriteResult pickling_library 2].

Definition _write_script (self : instance) (script_filename : string) : M unit :=
  open_write script_filename "w" ;;;
  python_code <- lift (_generate_python_code self) ;;
  log_event "debug" ("Writing code to file" +:+ PyStr.nl +:+ " %s") [PyStr python_code] ;;;
  file_write script_filename python_code.

(** Leaving [with TemporaryDirectory(...) as tmp_dir]: the directory
    and what is in it are removed. *)
Definition cleanup (tmp_dir : string) (w : world) : world :=
  {| fs := filter (fun kv => negb (String.prefix (tmp_dir +:+ "/") kv.1) = true) (fs w);
     trace := trace w |}.

(** The body of [execute_callable] inside the [with] block, for the
    directory name [tmp_dir] the system chose. *)
Definition execute_callable_body (self : instance) (tmp_dir : string) : M pyval :=
  (* generate filenames *)
  let input_filename := PyStr.os_path_join tmp_dir "script.in" in
  let output_filename := PyStr.os_path_join tmp_dir "script.out" in
  let string_args_filename := PyStr.os_path_join tmp_dir "string_args.txt" in
  let script_filename := PyStr.os_path_join tmp_dir "script.py" in
  (* set up virtualenv *)
  let python_bin :=
    match python_version self with
    | Some v => if String.eqb v "" then None else Some ("python" +:+ PyStr.str v)
    | None => None
    end in
  on_files (prepare_virtualenv tmp_dir python_bin (system_site_packages self)
              (requirements self)) ;;;
  _write_args self input_filename ;;;
  _write_script self script_filename ;;;
  _write_string_args self string_args_filename ;;;
  (* execute command in virtualenv *)
  program <- lift (driver_script self) ;;
  execute_in_subprocess venv_pickle venv_dill exec_source run_callable program
    (_generate_python_cmd tmp_dir script_filename input_filename
       output_filename string_args_filename) ;;;
  _read_result self output_filename.

Definition execute_callable (self : instance) (tmp_dir : string) (w : world)
    : world * instance * result pyval :=
  let self :=
    if truthy_dict (templates_dict self)
    then set_op_kwarg self "templates_dict" (optional_dict_value (templates_dict self))
    else self in
  let '(w', r) := execute_callable_body self tmp_dir w in
  (cleanup tmp_dir w', self, r).

End Host.

End PythonVirtualenvOperator.

(** ** A fragment of pickle, for the examples *)

Module MiniPickle.

Definition byte (n : nat) : string := String (ascii_of_nat n) EmptyString.

(** [None], the booleans and the integers below 256, written the way
    pickle writes them after a protocol header: [N], [\x88], [\x89],
    [K] and one byte, each closed by the stop opcode [.]. *)
Definition body (v : pyval) : result string :=
  match v with
  | PyNone => Ok "N."
  | PyBool true => Ok (byte 136 +:+ ".")
  | PyBool false => Ok (byte 137 +:+ ".")
  | PyInt z =>
      if ((0 <=? z)%Z && (z <? 256)%Z)%bool
      then Ok ("K" +:+ byte (Z.to_nat z) +:+ ".")
      else Raise (PicklingError "integer outside of the fragment")
  | _ => Raise (PicklingError "value outside of the fragment")
  end.

Definition dumps (protocol : nat) (v : pyval) : result string :=
  let* b := body v in
  Ok (byte 128 +:+ byte protocol +:+ b).

Definition stop (r : string) (v : pyval) : result pyval :=
  match r with
  | EmptyString => Raise (EOFError "Ran out of input")
  | String c _ =>
      if Nat.eqb (nat_of_ascii c) 46 then Ok v
      else Raise (UnpicklingError "pickle data was truncated")
  end.

(** The text up to the next LF, and what follows it. *)
Fixpoint read_line (s : string) : option (string * string) :=
  match s with
  | EmptyString => None
  | String c r =>
      if Nat.eqb (nat_of_ascii c) 10 then Some (EmptyString, r)
      else match read_line r with
           | Some (l, rest) => Some (String c l, rest)
           | None => None
           end
  end.

(** The opcode [c]: a global named by its module and its name, found by
    importing the module. *)
Definition load_global (importable : list string) (r : string) : result pyval :=
  match read_line r with
  | None => Raise (EOFError "Ran out of input")
  | Some (module, r1) =>
      match read_line r1 with
      | None => Raise (EOFError "Ran out of input")
      | Some (attr, r2) =>
          if existsb (String.eqb module) importable
          then stop r2 (PyObject (module +:+ "." +:+ attr))
          else Raise (ModuleNotFoundError module)
      end
  end.

(** An interpreter whose highest protocol is [highest] refuses a header
    that announces a later one with [ValueError], as pickle does; a
    global of a module it cannot import raises [ModuleNotFoundError]. *)
Fixpoint loads (highest : nat) (importable : list string) (s : string)
    : result pyval :=
  match s with
  | EmptyString => Raise (EOFError "Ran out of input")
  | String c r =>
      let n := nat_of_ascii c in
      if Nat.eqb n 128 then
        match r with
        | EmptyString => Raise (EOFError "Ran out of input")
        | String v r' =>
            if Nat.leb (nat_of_ascii v) highest then loads highest importable r'
            else Raise (ValueError ("unsupported pickle protocol: " +:+
                                    PyStr.str_of_nat (nat_of_ascii v)))
        end
      else if Nat.eqb n 78 then stop r PyNone
      else if Nat.eqb n 136 then stop r (PyBool true)
      else if Nat.eqb n 137 then stop r (PyBool false)
      else if Nat.eqb n 75 then
        match r with
        | EmptyString => Raise (EOFError "Ran out of input")
        | String b r' => stop r' (PyInt (Z.of_nat (nat_of_ascii b)))
        end
      else if Nat.eqb n 99 then load_global importable r
      else Raise (UnpicklingError
             ("invalid load key, '" +:+ String c EmptyString +:+ "'."))
  end.

(** The module of an interpreter whose highest protocol is [highest] and
    which can import the modules [importable]. *)
Definition pickler (highest : nat) (importable : list string) : Pickler :=
  Build_Pickler (dumps highest) (loads highest importable).

End MiniPickle.

(** ** Vocabulary of the statements *)

(** One of the first [num_op_args] declared parameters is named like a key
    of the context. *)
Definition reserved_collision (context : gmap string pyval)
    (sig : list PyParameter) (num_op_args : nat) : Prop :=
  exists p, p ∈ take num_op_args sig /\ name p ∈ dom context.

(** The signature declares a catch-all keyword parameter. *)
Definition declares_var_keyword (sig : list PyParameter) : Prop :=
  exists p, p ∈ sig /\ kind p = VAR_KEYWORD.

Definition reserved_message (key : string) : string :=
  "The key " +:+ key +:+ " in the op_args is part of the context, and therefore reserved".

(** The context restricted to the declared parameter names. *)
Definition restrict_to_names (context : gmap string pyval)
    (sig : list PyParameter) : gmap string pyval :=
  filter (fun kv => kv.1 ∈ map name sig) context.

(** ** Concrete data for the examples *)

Module Examples.

Definition positional (n : string) : PyParameter :=
  {| name := n; kind := POSITIONAL_OR_KEYWORD;
     annotation_repr := None; default_repr := None |}.

Definition var_keyword (n : string) : PyParameter :=
  {| name := n; kind := VAR_KEYWORD;
     annotation_repr := None; default_repr := None |}.

(** [def report(a, ds): ...] *)
Definition report_sig : list PyParameter := [positional "a"; positional "ds"].
Definition report : pyobj :=
  DefFunction "report" report_sig "def report(a, ds): return ds".

(** [def dump_all(ds, **kwargs): ...] *)
Definition dump_all_sig : list PyParameter := [positional "ds"; var_keyword "kwargs"].
Definition dump_all : pyobj :=
  DefFunction "dump_all" dump_all_sig "def dump_all(ds, **kwargs): return ds".

Definition small_context : gmap string pyval :=
  <["ds" := PyStr "2020-01-01"]> (<["ti" := PyObject "<TaskInstance>"]> ∅).

End Examples.

(** A function object that does not carry the name of a lambda: what
    the constructor takes for a function defined with [def]. *)
Definition named_function (c : pyobj) : bool :=
  match c with
  | PyFunction _ n _ _ => negb (String.eqb n "<lambda>")
  | _ => false
  end.

(** A function object that came from a [lambda] expression. *)
Definition is_lambda (c : pyobj) : bool :=
  match c with
  | PyFunction lambda_expression _ _ _ => true
  | _ => false
  end.

(** Construction is refused: no instance comes out, and once the host's own
    constructor has accepted its arguments the exception is the operator's
    validation error, an [AirflowException]. *)
Definition validation_error {A} (BaseOperator__init__ : result unit)
    (r : result A) : Prop :=
  raises r /\
  (BaseOperator__init__ = Ok tt -> exists msg, r = Raise (AirflowException msg)).

(** No requirement names dill, the way the constructor looks for it. *)
Definition dill_not_in_requirements (requirements : option (list string)) : Prop :=
  Forall (fun x => PyStr.startswith (PyStr.lower x) "dill" = false)
         (or_list requirements).

Module ExampleCallables.

(** A method bound to an instance: [obj.run] for [def run(self, x)]. *)
Definition bound_run : pyobj :=
  BoundMethod "run" [Examples.positional "x"] "def run(self, x): return x".

(** [def add(a, b): return a + b] *)
Definition add : pyobj :=
  DefFunction "add" [Examples.positional "a"; Examples.positional "b"]
    "def add(a, b): return a + b".

(** [double = lambda x: 2 * x] followed by [double.__name__ = "double"] *)
Definition renamed_lambda : pyobj :=
  PyFunction lambda_expression "double" [Examples.positional "x"]
    (Some "double = lambda x: 2 * x").

(** A function made by [exec("def made_by_exec(): return 1", scope)]:
    a function object with a name of its own whose source [inspect]
    cannot find. *)
Definition made_by_exec : pyobj :=
  PyFunction def_statement "made_by_exec" [] None.

End ExampleCallables.

(** ** Vocabulary about scripts and traces *)

Definition fmap_result {A B} (f : A -> B) (r : result A) : result B :=
  match r with
  | Ok a => Ok (f a)
  | Raise e => Raise e
  end.

(** The serialization library the operator is configured for. *)
Definition configured_library (use_dill : bool) : string :=
  if use_dill then "dill" else "pickle".






Definition is_log (e : event) : bool :=
  match e with EvLog _ _ _ => true | _ => false end.

(** Whatever the world, the computation only appends to the trace, and
    only events that satisfy [P]. *)
Definition emits {A} (P : event -> Prop) (m : M A) : Prop :=
  forall w, exists t, trace (m w).1 = (trace w ++ t)%list /\ Forall P t.

(** The message [_read_result] logs when decoding raises [ValueError]. *)
Definition deserialization_message : string :=
  "Error deserializing result. Note that result deserialization is not supported across major Python versions.".





(** The nine statements of a generated script. *)
Definition script_of (lib : string) (load_args_code : stmt)
    (python_callable_lines python_callable_name : string) : list stmt :=
  [SImport lib; SImport "sys"; load_args_code; SBindArgs; SBindKwargs;
   SReadStringArgs 3; SSource python_callable_lines;
   SCall python_callable_name; SWriteResult lib 2].





Module ExampleOperators.

(** [def noop(): pass] *)
Definition noop : pyobj := DefFunction "noop" [] "def noop(): pass".

(** [def answer(): return 5] *)
Definition answer : pyobj := DefFunction "answer" [] "def answer(): return 5".

Definition operator (f : pyobj) (string_args : list string) (use_dill : bool)
    : PythonVirtualenvOperator.instance :=
  {| PythonVirtualenvOperator.base :=
       {| PythonOperator.python_callable := f;
          PythonOperator.op_args := [];
          PythonOperator.op_kwargs := ∅;
          PythonOperator.templates_dict := None;
          PythonOperator.template_ext := [] |};
     PythonVirtualenvOperator.requirements := [];
     PythonVirtualenvOperator.string_args := string_args;
     PythonVirtualenvOperator.python_version := None;
     PythonVirtualenvOperator.use_dill := use_dill;
     PythonVirtualenvOperator.system_site_packages := true |}.

Definition empty_world : world := {| fs := ∅; trace := [] |}.

(** The command line [execute_callable] builds in [/tmp/venv1], without
    the interpreter. *)
Definition argv : list string :=
  ["/tmp/venv1/script.py"; "/tmp/venv1/script.in";
   "/tmp/venv1/script.out"; "/tmp/venv1/string_args.txt"].

(** The name a [def] statement binds: the text between [def] and the
    opening parenthesis, for a source that starts with [def] and has no
    space around the name. *)
Fixpoint before_parenthesis (s : string) : string :=
  match s with
  | EmptyString => EmptyString
  | String c r =>
      if Nat.eqb (nat_of_ascii c) 40 then EmptyString
      else String c (before_parenthesis r)
  end.

Definition def_name (source : string) : option string :=
  match source with
  | String "d" (String "e" (String "f" (String " " r))) => Some (before_parenthesis r)
  | _ => None
  end.

(** The sources of the examples are [def] statements without
    decorators, default values or annotations: executing one changes no
    file and binds the name of the function. *)
Definition exec_source (source : string) (g : script_globals) : FsM (list string) :=
  fun files =>
    match def_name source with
    | Some n => (files, Ok [n])
    | None => (files, Ok [])
    end.

(** [def leave(): import sys; sys.exit(0)] *)
Definition leave : pyobj :=
  DefFunction "leave" [] "def leave(): import sys; sys.exit(0)".

(** The functions as the isolated interpreter runs them: [answer]
    returns 5, [leave] ends the process with status 0, the others return
    [None]. *)
Definition run_callable (source fname : string) (args kwargs : pyval)
    (g : script_globals) : FsM pyval :=
  fun files =>
    if String.eqb fname "answer" then (files, Ok (PyInt 5))
    else if String.eqb fname "leave" then (files, Raise (SystemExit 0))
    else (files, Ok PyNone).

(** Source text reaches the examples without indentation. *)
Definition dedent (s : string) : string := s.

(** An environment provisioner that changes no file and succeeds. *)
Definition prepare_virtualenv (venv_directory : string)
    (python_bin : option string) (system_site_packages : bool)
    (requirements : list string) : FsM unit :=
  fun files => (files, Ok tt).

End ExampleOperators.

(** The host's library an operator is configured for. *)
Definition host_library (pickle dill : Pickler) (use_dill : bool) : Pickler :=
  if use_dill then dill else pickle.

(** What [_read_result] adds to the trace after a decode: the error
    message, when the decoder raised a [ValueError]. *)
Definition logged_after_decode (r : result pyval) : list event :=
  match r with
  | Raise e =>
      if isinstance_ValueError e
      then [EvLog "error" deserialization_message []]
      else []
  | Ok _ => []
  end.

Module ExampleResults.

Definition out : string := "/tmp/venv1/script.out".

(** The integer 5 as an interpreter with protocol 4 writes it. *)
Definition five_protocol_4 : string :=
  MiniPickle.byte 128 +:+ MiniPickle.byte 4 +:+ "K" +:+ MiniPickle.byte 5 +:+ ".".

(** A global of [numpy], a package of the isolated environment. *)
Definition numpy_global : string :=
  "cnumpy" +:+ PyStr.nl +:+ "float64" +:+ PyStr.nl +:+ ".".

Definition world_with_output (content : string) : world :=
  {| fs := {[ out := content ]}; trace := [] |}.

Definition string_args_txt : string := "/tmp/venv1/string_args.txt".


Definition cmd : list string :=
  PythonVirtualenvOperator._generate_python_cmd "/tmp/venv1"
    "/tmp/venv1/script.py" "/tmp/venv1/script.in" out string_args_txt.





End ExampleResults.




(** ** Further vocabulary *)

(** Where [execute] takes the value of a keyword from: the operator's
    [templates_dict] under that name, else the operator's own [op_kwargs],
    else the context of the run. *)
Definition keyword_source (self : PythonOperator.instance)
    (context : gmap string pyval) (k : string) : option pyval :=
  if String.eqb k "templates_dict"
  then Some (optional_dict_value (PythonOperator.templates_dict self))
  else match PythonOperator.op_kwargs self !! k with
       | Some v => Some v
       | None => context !! k
       end.

(** The context as [execute] has updated it before it looks at the
    signature. *)
Definition updated_context (self : PythonOperator.instance)
    (context : gmap string pyval) : gmap string pyval :=
  <["templates_dict" := optional_dict_value (PythonOperator.templates_dict self)]>
    (PythonOperator.op_kwargs self ∪ context).

Module ExampleRuns.

(** [PythonOperator(python_callable=report, op_args=[1],
    op_kwargs={"ds": "mine", "extra": 7})] *)
Definition report_operator : PythonOperator.instance :=
  {| PythonOperator.python_callable := Examples.report;
     PythonOperator.op_args := [PyInt 1];
     PythonOperator.op_kwargs :=
       <["ds" := PyStr "mine"]> (<["extra" := PyInt 7]> ∅);
     PythonOperator.templates_dict := None;
     PythonOperator.template_ext := [] |}.

(** [report] returns its [ds]. *)
Definition invoke (f : pyobj) (args : list pyval) (kwargs : gmap string pyval)
    : FsM pyval :=
  fun files => (files, Ok (default PyNone (kwargs !! "ds"))).

End ExampleRuns.

(** The operator as [execute_callable] uses it: with its [templates_dict],
    when that is a non-empty dict, added to [op_kwargs]. *)
Definition with_templates_dict (self : PythonVirtualenvOperator.instance)
    : PythonVirtualenvOperator.instance :=
  if truthy_dict (PythonVirtualenvOperator.templates_dict self)
  then PythonVirtualenvOperator.set_op_kwarg self "templates_dict"
         (optional_dict_value (PythonVirtualenvOperator.templates_dict self))
  else self.

(** The structure [_write_args] serializes. *)
Definition arg_dict_of (self : PythonVirtualenvOperator.instance) : pyval :=
  PyDict (<["args" := PyList (PythonVirtualenvOperator.op_args self)]>
          (<["kwargs" := PyDict (PythonVirtualenvOperator.op_kwargs self)]> ∅)).

(** [python_bin] as [execute_callable] computes it. *)
Definition python_bin_of (self : PythonVirtualenvOperator.instance) : option string :=
  match PythonVirtualenvOperator.python_version self with
  | Some v => if String.eqb v "" then None else Some ("python" +:+ PyStr.str v)
  | None => None
  end.

(** A path inside the directory [tmp_dir]. *)
Definition inside (tmp_dir path : string) : bool :=
  String.prefix (tmp_dir +:+ "/") path.

(** The world in which the subprocess starts: the files as the environment
    provisioner left them, then the input artifact when there is one (its
    bytes are [data]), the script [text] and the string arguments. *)
Definition marshalled_world (self : PythonVirtualenvOperator.instance)
    (tmp_dir : string) (files : gmap string string) (data : option string)
    (text : string) (w : world) : world :=
  {| fs :=
       <[PyStr.os_path_join tmp_dir "string_args.txt" :=
           PyStr.join PyStr.nl (PythonVirtualenvOperator.string_args self)]>
         (<[PyStr.os_path_join tmp_dir "script.py" := text]>
            (match data with
             | Some d => <[PyStr.os_path_join tmp_dir "script.in" := d]> files
             | None => files
             end));
     trace :=
       trace w ++
       (match data with
        | Some _ =>
            [EvOpen (PyStr.os_path_join tmp_dir "script.in") "wb";
             EvDump (configured_library (PythonVirtualenvOperator.use_dill self))
                    (PyStr.os_path_join tmp_dir "script.in")]
        | None => []
        end) ++
       [EvOpen (PyStr.os_path_join tmp_dir "script.py") "w";
        EvLog "debug" ("Writing code to file" +:+ PyStr.nl +:+ " %s") [PyStr text];
        EvOpen (PyStr.os_path_join tmp_dir "string_args.txt") "w"] |}.

(** The command line of an invocation in [tmp_dir]. *)
Definition command_in (tmp_dir : string) : list string :=
  PythonVirtualenvOperator._generate_python_cmd tmp_dir
    (PyStr.os_path_join tmp_dir "script.py")
    (PyStr.os_path_join tmp_dir "script.in")
    (PyStr.os_path_join tmp_dir "script.out")
    (PyStr.os_path_join tmp_dir "string_args.txt").

(** The input artifact is needed and are the bytes [data], or it is not
    needed and there is none. *)
Definition input_artifact (pickle dill : Pickler)
    (self : PythonVirtualenvOperator.instance) (data : option string) : Prop :=
  match data with
  | Some d =>
      PythonVirtualenvOperator._pass_op_args self = true
      /\ dumps (host_library pickle dill (PythonVirtualenvOperator.use_dill self))
           (arg_dict_of self) = Ok d
  | None => PythonVirtualenvOperator._pass_op_args self = false
  end.

(** The four artifacts of an invocation. *)
Definition artifact_names : list string :=
  ["script.in"; "script.out"; "string_args.txt"; "script.py"].

Module ExampleFailures.

(** An environment provisioner that fails after leaving a file behind. *)
Definition failing_prepare_virtualenv (venv_directory : string)
    (python_bin : option string) (system_site_packages : bool)
    (requirements : list string) : FsM unit :=
  fun files =>
    (<[venv_directory +:+ "/pip.log" := "no matching distribution"]> files,
     Raise (CalledProcessError ["virtualenv"; venv_directory])).

(** A world with a file outside of the temporary directory. *)
Definition world_with_home : world :=
  {| fs := {[ "/home/airflow/dag.py" := "dag" ]}; trace := [] |}.

End ExampleFailures.

(** ** [_PythonFunctionalOperator] and the [task] decorator *)

(** The three regular expressions of [_get_unique_task_id] on task ids,
    which Airflow restricts to letters, digits, [_], [-] and [.]: in
    [core], spliced into a pattern, only [.] is special there. *)
Module Re.

Definition is_digit (c : ascii) : bool :=
  let n := nat_of_ascii c in Nat.leb 48 n && Nat.leb n 57.

Fixpoint all_digits (s : string) : bool :=
  match s with
  | EmptyString => true
  | String c r => is_digit c && all_digits r
  end.

(** The characters of a task id ([airflow.utils.helpers.KEY_REGEX]). *)
Definition is_key_char (c : ascii) : bool :=
  let n := nat_of_ascii c in
  PyStr.is_id_continue c || Nat.eqb n 45 || Nat.eqb n 46.

Fixpoint all_key_chars (s : string) : bool :=
  match s with
  | EmptyString => true
  | String c r => is_key_char c && all_key_chars r
  end.

Definition valid_key (s : string) : bool :=
  negb (String.eqb s "") && all_key_chars s.

(** [re.match(r'__\d+$', s)]: the whole of [s] is two underscores and
    one or more digits. *)
Definition numeric_suffix (s : string) : bool :=
  match s with
  | String "_" (String "_" (String d ds)) => is_digit d && all_digits ds
  | _ => false
  end.

(** [re.split(r'__\d+$', s)[0]]: [s] up to the leftmost place where
    the pattern matches, all of [s] when it matches nowhere. *)
Fixpoint split_numeric_suffix (s : string) : string :=
  if numeric_suffix s then EmptyString
  else match s with
       | EmptyString => EmptyString
       | String c r => String c (split_numeric_suffix r)
       end.

(** One character of [core] as a pattern: [.] matches every character
    but a newline, another character matches itself. *)
Definition char_matches (p c : ascii) : bool :=
  if Ascii.eqb p "." then negb (Ascii.eqb c (ascii_of_nat 10))
  else Ascii.eqb p c.

(** What is left of [s] after a match of [core] at its start. *)
Fixpoint match_core (core s : string) : option string :=
  match core with
  | EmptyString => Some s
  | String p core' =>
      match s with
      | EmptyString => None
      | String c s' => if char_matches p c then match_core core' s' else None
      end
  end.

(** [re.match(rf'^{core}__\d+$', s)] as a truth value. *)
Definition match_numbered (core s : string) : bool :=
  match match_core core s with
  | Some rest => numeric_suffix rest
  | None => false
  end.

(** The text after the last [__] of [s], if [s] has one. *)
Fixpoint after_last_dunder (s : string) : option string :=
  match s with
  | EmptyString => None
  | String c r =>
      match after_last_dunder r with
      | Some t => Some t
      | None =>
          match s with
          | String "_" (String "_" t) => Some t
          | _ => None
          end
      end
  end.

(** [re.split(r'^.+__', s)]: the greedy [.+] takes at least one
    character and gives back until [__] follows, so the match ends
    after the last [__] that does not start [s]; without a match the
    list is [[s]]. *)
Definition split_greedy_dunder (s : string) : list string :=
  match s with
  | EmptyString => [s]
  | String _ r =>
      match after_last_dunder r with
      | Some t => [EmptyString; t]
      | None => [s]
      end
  end.

End Re.

(** [int(s)] for a text of ASCII digits. *)
Definition int_of_digits (s : string) : result nat :=
  match NilZero.uint_of_string s with
  | Some d => Ok (Nat.of_uint d)
  | None => Raise (ValueError ("invalid literal for int() with base 10: '" +:+ s +:+ "'"))
  end.

(** [l[i]] on a list of strings. *)
Definition list_item (l : list string) (i : nat) : result string :=
  match l !! i with
  | Some x => Ok x
  | None => Raise (IndexError "list index out of range")
  end.

(** A list comprehension whose element expression may raise. *)
Fixpoint comprehension {A B} (f : A -> result B) (l : list A) : result (list B) :=
  match l with
  | [] => Ok []
  | x :: rest =>
      let* y := f x in
      let* ys := comprehension f rest in
      Ok (y :: ys)
  end.

(** A DAG, as far as this module looks at it. *)
Record DAG : Type := {
  task_ids : list string
}.

(** [dag or DagContext.get_current_dag()]: a DAG object is true. *)
Definition dag_in_use (dag current_dag : option DAG) : option DAG :=
  match dag with
  | Some d => Some d
  | None => current_dag
  end.

(** The id [core__n]. *)
Definition numbered (core : string) (n : nat) : string :=
  core +:+ "__" +:+ PyStr.str_of_nat n.

(** ** [_PythonFunctionalOperator.execute], and [task] *)

(** What the callable of a functional operator returns: a dict, with its
    items in insertion order and keys of any type, or another value.  A
    [PyDict] is a dict as well; its items come in the order of the
    map. *)
Inductive returned : Type :=
| RDict (items : list (pyval * pyval))
| RValue (v : pyval).

(** The items of [return_value] if [isinstance(return_value, dict)]. *)
Definition dict_items (return_value : returned) : option (list (pyval * pyval)) :=
  match return_value with
  | RDict items => Some items
  | RValue (PyDict d) => Some (map (fun kv => (PyStr (fst kv), snd kv)) (map_to_list d))
  | RValue _ => None
  end.

(** [isinstance(key, str)] *)
Definition isinstance_str (key : pyval) : bool :=
  match key with PyStr _ => true | _ => false end.

(** What a functional operator does, in order. *)
Inductive functional_event : Type :=
| FCall (f : pyobj) (args : list pyval) (kwargs : gmap string pyval)
| FLog (level fmt : string) (arg : returned)
| FXComPush (key value : pyval).

Module _PythonFunctionalOperator.

Record instance : Type := {
  python_callable : pyobj;
  op_args : list pyval;
  op_kwargs : gmap string pyval;
  multiple_outputs : bool
}.

Section Dags.

(** [DagContext.get_current_dag()] *)
Variable get_current_dag : option DAG.

Definition _get_unique_task_id (task_id : string) (dag : option DAG)
    : result string :=
  let dag := dag_in_use dag get_current_dag in
  match dag with
  | None => Ok task_id
  | Some dag =>
      if negb (bool_decide (task_id ∈ task_ids dag)) then Ok task_id
      else
        let core := Re.split_numeric_suffix task_id in
        let* suffixes :=
          comprehension
            (fun task_id =>
               let* text := list_item (Re.split_greedy_dunder task_id) 1 in
               int_of_digits text)
            (filter (fun task_id => Re.match_numbered core task_id = true) (task_ids dag)) in
        let suffixes := merge_sort le suffixes in
        match last suffixes with
        | None => Ok (core +:+ "__1")
        | Some n => Ok (core +:+ "__" +:+ PyStr.str_of_nat (n + 1))
        end
  end.

End Dags.

(** [_PythonFunctionalOperator.validate_python_callable] *)
Definition validate_python_callable (python_callable : pyobj) : result unit :=
  if negb (callable python_callable)
  then Raise (TypeError "`python_callable` param must be callable")
  else
    let* sig := signature python_callable in
    if bool_decide ("self" ∈ map name sig)
    then Raise (AirflowException "@task does not support methods")
    else Ok tt.

Section Host.

(** What calling [f( *args, **kwargs)] returns or raises. *)
Variable invoke : pyobj -> list pyval -> gmap string pyval -> result returned.

(** What [BaseOperator.xcom_push(context, key, value)] does: it returns
    or raises. *)
Variable xcom_push : gmap string pyval -> pyval -> pyval -> result unit.

(** [str(key)] and [str(type(x))], for the messages. *)
Variable str_of : pyval -> string.
Variable type_of : pyval -> string.

(** The first loop: [for key in return_value.keys()]. *)
Fixpoint check_keys (keys : list pyval) : result unit :=
  match keys with
  | [] => Ok tt
  | key :: rest =>
      if negb (isinstance_str key)
      then Raise (AirflowException
             ("Returned dictionary keys must be strings when using " +:+
              "multiple_outputs, found " +:+ str_of key +:+
              " (" +:+ type_of key +:+ ") instead"))
      else check_keys rest
  end.

(** The second loop: [for key, value in return_value.items()]. *)
Fixpoint push_items (context : gmap string pyval) (items : list (pyval * pyval))
    (t : list functional_event) : list functional_event * result unit :=
  match items with
  | [] => (t, Ok tt)
  | (key, value) :: rest =>
      match xcom_push context key value with
      | Raise e => ((t ++ [FXComPush key value])%list, Raise e)
      | Ok _ => push_items context rest (t ++ [FXComPush key value])%list
      end
  end.

Definition execute (self : instance) (context : gmap string pyval)
    : list functional_event * result returned :=
  let t := [FCall (python_callable self) (op_args self) (op_kwargs self)] in
  match invoke (python_callable self) (op_args self) (op_kwargs self) with
  | Raise e => (t, Raise e)
  | Ok return_value =>
      let t := (t ++ [FLog "debug" "Done. Returned value was: %s" return_value])%list in
      if negb (multiple_outputs self) then (t, Ok return_value)
      else
        match dict_items return_value with
        | Some items =>
            match check_keys (map fst items) with
            | Raise e => (t, Raise e)
            | Ok _ =>
                match push_items context items t with
                | (t, Raise e) => (t, Raise e)
                | (t, Ok _) => (t, Ok return_value)
                end
            end
        | None =>
            (t, Raise (AirflowException
                  ("Returned output was type " +:+
                   match return_value with
                   | RValue v => type_of v
                   | RDict _ => "<class 'dict'>"
                   end +:+
                   " expected dictionary for multiple_outputs")))
        end
  end.

End Host.

End _PythonFunctionalOperator.

(** The decorator [task].  Its [wrapper] and the [factory] that
    [wrapper] returns close over [kwargs], the one dict of the call of
    [task], which [wrapper] changes in place: both are given the dict and
    hand it back. *)
Module Task.

(** What a call returns: the decorator [wrapper], or the [factory] of a
    function. *)
Inductive decorated : Type :=
| Wrapper
| Factory (f : pyobj).

(** [kwargs.setdefault(key, value)] *)
Definition setdefault (kwargs : gmap string pyval) (key : string) (value : pyval)
    : gmap string pyval :=
  match kwargs !! key with
  | Some _ => kwargs
  | None => <[key := value]> kwargs
  end.

Definition wrapper (f : pyobj) (kwargs : gmap string pyval)
    : gmap string pyval * result decorated :=
  match _PythonFunctionalOperator.validate_python_callable f with
  | Raise e => (kwargs, Raise e)
  | Ok _ =>
      match __name__ f with
      | Raise e => (kwargs, Raise e)
      | Ok n => (setdefault kwargs "task_id" (PyStr n), Ok (Factory f))
      end
  end.

(** [python_callable is not None] *)
Definition is_not_None_object (x : pyobj) : bool :=
  match x with NotCallable PyNone => false | _ => true end.

Definition task (python_callable : pyobj) (multiple_outputs : bool)
    (kwargs : gmap string pyval) : gmap string pyval * result decorated :=
  if callable python_callable then wrapper python_callable kwargs
  else if is_not_None_object python_callable
  then (kwargs, Raise (AirflowException
                         "No args allowed while using @task, use kwargs instead"))
  else (kwargs, Ok Wrapper).

End Task.

(** All keys are [str]. *)
Definition string_keys (items : list (pyval * pyval)) : Prop :=
  Forall (fun kv => isinstance_str (fst kv) = true) items.

(** The pushes of a trace. *)
Definition is_push (e : functional_event) : bool :=
  match e with FXComPush _ _ => true | _ => false end.

Module ExampleOutputs.

(** [def totals(): return {"rows": 3, 7: "seven"}] *)
Definition totals : pyobj := DefFunction "totals" [] "def totals(): return {'rows': 3, 7: 'seven'}".

(** [def sizes(): return {"rows": 3, "cols": 2}] *)
Definition sizes : pyobj := DefFunction "sizes" [] "def sizes(): return {'rows': 3, 'cols': 2}".

Definition invoke (f : pyobj) (args : list pyval) (kwargs : gmap string pyval)
    : result returned :=
  match f with
  | DefFunction "totals" _ _ => Ok (RDict [(PyStr "rows", PyInt 3); (PyInt 7, PyStr "seven")])
  | DefFunction "sizes" _ _ => Ok (RDict [(PyStr "rows", PyInt 3); (PyStr "cols", PyInt 2)])
  | _ => Ok (RValue PyNone)
  end.

Definition xcom_push (context : gmap string pyval) (key value : pyval) : result unit :=
  Ok tt.

Definition str_of (v : pyval) : string :=
  match v with PyInt 7 => "7" | PyStr s => s | _ => "?" end.

Definition type_of (v : pyval) : string :=
  match v with PyInt _ => "<class 'int'>" | PyStr _ => "<class 'str'>" | _ => "<class 'object'>" end.

Definition operator (f : pyobj) : _PythonFunctionalOperator.instance :=
  {| _PythonFunctionalOperator.python_callable := f;
     _PythonFunctionalOperator.op_args := [];
     _PythonFunctionalOperator.op_kwargs := ∅;
     _PythonFunctionalOperator.multiple_outputs := true |}.

(** [class Job: def run(self, ds): ...]; [Job.run], taken from the class. *)
Definition method_of_class : pyobj :=
  DefFunction "run" [Examples.positional "self"; Examples.positional "ds"]
    "def run(self, ds): return ds".

End ExampleOutputs.

(** ** The operators that skip tasks *)

(** [bool(v)]; an object of a class without [__bool__] and [__len__] is
    true. *)
Definition truthy (v : pyval) : bool :=
  match v with
  | PyNone => false
  | PyBool b => b
  | PyInt z => negb (Z.eqb z 0)
  | PyStr s => negb (String.eqb s "")
  | PyList l => match l with [] => false | _ => true end
  | PyDict d => negb (bool_decide (d = ∅))
  | PyObject _ => true
  end.

(** [context[key]] *)
Definition context_item (context : gmap string pyval) (key : string) : result pyval :=
  match context !! key with
  | Some v => Ok v
  | None => Raise (KeyError key)
  end.

(** The calls of the methods of [SkipMixin]. *)
Inductive skip_call : Type :=
| Skip (dag_run execution_date : pyval) (tasks : list pyval)
| SkipAllExcept (ti branch_task_ids : pyval).

Module BranchPythonOperator.

Section Host.

Variable invoke : pyobj -> list pyval -> gmap string pyval -> FsM pyval.

(** What [SkipMixin.skip_all_except(ti, branch_task_ids)] does: it
    returns or raises. *)
Variable skip_all_except : pyval -> pyval -> result unit.

(** [super().execute(context)] updates the [context] that the next
    line reads.  The calls of [SkipMixin] are returned next to the
    world. *)
Definition execute (self : PythonOperator.instance)
    (context : gmap string pyval) (w : world)
    : world * list skip_call * result pyval :=
  match PythonOperator.execute (PythonOperator.execute_callable invoke) self context w with
  | (w, _, _, Raise e) => (w, [], Raise e)
  | (w, _, context, Ok branch) =>
      match context_item context "ti" with
      | Raise e => (w, [], Raise e)
      | Ok ti =>
          match skip_all_except ti branch with
          | Raise e => (w, [SkipAllExcept ti branch], Raise e)
          | Ok _ => (w, [SkipAllExcept ti branch], Ok branch)
          end
      end
  end.

End Host.

End BranchPythonOperator.

Module ShortCircuitOperator.

Section Host.

Variable invoke : pyobj -> list pyval -> gmap string pyval -> FsM pyval.

(** [task.get_flat_relatives(upstream=False)] *)
Variable get_flat_relatives : pyval -> result (list pyval).

(** [ti.execution_date] *)
Variable execution_date : pyval -> result pyval.

(** What [SkipMixin.skip(dag_run, execution_date, tasks)] does: it
    returns or raises. *)
Variable skip : pyval -> pyval -> list pyval -> result unit.

(** The arguments of [self.skip], evaluated from left to right. *)
Definition skip_arguments (context : gmap string pyval) : result (pyval * pyval) :=
  let* dag_run := context_item context "dag_run" in
  let* ti := context_item context "ti" in
  let* date := execution_date ti in
  Ok (dag_run, date).

Definition execute (self : PythonOperator.instance)
    (context : gmap string pyval) (w : world)
    : world * list skip_call * result pyval :=
  match PythonOperator.execute (PythonOperator.execute_callable invoke) self context w with
  | (w, _, _, Raise e) => (w, [], Raise e)
  | (w, _, context, Ok condition) =>
      let w := fst (log_event "info" "Condition result is %s" [condition] w) in
      if truthy condition
      then (fst (log_event "info" "Proceeding with downstream tasks..." [] w), [], Ok PyNone)
      else
        let w := fst (log_event "info" "Skipping downstream tasks..." [] w) in
        match (let* task := context_item context "task" in get_flat_relatives task) with
        | Raise e => (w, [], Raise e)
        | Ok downstream_tasks =>
            let w := fst (log_event "debug" "Downstream task_ids %s"
                            [PyList downstream_tasks] w) in
            match downstream_tasks with
            | [] => (fst (log_event "info" "Done." [] w), [], Ok PyNone)
            | _ :: _ =>
                match skip_arguments context with
                | Raise e => (w, [], Raise e)
                | Ok (dag_run, date) =>
                    match skip dag_run date downstream_tasks with
                    | Raise e => (w, [Skip dag_run date downstream_tasks], Raise e)
                    | Ok _ =>
                        (fst (log_event "info" "Done." [] w),
                         [Skip dag_run date downstream_tasks], Ok PyNone)
                    end
                end
            end
        end
  end.

End Host.

End ShortCircuitOperator.

(** What the callable of the operator returned, if it returned. *)
Definition callable_returned
    (invoke : pyobj -> list pyval -> gmap string pyval -> FsM pyval)
    (self : PythonOperator.instance) (context : gmap string pyval) (w : world)
    : option pyval :=
  match PythonOperator.execute (PythonOperator.execute_callable invoke) self context w with
  | (_, _, _, Ok v) => Some v
  | (_, _, _, Raise _) => None
  end.

Module ExampleSkips.

(** [ShortCircuitOperator(python_callable=report, op_args=[1],
    op_kwargs={"ds": "", "task": <mine>})]: the condition is the
    empty text. *)
Definition gate_operator : PythonOperator.instance :=
  {| PythonOperator.python_callable := Examples.report;
     PythonOperator.op_args := [PyInt 1];
     PythonOperator.op_kwargs :=
       <["ds" := PyStr ""]> (<["task" := PyObject "<mine>"]> ∅);
     PythonOperator.templates_dict := None;
     PythonOperator.template_ext := [] |}.

Definition run_context : gmap string pyval :=
  <["task" := PyObject "<Task: gate>"]>
    (<["ti" := PyObject "<TaskInstance>"]>
       (<["dag_run" := PyObject "<DagRun>"]> ∅)).

(** Only the operator's own task has downstream tasks. *)
Definition get_flat_relatives (task : pyval) : result (list pyval) :=
  match task with
  | PyObject "<Task: gate>" => Ok [PyObject "<Task: load>"]
  | PyObject _ => Ok []
  | _ => Raise (AttributeError "object has no attribute 'get_flat_relatives'")
  end.

Definition execution_date (ti : pyval) : result pyval :=
  match ti with
  | PyObject _ => Ok (PyStr "2020-01-01T00:00:00")
  | _ => Raise (AttributeError "object has no attribute 'execution_date'")
  end.

Definition skip (dag_run execution_date : pyval) (tasks : list pyval) : result unit :=
  Ok tt.

Definition skip_all_except (ti branch : pyval) : result unit := Ok tt.

End ExampleSkips.
(** ** Facts about strings and parameters *)

Lemma id_start_not_star (c : ascii) :
  PyStr.is_id_start c = true -> c <> "*"%char.
Proof. intros H ->. discriminate H. Qed.

Lemma prefix_cons (a b : ascii) (s1 s2 : string) :
  String.prefix (String a s1) (String b s2) =
  if ascii_dec a b then String.prefix s1 s2 else false.
Proof. reflexivity. Qed.

Lemma prefix_star_star (c : ascii) (r : string) :
  c <> "*"%char -> String.prefix "**" (String c r) = false.
Proof.
  intros Hc. rewrite prefix_cons.
  destruct (ascii_dec "*" c) as [E|E]; [|reflexivity].
  exfalso. apply Hc. symmetry. exact E.
Qed.

Lemma prefix_star_star_snd (c : ascii) (r : string) :
  c <> "*"%char -> String.prefix "**" (String "*" (String c r)) = false.
Proof.
  intros Hc. rewrite prefix_cons.
  destruct (ascii_dec "*" "*") as [_|E]; [|reflexivity].
  rewrite prefix_cons.
  destruct (ascii_dec "*" c) as [E|E]; [|reflexivity].
  exfalso. apply Hc. symmetry. exact E.
Qed.

(** A declared parameter prints with two leading stars exactly when it is
    the catch-all keyword parameter. *)
Lemma str_startswith_star_star (p : PyParameter) :
  PyStr.isidentifier (name p) = true ->
  PyStr.startswith (PyParameter_str p) "**" = true <-> kind p = VAR_KEYWORD.
Proof.
  destruct p as [n k a d]. simpl. intros Hid.
  destruct n as [|c r]; [discriminate Hid|].
  simpl in Hid. apply andb_prop in Hid as [Hc _].
  apply id_start_not_star in Hc.
  unfold PyStr.startswith, PyParameter_str.
  cbn [name annotation_repr default_repr kind].
  match goal with
  | |- context [match k with VAR_POSITIONAL => "*" +:+ ?f | _ => _ end] =>
      assert (Hf : exists rest, f = String c rest)
        by (destruct a, d; eexists; reflexivity);
      destruct Hf as [rest ->]
  end.
  destruct k.
  - rewrite prefix_star_star by exact Hc. split; discriminate.
  - rewrite prefix_star_star by exact Hc. split; discriminate.
  - change ("*" +:+ String c rest) with (String "*" (String c rest)).
    rewrite prefix_star_star_snd by exact Hc. split; discriminate.
  - rewrite prefix_star_star by exact Hc. split; discriminate.
  - split; reflexivity.
Qed.

(** ** PythonOperator.determine_op_kwargs *)

Section DetermineOpKwargs.

Import PythonOperator.

Variable context : gmap string pyval.

Lemma check_reserved_free (ps : list PyParameter) :
  (forall p, p ∈ ps -> name p ∉ dom context) ->
  check_reserved context ps = Ok tt.
Proof.
  induction ps as [|p ps IH]; intros Hfree; [reflexivity|].
  simpl. rewrite bool_decide_eq_false_2.
  - apply IH. intros q Hq. apply Hfree. by right.
  - apply Hfree. by left.
Qed.

Lemma check_reserved_hit (ps : list PyParameter) :
  (exists p, p ∈ ps /\ name p ∈ dom context) ->
  exists p, p ∈ ps /\ name p ∈ dom context /\
    check_reserved context ps = Raise (ValueError (reserved_message (name p))).
Proof.
  induction ps as [|p ps IH]; intros (q & Hq & Hin).
  - by apply elem_of_nil in Hq.
  - simpl. destruct (decide (name p ∈ dom context)) as [Hp|Hp].
    + exists p. rewrite bool_decide_eq_true_2 by exact Hp.
      split; [by left|]. split; [exact Hp|reflexivity].
    + rewrite bool_decide_eq_false_2 by exact Hp.
      apply elem_of_cons in Hq as [->|Hq]; [contradiction|].
      destruct IH as (r & Hr & Hrin & Hres); [by exists q|].
      exists r. split; [by right|]. by split.
Qed.

(** The comprehension looks a key up in the context when the key is a
    declared name, and leaves the accumulator alone otherwise. *)
Lemma pick_lookup (sig : list PyParameter) (acc : gmap string pyval) (k : string) :
  foldl (fun acc p =>
           match context !! name p with
           | Some v => <[name p := v]> acc
           | None => acc
           end) acc sig !! k
  = match (if bool_decide (k ∈ map name sig) then context !! k else None) with
    | Some v => Some v
    | None => acc !! k
    end.
Proof.
  revert acc. induction sig as [|p sig IH]; intros acc.
  - cbn [foldl map]. rewrite bool_decide_eq_false_2; [reflexivity|]. apply not_elem_of_nil.
  - cbn [foldl map]. rewrite IH.
    destruct (decide (k ∈ map name sig)) as [Hk|Hk].
    + rewrite !bool_decide_eq_true_2; [|by right|exact Hk].
      destruct (context !! k) as [v|] eqn:Hv; [reflexivity|].
      destruct (context !! name p) as [v'|] eqn:Hp; [|reflexivity].
      rewrite lookup_insert_ne; [reflexivity|]. intros E. congruence.
    + rewrite (bool_decide_eq_false_2 _ Hk).
      destruct (decide (k = name p)) as [->|Hne].
      * rewrite bool_decide_eq_true_2 by (by left).
        destruct (context !! name p) as [v'|] eqn:Hp; [|reflexivity].
        by rewrite lookup_insert_eq.
      * rewrite bool_decide_eq_false_2.
        2:{ intros Hin. apply elem_of_cons in Hin as [?|?]; contradiction. }
        destruct (context !! name p) as [v'|] eqn:Hp; [|reflexivity].
        rewrite lookup_insert_ne; [reflexivity|]. congruence.
Qed.

Lemma pick_from_context_restrict (sig : list PyParameter) :
  pick_from_context context sig = restrict_to_names context sig.
Proof.
  apply map_eq. intros k. unfold pick_from_context, restrict_to_names.
  rewrite pick_lookup, lookup_empty.
  apply option_eq. intros v. rewrite map_lookup_filter_Some. simpl.
  destruct (decide (k ∈ map name sig)) as [Hk|Hk].
  - rewrite bool_decide_eq_true_2 by exact Hk.
    destruct (context !! k) as [v0|];
      (split; [intros Hv; by split | intros [Hv _]; exact Hv]).
  - rewrite bool_decide_eq_false_2 by exact Hk.
    split; [discriminate | intros [_ Hin]; contradiction].
Qed.

Lemma existsb_var_keyword (sig : list PyParameter) :
  Forall (fun p => PyStr.isidentifier (name p) = true) sig ->
  existsb (fun param => PyStr.startswith (PyParameter_str param) "**") sig = true
  <-> declares_var_keyword sig.
Proof.
  intros Hid. rewrite existsb_exists. unfold declares_var_keyword.
  rewrite Forall_forall in Hid.
  split; intros (p & Hp & H); exists p.
  - apply list_elem_of_In in Hp. split; [exact Hp|].
    apply str_startswith_star_star; [|exact H]. apply Hid. exact Hp.
  - split; [by apply list_elem_of_In|].
    apply str_startswith_star_star; [|exact H]. apply Hid. exact Hp.
Qed.

End DetermineOpKwargs.

(** C9.  [PythonOperator.determine_op_kwargs], for a callable whose
    signature [sig] can be inspected and whose parameter names are
    identifiers: when one of the first [num_op_args] declared names is a key
    of the context it raises the reserved-name [ValueError] for that name;
    otherwise it returns the whole context when the signature declares a
    catch-all keyword parameter, and otherwise exactly the context
    restricted to the declared names.  In [execute] the error comes before
    anything is passed on: the world is left as it was, whatever the
    operator's [execute_callable] would do. *)
Theorem determine_op_kwargs_spec
    (python_callable : pyobj) (context : gmap string pyval)
    (num_op_args : nat) (sig : list PyParameter) :
  signature python_callable = Ok sig ->
  Forall (fun p => PyStr.isidentifier (name p) = true) sig ->
  (reserved_collision context sig num_op_args ->
     exists p, p ∈ take num_op_args sig /\ name p ∈ dom context /\
       PythonOperator.determine_op_kwargs python_callable context num_op_args
       = Raise (ValueError (reserved_message (name p))))
  /\ (~ reserved_collision context sig num_op_args ->
      declares_var_keyword sig ->
      PythonOperator.determine_op_kwargs python_callable context num_op_args
      = Ok context)
  /\ (~ reserved_collision context sig num_op_args ->
      ~ declares_var_keyword sig ->
      PythonOperator.determine_op_kwargs python_callable context num_op_args
      = Ok (restrict_to_names context sig))
  /\ (forall (execute_callable : PythonOperator.instance -> M pyval)
             (self : PythonOperator.instance) (context0 : gmap string pyval)
             (w : world),
        PythonOperator.python_callable self = python_callable ->
        length (PythonOperator.op_args self) = num_op_args ->
        context = <["templates_dict" :=
                      optional_dict_value (PythonOperator.templates_dict self)]>
                    (PythonOperator.op_kwargs self ∪ context0) ->
        reserved_collision context sig num_op_args ->
        exists msg,
          PythonOperator.execute execute_callable self context0 w
          = (w, self, context, Raise (ValueError msg))).
Proof.
  intros Hsig Hid.
  assert (Hhit : reserved_collision context sig num_op_args ->
     exists p, p ∈ take num_op_args sig /\ name p ∈ dom context /\
       PythonOperator.determine_op_kwargs python_callable context num_op_args
       = Raise (ValueError (reserved_message (name p)))).
  { intros Hcol. apply check_reserved_hit in Hcol as (p & Hp & Hin & Hres).
    exists p. split; [exact Hp|]. split; [exact Hin|].
    unfold PythonOperator.determine_op_kwargs. rewrite Hsig. simpl.
    rewrite Hres. reflexivity. }
  assert (Hfree : ~ reserved_collision context sig num_op_args ->
     PythonOperator.check_reserved context (take num_op_args sig) = Ok tt).
  { intros Hno. apply check_reserved_free. intros p Hp Hin.
    apply Hno. exists p. by split. }
  split; [exact Hhit|]. split; [|split].
  - intros Hno Hkw. unfold PythonOperator.determine_op_kwargs.
    rewrite Hsig. simpl. rewrite (Hfree Hno). simpl.
    apply (existsb_var_keyword sig Hid) in Hkw. rewrite Hkw. reflexivity.
  - intros Hno Hkw. unfold PythonOperator.determine_op_kwargs.
    rewrite Hsig. simpl. rewrite (Hfree Hno). simpl.
    destruct (existsb _ sig) eqn:E.
    + exfalso. apply Hkw. by apply (existsb_var_keyword sig Hid).
    + by rewrite pick_from_context_restrict.
  - intros ec self context0 w Hc Hn Hctx Hcol.
    destruct (Hhit Hcol) as (p & _ & _ & Hres).
    exists (reserved_message (name p)).
    unfold PythonOperator.execute. rewrite Hc, Hn, <- Hctx, Hres. reflexivity.
Qed.

Lemma determine_op_kwargs_spec_witness :
  signature Examples.report = Ok Examples.report_sig
  /\ Forall (fun p => PyStr.isidentifier (name p) = true) Examples.report_sig
  /\ PythonOperator.determine_op_kwargs Examples.report Examples.small_context 1
     = Ok (restrict_to_names Examples.small_context Examples.report_sig).
Proof.
  assert (Hsig : signature Examples.report = Ok Examples.report_sig) by reflexivity.
  assert (Hid : Forall (fun p => PyStr.isidentifier (name p) = true) Examples.report_sig)
    by (repeat constructor).
  split; [exact Hsig|]. split; [exact Hid|].
  destruct (determine_op_kwargs_spec Examples.report Examples.small_context 1
              Examples.report_sig Hsig Hid) as (_ & _ & Hrestrict & _).
  apply Hrestrict.
  - intros (p & Hp & Hin). simpl in Hp.
    apply list_elem_of_singleton in Hp. subst p.
    apply elem_of_dom in Hin. destruct Hin as [v Hv]. vm_compute in Hv.
    discriminate Hv.
  - intros (p & Hp & Hk). unfold Examples.report_sig in Hp.
    apply elem_of_cons in Hp as [->|Hp]; [discriminate Hk|].
    apply list_elem_of_singleton in Hp. subst p. discriminate Hk.
Defined.

Example determine_op_kwargs_report :
  PythonOperator.determine_op_kwargs Examples.report Examples.small_context 1
  = Ok (<["ds" := PyStr "2020-01-01"]> ∅).
Proof. vm_compute. reflexivity. Qed.

Example determine_op_kwargs_reserved :
  PythonOperator.determine_op_kwargs Examples.report Examples.small_context 2
  = Raise (ValueError "The key ds in the op_args is part of the context, and therefore reserved").
Proof. vm_compute. reflexivity. Qed.

Example determine_op_kwargs_dump_all :
  PythonOperator.determine_op_kwargs Examples.dump_all Examples.small_context 0
  = Ok Examples.small_context.
Proof. vm_compute. reflexivity. Qed.

(** ** PythonVirtualenvOperator.__init__ *)

Lemma validation_error_airflow {A} (b : result unit) (msg : string) :
  validation_error b (@Raise A (AirflowException msg)).
Proof. split; [exact I|]. intros _. by exists msg. Qed.

Lemma validation_error_host {A} (e : pyexn) :
  validation_error (Raise e) (@Raise A e).
Proof. split; [exact I|]. intros H. discriminate H. Qed.

Lemma existsb_dill_false (requirements : option (list string)) :
  dill_not_in_requirements requirements ->
  existsb id (map (fun x => PyStr.startswith (PyStr.lower x) "dill")
                  (or_list requirements)) = false.
Proof.
  unfold dill_not_in_requirements.
  induction (or_list requirements) as [|x l IH]; intros H; [reflexivity|].
  apply Forall_cons in H as [Hx Hl]. simpl. unfold id at 1. rewrite Hx.
  simpl. by apply IH.
Qed.

Lemma pass_op_args_nonempty (b : PythonOperator.instance)
    (r s : list string) (v : option string) (d p : bool) :
  PythonOperator.op_args b <> [] \/ PythonOperator.op_kwargs b <> ∅ ->
  PythonVirtualenvOperator._pass_op_args
    {| PythonVirtualenvOperator.base := b;
       PythonVirtualenvOperator.requirements := r;
       PythonVirtualenvOperator.string_args := s;
       PythonVirtualenvOperator.python_version := v;
       PythonVirtualenvOperator.use_dill := d;
       PythonVirtualenvOperator.system_site_packages := p |} = true.
Proof.
  unfold PythonVirtualenvOperator._pass_op_args,
    PythonVirtualenvOperator.op_args, PythonVirtualenvOperator.op_kwargs.
  simpl. intros [Ha|Hk]; apply Nat.ltb_lt.
  - destruct (PythonOperator.op_args b); [contradiction|]. simpl. lia.
  - assert (size (PythonOperator.op_kwargs b) <> 0).
    { intros Hz. apply Hk. by apply map_size_empty_inv. }
    lia.
Qed.

(** Each check of the constructor either refuses with an
    [AirflowException] or hands over to the next one. *)
Ltac init_step :=
  match goal with
  | |- validation_error _ (Raise (AirflowException _)) =>
      apply validation_error_airflow
  | |- validation_error _ (if ?c then _ else _) =>
      let E := fresh "E" in destruct c eqn:E
  | |- validation_error _ (bind_result (Ok _) _) => cbn [bind_result]
  end.

(** C8.  A [python_callable] that is not a function object (a bound
    method, a builtin, an instance with [__call__], something that cannot
    be called), or that is a function carrying the name ["<lambda>"], as
    every lambda does until it is renamed, is refused by the constructor
    with an [AirflowException]: no instance comes out of the call, so
    nothing of the operator can run, no file operation either. *)
Theorem init_rejects_non_functions
    (BaseOperator__init__ : result unit) (sys_version_major : nat)
    (python_callable : pyobj) (requirements : option (list string))
    (python_version : option string) (use_dill system_site_packages : bool)
    (op_args : option (list pyval)) (op_kwargs : option (gmap string pyval))
    (string_args : option (list string))
    (templates_dict : option (gmap string pyval))
    (templates_exts : option (list string)) :
  named_function python_callable = false ->
  validation_error BaseOperator__init__
    (PythonVirtualenvOperator.__init__ BaseOperator__init__ sys_version_major
       python_callable requirements python_version use_dill
       system_site_packages op_args op_kwargs string_args templates_dict
       templates_exts)
  /\ forall self,
       PythonVirtualenvOperator.__init__ BaseOperator__init__ sys_version_major
         python_callable requirements python_version use_dill
         system_site_packages op_args op_kwargs string_args templates_dict
         templates_exts <> Ok self.
Proof.
  intros Hnamed.
  assert (Hv : validation_error BaseOperator__init__
            (PythonVirtualenvOperator.__init__ BaseOperator__init__
               sys_version_major python_callable requirements python_version
               use_dill system_site_packages op_args op_kwargs string_args
               templates_dict templates_exts)).
  { unfold PythonVirtualenvOperator.__init__, PythonOperator.__init__.
    destruct BaseOperator__init__ as [[]|e]; [|apply validation_error_host].
    destruct python_callable as [form n ps src| | | |];
      cbn -[PyStr.startswith PyStr.lower String.append String.eqb];
      repeat init_step.
    cbn in Hnamed. apply negb_false_iff in Hnamed.
    cbn -[PyStr.startswith PyStr.lower String.append String.eqb] in E0.
    congruence. }
  split; [exact Hv|]. intros self Hself. destruct Hv as [Hr _].
  rewrite Hself in Hr. exact Hr.
Qed.

Lemma init_rejects_non_functions_witness :
  named_function PythonVirtualenvOperator.lambda_x_0 = false
  /\ validation_error (Ok tt)
       (PythonVirtualenvOperator.__init__ (Ok tt) 3
          PythonVirtualenvOperator.lambda_x_0 None None false true
          None None None None None).
Proof.
  split; [reflexivity|].
  apply (init_rejects_non_functions (Ok tt) 3 PythonVirtualenvOperator.lambda_x_0
           None None false true None None None None None).
  reflexivity.
Defined.

(** A lambda that was given a name of its own is accepted like a function
    defined with [def]: the constructor only compares names. *)
Lemma init_accepts_renamed_lambda :
  is_lambda ExampleCallables.renamed_lambda = true
  /\ PythonVirtualenvOperator.__init__ (Ok tt) 3 ExampleCallables.renamed_lambda
       None None false true None None None None None
     = Ok {| PythonVirtualenvOperator.base :=
               {| PythonOperator.python_callable := ExampleCallables.renamed_lambda;
                  PythonOperator.op_args := [];
                  PythonOperator.op_kwargs := ∅;
                  PythonOperator.templates_dict := None;
                  PythonOperator.template_ext := [] |};
             PythonVirtualenvOperator.requirements := [];
             PythonVirtualenvOperator.string_args := [];
             PythonVirtualenvOperator.python_version := None;
             PythonVirtualenvOperator.use_dill := false;
             PythonVirtualenvOperator.system_site_packages := true |}
  /\ ~ validation_error (Ok tt)
         (PythonVirtualenvOperator.__init__ (Ok tt) 3
            ExampleCallables.renamed_lambda
            None None false true None None None None None).
Proof.
  split; [reflexivity|]. split; [reflexivity|].
  intros [H _]. exact H.
Qed.

Example init_lambda :
  PythonVirtualenvOperator.__init__ (Ok tt) 3 PythonVirtualenvOperator.lambda_x_0
    None None false true None None None None None
  = Raise (AirflowException
      "PythonVirtualenvOperator only supports functions for python_callable arg").
Proof. reflexivity. Qed.

Example init_bound_method :
  PythonVirtualenvOperator.__init__ (Ok tt) 3 ExampleCallables.bound_run
    None None false true None None None None None
  = Raise (AirflowException
      "PythonVirtualenvOperator only supports functions for python_callable arg").
Proof. reflexivity. Qed.

(** C6.  When [python_version] is given, its leading character differs from
    [str(sys.version_info[0])] and a positional or a keyword argument is
    supplied, the constructor refuses: no instance exists to execute, so no
    subprocess can be started for it. *)
Theorem init_rejects_args_across_major_versions
    (BaseOperator__init__ : result unit) (sys_version_major : nat)
    (python_callable : pyobj) (requirements : option (list string))
    (v c : string) (use_dill system_site_packages : bool)
    (op_args : option (list pyval)) (op_kwargs : option (gmap string pyval))
    (string_args : option (list string))
    (templates_dict : option (gmap string pyval))
    (templates_exts : option (list string)) :
  PyStr.first_char v = Some c ->
  c <> PyStr.str_of_nat sys_version_major ->
  or_list op_args <> [] \/ or_dict op_kwargs <> ∅ ->
  validation_error BaseOperator__init__
    (PythonVirtualenvOperator.__init__ BaseOperator__init__ sys_version_major
       python_callable requirements (Some v) use_dill
       system_site_packages op_args op_kwargs string_args templates_dict
       templates_exts)
  /\ forall self,
       PythonVirtualenvOperator.__init__ BaseOperator__init__ sys_version_major
         python_callable requirements (Some v) use_dill
         system_site_packages op_args op_kwargs string_args templates_dict
         templates_exts <> Ok self.
Proof.
  intros Hc Hne Hargs.
  assert (Hneq : negb (String.eqb c (PyStr.str_of_nat sys_version_major)) = true).
  { apply negb_true_iff. by apply String.eqb_neq. }
  match goal with |- validation_error _ ?r /\ _ =>
    assert (Hv : validation_error BaseOperator__init__ r) end.
  { unfold PythonVirtualenvOperator.__init__, PythonOperator.__init__.
    destruct BaseOperator__init__ as [[]|e]; [|apply validation_error_host].
    unfold PyStr.str. rewrite Hc, Hneq.
    destruct python_callable;
      cbn -[PyStr.startswith PyStr.lower String.append
            PythonVirtualenvOperator._pass_op_args];
      repeat (first [rewrite pass_op_args_nonempty by exact Hargs | init_step]). }
  split; [exact Hv|]. intros self Hself. destruct Hv as [Hr _].
  rewrite Hself in Hr. exact Hr.
Qed.

Lemma init_rejects_args_across_major_versions_witness :
  PyStr.first_char "3" = Some "3"
  /\ "3" <> PyStr.str_of_nat 2
  /\ (or_list (Some [PyInt 1]) <> [] \/ or_dict None <> ∅)
  /\ validation_error (Ok tt)
       (PythonVirtualenvOperator.__init__ (Ok tt) 2 ExampleCallables.add
          None (Some "3") false true (Some [PyInt 1]) None None None None).
Proof.
  assert (H1 : PyStr.first_char "3" = Some "3") by reflexivity.
  assert (H2 : "3" <> PyStr.str_of_nat 2)
    by (intros H; vm_compute in H; discriminate H).
  assert (H3 : or_list (Some [PyInt 1]) <> [] \/ or_dict None <> ∅)
    by (left; simpl; discriminate).
  split; [exact H1|]. split; [exact H2|]. split; [exact H3|].
  exact (proj1 (init_rejects_args_across_major_versions (Ok tt) 2
                  ExampleCallables.add None "3" "3" false true
                  (Some [PyInt 1]) None None None None H1 H2 H3)).
Defined.

Example init_python3_on_python2_with_args :
  PythonVirtualenvOperator.__init__ (Ok tt) 2 ExampleCallables.add
    None (Some "3") false true (Some [PyInt 1]) None None None None
  = Raise (AirflowException
      "Passing op_args or op_kwargs is not supported across different Python major versions for PythonVirtualenvOperator. Please use string_args.").
Proof. vm_compute. reflexivity. Qed.

Example init_python3_on_python2_string_args_only :
  PythonVirtualenvOperator.__init__ (Ok tt) 2 ExampleCallables.add
    None (Some "3") false true None None (Some ["alpha"; "beta"]) None None
  = Ok {| PythonVirtualenvOperator.base :=
            {| PythonOperator.python_callable := ExampleCallables.add;
               PythonOperator.op_args := [];
               PythonOperator.op_kwargs := ∅;
               PythonOperator.templates_dict := None;
               PythonOperator.template_ext := [] |};
          PythonVirtualenvOperator.requirements := [];
          PythonVirtualenvOperator.string_args := ["alpha"; "beta"];
          PythonVirtualenvOperator.python_version := Some "3";
          PythonVirtualenvOperator.use_dill := false;
          PythonVirtualenvOperator.system_site_packages := true |}.
Proof. vm_compute. reflexivity. Qed.

(** C7, as the constructor has it.  Asking for dill with no requirement
    that names dill is refused when the environment is also cut off from the
    system's site packages ([system_site_packages] false). *)
Theorem init_rejects_dill_without_source
    (BaseOperator__init__ : result unit) (sys_version_major : nat)
    (python_callable : pyobj) (requirements : option (list string))
    (python_version : option string)
    (op_args : option (list pyval)) (op_kwargs : option (gmap string pyval))
    (string_args : option (list string))
    (templates_dict : option (gmap string pyval))
    (templates_exts : option (list string)) :
  dill_not_in_requirements requirements ->
  validation_error BaseOperator__init__
    (PythonVirtualenvOperator.__init__ BaseOperator__init__ sys_version_major
       python_callable requirements python_version true
       false op_args op_kwargs string_args templates_dict templates_exts).
Proof.
  intros Hreq. apply existsb_dill_false in Hreq.
  unfold PythonVirtualenvOperator.__init__, PythonOperator.__init__.
  destruct BaseOperator__init__ as [[]|e]; [|apply validation_error_host].
  cbn [bind_result]. destruct (callable python_callable).
  - cbn [negb bind_result PythonVirtualenvOperator.requirements].
    rewrite Hreq. cbn [negb andb]. init_step.
  - cbn [negb bind_result]. init_step.
Qed.

Lemma init_rejects_dill_without_source_witness :
  dill_not_in_requirements (Some ["numpy"])
  /\ validation_error (Ok tt)
       (PythonVirtualenvOperator.__init__ (Ok tt) 3 ExampleCallables.add
          (Some ["numpy"]) None true false None None None None None).
Proof.
  assert (H : dill_not_in_requirements (Some ["numpy"]))
    by (repeat constructor).
  split; [exact H|].
  exact (init_rejects_dill_without_source (Ok tt) 3 ExampleCallables.add
           (Some ["numpy"]) None None None None None None H).
Defined.

(** C7 as stated fails: with the default [system_site_packages = True] the
    constructor accepts [use_dill = True] although no requirement names
    dill. *)
Lemma init_dill_via_system_site_packages :
  dill_not_in_requirements None
  /\ PythonVirtualenvOperator.__init__ (Ok tt) 3 ExampleCallables.add
       None None true true None None None None None
     = Ok {| PythonVirtualenvOperator.base :=
               {| PythonOperator.python_callable := ExampleCallables.add;
                  PythonOperator.op_args := [];
                  PythonOperator.op_kwargs := ∅;
                  PythonOperator.templates_dict := None;
                  PythonOperator.template_ext := [] |};
             PythonVirtualenvOperator.requirements := [];
             PythonVirtualenvOperator.string_args := [];
             PythonVirtualenvOperator.python_version := None;
             PythonVirtualenvOperator.use_dill := true;
             PythonVirtualenvOperator.system_site_packages := true |}
  /\ ~ validation_error (Ok tt)
         (PythonVirtualenvOperator.__init__ (Ok tt) 3 ExampleCallables.add
            None None true true None None None None None).
Proof.
  split; [constructor|]. split; [vm_compute; reflexivity|].
  intros [Hr _]. vm_compute in Hr. exact Hr.
Qed.

(** ** The trace only grows *)

Section Emits.

Context {P : event -> Prop}.

Lemma emits_ret {A} (a : A) : emits P (ret a).
Proof. intros w. exists []. by rewrite app_nil_r. Qed.

Lemma emits_raise {A} (e : pyexn) : emits P (@raise A e).
Proof. intros w. exists []. by rewrite app_nil_r. Qed.




Lemma emits_bind {A B} (m : M A) (k : A -> M B) :
  emits P m -> (forall a, emits P (k a)) -> emits P (bind m k).
Proof.
  intros Hm Hk w. destruct (Hm w) as (t1 & E1 & F1). unfold bind.
  destruct (m w) as [w1 [a|e]]; simpl in E1.
  - destruct (Hk a w1) as (t2 & E2 & F2). exists (t1 ++ t2)%list.
    rewrite E2, E1, app_assoc. split; [reflexivity|]. by apply Forall_app.
  - exists t1. by split.
Qed.

Lemma emits_bind_raise {A B} (e : pyexn) (k : A -> M B) :
  emits P (bind (raise e) k).
Proof. intros w. exists []. simpl. by rewrite app_nil_r. Qed.









Lemma emits_global (g : script_globals) (var : string) : emits P (global g var).
Proof. unfold global. destruct (g !! var); [apply emits_ret|apply emits_raise]. Qed.


Lemma emits_sys_argv (g : script_globals) (argv : list string) (i : nat) :
  emits P (sys_argv g argv i).
Proof.
  unfold sys_argv. apply emits_bind; [apply emits_global|]. intros x.
  destruct x; try apply emits_raise.
  destruct (String.eqb module "sys"); [|apply emits_raise].
  destruct (argv !! i); [apply emits_ret|apply emits_raise].
Qed.


End Emits.


(** ** The effects of the driver script *)

Section ScriptEffects.

Variable venv_pickle : Pickler.
Variable venv_dill : option Pickler.
Variable exec_source : string -> script_globals -> FsM (list string).
Variable run_callable : string -> string -> pyval -> pyval -> script_globals -> FsM pyval.






End ScriptEffects.

(** ** The effects of one invocation *)

Section InvocationEffects.

Variable pickle dill : Pickler.
Variable venv_pickle : Pickler.
Variable venv_dill : option Pickler.
Variable exec_source : string -> script_globals -> FsM (list string).
Variable run_callable : string -> string -> pyval -> pyval -> script_globals -> FsM pyval.
Variable prepare_virtualenv : string -> option string -> bool -> list string -> FsM unit.
Variable dedent : string -> string.

Import PythonVirtualenvOperator.






End InvocationEffects.

(** ** The generated text is the rendering of the driver script *)

Lemma append_head (c : ascii) (r s : string) :
  String c r +:+ s = String c (r +:+ s).
Proof. reflexivity. Qed.

Lemma append_assoc (a b c : string) : (a +:+ b) +:+ c = a +:+ (b +:+ c).
Proof.
  induction a as [|x a IH]; [reflexivity|].
  rewrite !append_head. f_equal. exact IH.
Qed.

Lemma render_driver_script (dedent : string -> string)
    (self : PythonVirtualenvOperator.instance) :
  PythonVirtualenvOperator._generate_python_code dedent self
  = fmap_result render (PythonVirtualenvOperator.driver_script dedent self).
Proof.
  unfold PythonVirtualenvOperator._generate_python_code,
    PythonVirtualenvOperator.driver_script.
  destruct (getsource _) as [source|e]; [|reflexivity].
  destruct (__name__ _) as [fname|e]; [|reflexivity].
  cbn [bind_result fmap_result]. f_equal.
  destruct (PythonVirtualenvOperator.use_dill self),
    (PythonVirtualenvOperator._pass_op_args self);
    cbn [render render_stmt]; rewrite !append_assoc; reflexivity.
Qed.

Lemma driver_script_shape (dedent : string -> string)
    (self : PythonVirtualenvOperator.instance) (program : list stmt) :
  PythonVirtualenvOperator.driver_script dedent self = Ok program ->
  exists source fname,
    getsource (PythonVirtualenvOperator.python_callable self) = Ok source
    /\ __name__ (PythonVirtualenvOperator.python_callable self) = Ok fname
    /\ program
       = script_of (configured_library (PythonVirtualenvOperator.use_dill self))
           (if PythonVirtualenvOperator._pass_op_args self
            then SLoadArgs (configured_library (PythonVirtualenvOperator.use_dill self)) 1
            else SEmptyArgs)
           (dedent source) fname.
Proof.
  unfold PythonVirtualenvOperator.driver_script.
  destruct (getsource _) as [source|e]; [|discriminate].
  destruct (__name__ _) as [fname|e]; [|discriminate].
  cbn [bind_result]. intros [= <-]. exists source, fname.
  split; [reflexivity|]. split; reflexivity.
Qed.

Lemma pass_op_args_empty (self : PythonVirtualenvOperator.instance) :
  PythonVirtualenvOperator.op_args self = [] ->
  PythonVirtualenvOperator.op_kwargs self = ∅ ->
  PythonVirtualenvOperator._pass_op_args self = false.
Proof.
  intros Ha Hk. unfold PythonVirtualenvOperator._pass_op_args.
  rewrite Ha, Hk, map_size_empty. reflexivity.
Qed.

(** ** Stepping through computations *)

Lemma bind_ok {A B} (m : M A) (k : A -> M B) (w w1 : world) (a : A) :
  m w = (w1, Ok a) -> bind m k w = k a w1.
Proof. intros H. unfold bind. by rewrite H. Qed.

Lemma bind_raised {A B} (m : M A) (k : A -> M B) (w w1 : world) (e : pyexn) :
  m w = (w1, Raise e) -> bind m k w = (w1, Raise e).
Proof. intros H. unfold bind. by rewrite H. Qed.










Section Steps.

Variable venv_pickle : Pickler.
Variable venv_dill : option Pickler.
Variable exec_source : string -> script_globals -> FsM (list string).
Variable run_callable : string -> string -> pyval -> pyval -> script_globals -> FsM pyval.

Local Abbreviation step := (exec_stmt venv_pickle venv_dill exec_source run_callable).
Local Abbreviation steps := (exec_stmts venv_pickle venv_dill exec_source run_callable).















End Steps.

Section RunWithoutArguments.

Variable venv_pickle : Pickler.
Variable venv_dill : option Pickler.
Variable exec_source : string -> script_globals -> FsM (list string).
Variable run_callable : string -> string -> pyval -> pyval -> script_globals -> FsM pyval.


End RunWithoutArguments.



(** A function named like a global the script still needs hides it: after
    [def sys(): pass] the name [sys] is the function, and the statement
    that writes the result fails on [sys.argv]. *)
Example script_of_callable_named_sys :
  run_script (MiniPickle.pickler 4 []) None ExampleOperators.exec_source
    ExampleOperators.run_callable
    (script_of "pickle" SEmptyArgs "def sys(): pass" "sys")
    ExampleOperators.argv
    {| fs := {[ "/tmp/venv1/string_args.txt" := "" ]}; trace := [] |}
  = ({| fs := {[ "/tmp/venv1/string_args.txt" := "" ]};
        trace := [EvImport "pickle"; EvImport "sys";
                  EvOpen "/tmp/venv1/string_args.txt" "r";
                  EvScriptCall "sys" (PyList []) (PyDict ∅)] |},
     Raise (AttributeError "object has no attribute 'argv'")).
Proof. vm_compute. reflexivity. Qed.

(** After [def args(): pass] the call itself fails: [*args] is handed a
    function. *)
Example script_of_callable_named_args :
  run_script (MiniPickle.pickler 4 []) None ExampleOperators.exec_source
    ExampleOperators.run_callable
    (script_of "pickle" SEmptyArgs "def args(): pass" "args")
    ExampleOperators.argv
    {| fs := {[ "/tmp/venv1/string_args.txt" := "" ]}; trace := [] |}
  = ({| fs := {[ "/tmp/venv1/string_args.txt" := "" ]};
        trace := [EvImport "pickle"; EvImport "sys";
                  EvOpen "/tmp/venv1/string_args.txt" "r"] |},
     Raise (TypeError "argument after * must be an iterable")).
Proof. vm_compute. reflexivity. Qed.

Example generated_script_noop :
  PythonVirtualenvOperator._generate_python_code ExampleOperators.dedent
    (ExampleOperators.operator ExampleOperators.noop [] false)
  = Ok ("import pickle" +:+ PyStr.nl +:+
        "import sys" +:+ PyStr.nl +:+
        "arg_dict = {" +:+ PyStr.dquote +:+ "args" +:+ PyStr.dquote +:+ ": [], " +:+
          PyStr.dquote +:+ "kwargs" +:+ PyStr.dquote +:+ ": {}}" +:+ PyStr.nl +:+
        "args = arg_dict[" +:+ PyStr.dquote +:+ "args" +:+ PyStr.dquote +:+ "]" +:+ PyStr.nl +:+
        "kwargs = arg_dict[" +:+ PyStr.dquote +:+ "kwargs" +:+ PyStr.dquote +:+ "]" +:+ PyStr.nl +:+
        "with open(sys.argv[3], 'r') as file:" +:+ PyStr.nl +:+
        "    virtualenv_string_args = list(map(lambda x: x.strip(), list(file)))" +:+ PyStr.nl +:+
        "def noop(): pass" +:+ PyStr.nl +:+
        "res = noop(*args, **kwargs)" +:+ PyStr.nl +:+
        "with open(sys.argv[2], 'wb') as file:" +:+ PyStr.nl +:+
        "    res is not None and pickle.dump(res, file)" +:+ PyStr.nl).
Proof. vm_compute. reflexivity. Qed.

(** ** PythonVirtualenvOperator._read_result *)

Lemma length_zero_empty (s : string) : String.length s = 0 <-> s = "".
Proof. destruct s; split; intros H; try reflexivity; discriminate H. Qed.

Lemma read_result_empty_file
    (pickle dill : Pickler) (self : PythonVirtualenvOperator.instance)
    (output_filename : string) (w : world) :
  fs w !! output_filename = Some "" ->
  PythonVirtualenvOperator._read_result pickle dill self output_filename w
  = ({| fs := fs w; trace := trace w ++ [EvStat output_filename] |},
     Ok PyNone).
Proof.
  intros Hfile. unfold PythonVirtualenvOperator._read_result.
  erewrite bind_ok by (unfold os_stat_st_size; rewrite Hfile; reflexivity).
  reflexivity.
Qed.

(** C2, as the code has it.  For an output file that exists:
    a zero-length file gives [None] after the size check alone, with no
    [open] and no decode; a non-empty file is opened and decoded with the
    configured library, and [_read_result] returns what the decoder returns
    or raises what it raises, never swallowing a failure.  The message about
    major Python versions is logged before the re-raise exactly when the
    failure is a [ValueError]; any other failure propagates without it. *)
Theorem read_result_spec
    (pickle dill : Pickler) (self : PythonVirtualenvOperator.instance)
    (output_filename content : string) (w : world) :
  fs w !! output_filename = Some content ->
  (content = "" ->
     PythonVirtualenvOperator._read_result pickle dill self output_filename w
     = ({| fs := fs w; trace := trace w ++ [EvStat output_filename] |},
        Ok PyNone))
  /\ (content <> "" ->
      PythonVirtualenvOperator._read_result pickle dill self output_filename w
      = ({| fs := fs w;
            trace :=
              (trace w ++
               [EvStat output_filename;
                EvOpen output_filename "rb";
                EvLoad (configured_library (PythonVirtualenvOperator.use_dill self))
                       output_filename]) ++
              logged_after_decode
                (loads (host_library pickle dill
                          (PythonVirtualenvOperator.use_dill self)) content) |},
         loads (host_library pickle dill
                  (PythonVirtualenvOperator.use_dill self)) content)).
Proof.
  intros Hfile. split; intros Hcontent.
  - subst content. by apply read_result_empty_file.
  - unfold PythonVirtualenvOperator._read_result.
    erewrite bind_ok by (unfold os_stat_st_size; rewrite Hfile; reflexivity).
    destruct (Nat.eqb (String.length content) 0) eqn:E.
    { apply Nat.eqb_eq, length_zero_empty in E. contradiction. }
    erewrite bind_ok
      by (unfold open_read; cbn [fs trace]; rewrite Hfile; reflexivity).
    unfold except_ValueError_reraise, host_library, logged_after_decode.
    destruct (PythonVirtualenvOperator.use_dill self);
      unfold pickler_load, bind, emit, lift, log_event; cbn [fs trace fst];
      match goal with |- context [loads ?l content] =>
        destruct (loads l content) as [v|e] end;
      cbn [fst snd fs trace configured_library];
      try destruct (isinstance_ValueError e);
      unfold emit; cbn [fst snd fs trace];
      rewrite <- ?app_assoc; cbn [app]; rewrite ?app_nil_r; reflexivity.
Qed.

Lemma read_result_spec_witness :
  fs (ExampleResults.world_with_output ExampleResults.five_protocol_4)
    !! ExampleResults.out = Some ExampleResults.five_protocol_4
  /\ PythonVirtualenvOperator._read_result
       (MiniPickle.pickler 2 []) (MiniPickle.pickler 2 [])
       (ExampleOperators.operator ExampleOperators.answer [] false)
       ExampleResults.out
       (ExampleResults.world_with_output ExampleResults.five_protocol_4)
     = ({| fs := {[ ExampleResults.out := ExampleResults.five_protocol_4 ]};
           trace := [EvStat ExampleResults.out;
                     EvOpen ExampleResults.out "rb";
                     EvLoad "pickle" ExampleResults.out;
                     EvLog "error" deserialization_message []] |},
        Raise (ValueError "unsupported pickle protocol: 4")).
Proof.
  assert (H : fs (ExampleResults.world_with_output ExampleResults.five_protocol_4)
                !! ExampleResults.out = Some ExampleResults.five_protocol_4)
    by (vm_compute; reflexivity).
  split; [exact H|].
  rewrite (proj2 (read_result_spec (MiniPickle.pickler 2 []) (MiniPickle.pickler 2 [])
                    (ExampleOperators.operator ExampleOperators.answer [] false)
                    ExampleResults.out ExampleResults.five_protocol_4
                    (ExampleResults.world_with_output ExampleResults.five_protocol_4)
                    H)).
  - vm_compute. reflexivity.
  - vm_compute. discriminate.
Defined.

Example read_result_same_version :
  PythonVirtualenvOperator._read_result
    (MiniPickle.pickler 4 []) (MiniPickle.pickler 4 [])
    (ExampleOperators.operator ExampleOperators.answer [] false)
    ExampleResults.out
    (ExampleResults.world_with_output ExampleResults.five_protocol_4)
  = ({| fs := {[ ExampleResults.out := ExampleResults.five_protocol_4 ]};
        trace := [EvStat ExampleResults.out;
                  EvOpen ExampleResults.out "rb";
                  EvLoad "pickle" ExampleResults.out] |},
     Ok (PyInt 5)).
Proof. vm_compute. reflexivity. Qed.

(** C2 as stated fails: a result whose class lives in a package of the
    isolated environment cannot be decoded by the host; the failure is a
    [ModuleNotFoundError], which [except ValueError] does not catch, so it
    propagates with nothing logged. *)
Lemma read_result_decode_failure_not_logged :
  ExampleResults.numpy_global <> ""
  /\ PythonVirtualenvOperator._read_result
       (MiniPickle.pickler 4 []) (MiniPickle.pickler 4 [])
       (ExampleOperators.operator ExampleOperators.answer [] false)
       ExampleResults.out
       (ExampleResults.world_with_output ExampleResults.numpy_global)
     = ({| fs := {[ ExampleResults.out := ExampleResults.numpy_global ]};
           trace := [EvStat ExampleResults.out;
                     EvOpen ExampleResults.out "rb";
                     EvLoad "pickle" ExampleResults.out] |},
        Raise (ModuleNotFoundError "numpy"))
  /\ Forall (fun e => is_log e = false)
       (trace (PythonVirtualenvOperator._read_result
                 (MiniPickle.pickler 4 []) (MiniPickle.pickler 4 [])
                 (ExampleOperators.operator ExampleOperators.answer [] false)
                 ExampleResults.out
                 (ExampleResults.world_with_output ExampleResults.numpy_global)).1).
Proof.
  split; [vm_compute; discriminate|]. split; [vm_compute; reflexivity|].
  vm_compute. repeat constructor.
Qed.

(** ** One library per invocation *)





(** ** The command line and its reading by the script *)




Example command_line_in_tmp_venv1 :
  PythonVirtualenvOperator._generate_python_cmd "/tmp/venv1"
    (PyStr.os_path_join "/tmp/venv1" "script.py")
    (PyStr.os_path_join "/tmp/venv1" "script.in")
    (PyStr.os_path_join "/tmp/venv1" "script.out")
    (PyStr.os_path_join "/tmp/venv1" "string_args.txt")
  = "/tmp/venv1/bin/python" :: ExampleOperators.argv.
Proof. vm_compute. reflexivity. Qed.

(** ** Reading the string arguments back *)

















(** ** String arguments *)

Lemma write_string_args_eq (self : PythonVirtualenvOperator.instance)
    (filename : string) (w : world) :
  PythonVirtualenvOperator._write_string_args self filename w
  = ({| fs := <[filename :=
                  PyStr.join PyStr.nl (PythonVirtualenvOperator.string_args self)]>
                (fs w);
        trace := trace w ++ [EvOpen filename "w"] |}, Ok tt).
Proof.
  unfold PythonVirtualenvOperator._write_string_args.
  erewrite bind_ok by reflexivity.
  unfold file_write. cbn [fs trace].
  rewrite lookup_insert_eq, insert_insert_eq.
  rewrite map_id. reflexivity.
Qed.


Example string_args_alpha_beta_file :
  PyStr.join PyStr.nl ["alpha"; "beta"] = "alpha" +:+ PyStr.nl +:+ "beta".
Proof. reflexivity. Qed.

Example string_args_padded :
  map PyStr.strip (PyStr.readlines (PyStr.join PyStr.nl ["  alpha "; "beta"]))
  = ["alpha"; "beta"].
Proof. vm_compute. reflexivity. Qed.

(** ["alpha\u00a0"], ["\u2003beta"] and [" \u00e9 "], in UTF-8. *)
Example string_args_unicode_whitespace :
  map PyStr.strip
    ["alpha" +:+ String (ascii_of_nat 194) (String (ascii_of_nat 160) "");
     String (ascii_of_nat 226) (String (ascii_of_nat 128)
       (String (ascii_of_nat 131) "beta"));
     " " +:+ String (ascii_of_nat 195) (String (ascii_of_nat 169) " ")]
  = ["alpha"; "beta"; String (ascii_of_nat 195) (String (ascii_of_nat 169) "")].
Proof. vm_compute. reflexivity. Qed.

Example string_args_split_by_newline :
  map PyStr.strip
    (PyStr.readlines (PyStr.join PyStr.nl ["alpha" +:+ PyStr.nl +:+ "beta"]))
  = ["alpha"; "beta"].
Proof. vm_compute. reflexivity. Qed.

(** ** The output file after a successful run *)


Section SuccessfulRun.

Variable venv_pickle : Pickler.
Variable venv_dill : option Pickler.
Variable exec_source : string -> script_globals -> FsM (list string).
Variable run_callable : string -> string -> pyval -> pyval -> script_globals -> FsM pyval.

Local Abbreviation step := (exec_stmt venv_pickle venv_dill exec_source run_callable).
Local Abbreviation steps := (exec_stmts venv_pickle venv_dill exec_source run_callable).











End SuccessfulRun.





(** ** Whole invocations *)

Example execute_callable_answer :
  let '(w, _, r) :=
    PythonVirtualenvOperator.execute_callable
      (MiniPickle.pickler 4 []) (MiniPickle.pickler 4 [])
      (MiniPickle.pickler 4 []) None
      ExampleOperators.exec_source ExampleOperators.run_callable ExampleOperators.prepare_virtualenv
      ExampleOperators.dedent
      (ExampleOperators.operator ExampleOperators.answer [] false)
      "/tmp/venv1" ExampleOperators.empty_world in
  r = Ok (PyInt 5) /\ fs w = ∅.
Proof. vm_compute. split; reflexivity. Qed.

Example execute_callable_noop :
  let '(w, _, r) :=
    PythonVirtualenvOperator.execute_callable
      (MiniPickle.pickler 4 []) (MiniPickle.pickler 4 [])
      (MiniPickle.pickler 4 []) None
      ExampleOperators.exec_source ExampleOperators.run_callable ExampleOperators.prepare_virtualenv
      ExampleOperators.dedent
      (ExampleOperators.operator ExampleOperators.noop ["alpha"; "beta"] false)
      "/tmp/venv1" ExampleOperators.empty_world in
  r = Ok PyNone
  /\ trace w
     = [EvOpen "/tmp/venv1/script.py" "w";
        EvLog "debug" ("Writing code to file" +:+ PyStr.nl +:+ " %s")
          [PyStr ("import pickle" +:+ PyStr.nl +:+
                  "import sys" +:+ PyStr.nl +:+
                  render_stmt SEmptyArgs +:+ PyStr.nl +:+
                  render_stmt SBindArgs +:+ PyStr.nl +:+
                  render_stmt SBindKwargs +:+ PyStr.nl +:+
                  render_stmt (SReadStringArgs 3) +:+ PyStr.nl +:+
                  "def noop(): pass" +:+ PyStr.nl +:+
                  "res = noop(*args, **kwargs)" +:+ PyStr.nl +:+
                  render_stmt (SWriteResult "pickle" 2) +:+ PyStr.nl)];
        EvOpen "/tmp/venv1/string_args.txt" "w";
        EvSubprocess ("/tmp/venv1/bin/python" :: ExampleOperators.argv);
        EvImport "pickle";
        EvImport "sys";
        EvOpen "/tmp/venv1/string_args.txt" "r";
        EvScriptCall "noop" (PyList []) (PyDict ∅);
        EvOpen "/tmp/venv1/script.out" "wb";
        EvStat "/tmp/venv1/script.out"].
Proof. vm_compute. split; reflexivity. Qed.

(** An environment whose pickle writes protocol 4, read back by a host that
    knows protocol 2 at most: the error is raised and logged. *)
Example execute_callable_across_versions :
  let '(w, _, r) :=
    PythonVirtualenvOperator.execute_callable
      (MiniPickle.pickler 2 []) (MiniPickle.pickler 2 [])
      (MiniPickle.pickler 4 []) None
      ExampleOperators.exec_source ExampleOperators.run_callable ExampleOperators.prepare_virtualenv
      ExampleOperators.dedent
      (ExampleOperators.operator ExampleOperators.answer [] false)
      "/tmp/venv1" ExampleOperators.empty_world in
  r = Raise (ValueError "unsupported pickle protocol: 4")
  /\ last (trace w) = Some (EvLog "error" deserialization_message []).
Proof. vm_compute. split; reflexivity. Qed.

(** An empty last entry leaves no line behind it, and an entry that holds
    a newline is read back as two. *)
Example string_args_trailing_empty :
  map PyStr.strip (PyStr.readlines (PyStr.join PyStr.nl ["alpha"; ""]))
  = ["alpha"].
Proof. vm_compute. reflexivity. Qed.

(** * Further properties *)

(** ** What determine_op_kwargs returns *)

Lemma check_reserved_ok_inv (context : gmap string pyval) (ps : list PyParameter) :
  PythonOperator.check_reserved context ps = Ok tt ->
  forall p, p ∈ ps -> name p ∉ dom context.
Proof.
  induction ps as [|q ps IH]; intros H p Hp.
  - by apply elem_of_nil in Hp.
  - simpl in H. destruct (bool_decide (name q ∈ dom context)) eqn:E;
      [discriminate H|].
    apply bool_decide_eq_false in E.
    apply elem_of_cons in Hp as [->|Hp]; [exact E|by apply IH].
Qed.

Lemma determine_op_kwargs_ok_inv (f : pyobj) (context r : gmap string pyval)
    (n : nat) :
  PythonOperator.determine_op_kwargs f context n = Ok r ->
  exists sig,
    signature f = Ok sig
    /\ PythonOperator.check_reserved context (take n sig) = Ok tt
    /\ r = if existsb (fun param => PyStr.startswith (PyParameter_str param) "**") sig
           then context
           else restrict_to_names context sig.
Proof.
  unfold PythonOperator.determine_op_kwargs.
  destruct (signature f) as [sig|e]; [|discriminate]. cbn [bind_result].
  destruct (PythonOperator.check_reserved context (take n sig)) as [[]|e] eqn:Hc;
    [|discriminate].
  cbn [bind_result]. intros H. exists sig. split; [reflexivity|].
  split; [exact Hc|].
  destruct (existsb _ sig); injection H as <-; [reflexivity|].
  apply pick_from_context_restrict.
Qed.

Lemma restrict_to_names_subseteq (context : gmap string pyval)
    (sig : list PyParameter) :
  restrict_to_names context sig ⊆ context.
Proof. apply map_filter_subseteq. Qed.

Lemma restrict_to_names_idemp (context : gmap string pyval)
    (sig : list PyParameter) :
  restrict_to_names (restrict_to_names context sig) sig
  = restrict_to_names context sig.
Proof.
  apply map_eq. intros k. apply option_eq. intros v.
  unfold restrict_to_names. rewrite !map_lookup_filter_Some. tauto.
Qed.

(** X1.  Whatever [determine_op_kwargs] returns is part of the context it
    was given: every keyword it selects is a key of the context, with the
    context's value.  It never invents a keyword or changes a value. *)
Theorem determine_op_kwargs_within_context
    (python_callable : pyobj) (context op_kwargs : gmap string pyval)
    (num_op_args : nat) :
  PythonOperator.determine_op_kwargs python_callable context num_op_args
  = Ok op_kwargs ->
  op_kwargs ⊆ context
  /\ forall k v, op_kwargs !! k = Some v -> context !! k = Some v.
Proof.
  intros H. apply determine_op_kwargs_ok_inv in H as (sig & _ & _ & ->).
  assert (Hsub : (if existsb (fun param =>
                      PyStr.startswith (PyParameter_str param) "**") sig
                  then context else restrict_to_names context sig) ⊆ context).
  { destruct (existsb _ sig); [reflexivity|apply restrict_to_names_subseteq]. }
  split; [exact Hsub|]. intros k v Hk.
  eapply lookup_weaken; [exact Hk|exact Hsub].
Qed.

Lemma determine_op_kwargs_within_context_witness :
  PythonOperator.determine_op_kwargs Examples.report Examples.small_context 1
  = Ok (<["ds" := PyStr "2020-01-01"]> ∅)
  /\ (<["ds" := PyStr "2020-01-01"]> ∅ : gmap string pyval)
     ⊆ Examples.small_context.
Proof.
  assert (H : PythonOperator.determine_op_kwargs Examples.report
                Examples.small_context 1
              = Ok (<["ds" := PyStr "2020-01-01"]> ∅))
    by (vm_compute; reflexivity).
  split; [exact H|].
  exact (proj1 (determine_op_kwargs_within_context Examples.report
                  Examples.small_context _ 1 H)).
Defined.

(** X2.  Selecting again from a selection changes nothing: when
    [determine_op_kwargs] returns [op_kwargs] for a context, it returns the
    same [op_kwargs] when it is given [op_kwargs] as the context. *)
Theorem determine_op_kwargs_idempotent
    (python_callable : pyobj) (context op_kwargs : gmap string pyval)
    (num_op_args : nat) :
  PythonOperator.determine_op_kwargs python_callable context num_op_args
  = Ok op_kwargs ->
  PythonOperator.determine_op_kwargs python_callable op_kwargs num_op_args
  = Ok op_kwargs.
Proof.
  intros H. apply determine_op_kwargs_ok_inv in H as (sig & Hsig & Hc & ->).
  unfold PythonOperator.determine_op_kwargs. rewrite Hsig. cbn [bind_result].
  destruct (existsb _ sig) eqn:E.
  - rewrite Hc. cbn [bind_result]. reflexivity.
  - rewrite check_reserved_free.
    + cbn [bind_result].
      by rewrite pick_from_context_restrict, restrict_to_names_idemp.
    + intros p Hp Hin. apply (check_reserved_ok_inv _ _ Hc p Hp).
      eapply (subseteq_dom (restrict_to_names context sig)); [|exact Hin].
      apply restrict_to_names_subseteq.
Qed.

Lemma determine_op_kwargs_idempotent_witness :
  PythonOperator.determine_op_kwargs Examples.report Examples.small_context 1
  = Ok (<["ds" := PyStr "2020-01-01"]> ∅)
  /\ PythonOperator.determine_op_kwargs Examples.report
       (<["ds" := PyStr "2020-01-01"]> ∅) 1
     = Ok (<["ds" := PyStr "2020-01-01"]> ∅).
Proof.
  assert (H : PythonOperator.determine_op_kwargs Examples.report
                Examples.small_context 1
              = Ok (<["ds" := PyStr "2020-01-01"]> ∅))
    by (vm_compute; reflexivity).
  split; [exact H|].
  exact (determine_op_kwargs_idempotent Examples.report
           Examples.small_context _ 1 H).
Defined.

(** ** Where execute takes the keyword arguments from *)

Lemma updated_context_lookup (self : PythonOperator.instance)
    (context : gmap string pyval) (k : string) :
  updated_context self context !! k = keyword_source self context k.
Proof.
  unfold updated_context, keyword_source.
  destruct (String.eqb_spec k "templates_dict") as [->|Hne].
  - apply lookup_insert_eq.
  - rewrite lookup_insert_ne by congruence. rewrite lookup_union.
    destruct (PythonOperator.op_kwargs self !! k),
      (context !! k); reflexivity.
Qed.

(** X3.  When no reserved name collides, [PythonOperator.execute] calls the
    callable with the operator's positional arguments and with keywords
    chosen as follows.  A keyword is passed only if the callable declares a
    parameter of that name or a catch-all keyword parameter; a keyword of
    [op_kwargs] that the callable does not declare is dropped.  The value of
    a passed keyword is the operator's [templates_dict] for the name
    [templates_dict], else the operator's own [op_kwargs] entry, else the
    entry of the run's context: the operator's keywords take precedence over
    the context. *)
Theorem execute_keyword_sources
    (invoke : pyobj -> list pyval -> gmap string pyval -> FsM pyval)
    (self : PythonOperator.instance) (context : gmap string pyval)
    (w : world) (sig : list PyParameter) :
  signature (PythonOperator.python_callable self) = Ok sig ->
  Forall (fun p => PyStr.isidentifier (name p) = true) sig ->
  ~ reserved_collision (updated_context self context) sig
      (length (PythonOperator.op_args self)) ->
  exists (kw : gmap string pyval) (w' : world) (r : result pyval)
         (t : list event),
    PythonOperator.execute (PythonOperator.execute_callable invoke)
      self context w
    = (w',
       {| PythonOperator.python_callable := PythonOperator.python_callable self;
          PythonOperator.op_args := PythonOperator.op_args self;
          PythonOperator.op_kwargs := kw;
          PythonOperator.templates_dict := PythonOperator.templates_dict self;
          PythonOperator.template_ext := PythonOperator.template_ext self |},
       updated_context self context, r)
    /\ trace w'
       = (trace w ++
          EvCall (PythonOperator.python_callable self)
            (PythonOperator.op_args self) kw :: t)%list
    /\ (forall k,
          declares_var_keyword sig \/ k ∈ map name sig ->
          kw !! k = keyword_source self context k)
    /\ (forall k,
          ~ declares_var_keyword sig -> k ∉ map name sig ->
          kw !! k = None).
Proof.
  intros Hsig Hid Hfree.
  assert (Hcheck : PythonOperator.check_reserved (updated_context self context)
                     (take (length (PythonOperator.op_args self)) sig) = Ok tt).
  { apply check_reserved_free. intros p Hp Hin. apply Hfree. by exists p. }
  set (kw := if existsb (fun param =>
                  PyStr.startswith (PyParameter_str param) "**") sig
             then updated_context self context
             else restrict_to_names (updated_context self context) sig).
  assert (Hdet : PythonOperator.determine_op_kwargs
                   (PythonOperator.python_callable self)
                   (updated_context self context)
                   (length (PythonOperator.op_args self)) = Ok kw).
  { unfold PythonOperator.determine_op_kwargs. rewrite Hsig. cbn [bind_result].
    rewrite Hcheck. cbn [bind_result]. unfold kw.
    destruct (existsb _ sig); [reflexivity|].
    by rewrite pick_from_context_restrict. }
  assert (Hrun : exists w' r t,
            PythonOperator.execute (PythonOperator.execute_callable invoke)
              self context w
            = (w',
               {| PythonOperator.python_callable := PythonOperator.python_callable self;
                  PythonOperator.op_args := PythonOperator.op_args self;
                  PythonOperator.op_kwargs := kw;
                  PythonOperator.templates_dict := PythonOperator.templates_dict self;
                  PythonOperator.template_ext := PythonOperator.template_ext self |},
               updated_context self context, r)
            /\ trace w'
               = (trace w ++
                  EvCall (PythonOperator.python_callable self)
                    (PythonOperator.op_args self) kw :: t)%list).
  { unfold PythonOperator.execute. fold (updated_context self context).
    rewrite Hdet.
    unfold PythonOperator.execute_callable, bind, emit, on_files, log_event.
    cbn [PythonOperator.python_callable PythonOperator.op_args
         PythonOperator.op_kwargs fs trace].
    destruct (invoke _ _ _ (fs w)) as [files [v|e]]; cbn [fst fs trace emit].
    - eexists _, _, _. split; [reflexivity|].
      rewrite <- app_assoc. reflexivity.
    - eexists _, _, []. split; [reflexivity|reflexivity]. }
  destruct Hrun as (w' & r & t & Hexec & Htrace).
  exists kw, w', r, t. split; [exact Hexec|]. split; [exact Htrace|].
  split.
  - intros k [Hkw|Hk].
    + apply (existsb_var_keyword sig Hid) in Hkw. unfold kw. rewrite Hkw.
      apply updated_context_lookup.
    + unfold kw. destruct (existsb _ sig); [apply updated_context_lookup|].
      rewrite <- updated_context_lookup.
      unfold restrict_to_names.
      destruct (updated_context self context !! k) as [v|] eqn:E.
      * apply map_lookup_filter_Some. by split.
      * apply map_lookup_filter_None. left. exact E.
  - intros k Hkw Hk. unfold kw. destruct (existsb _ sig) eqn:E.
    + exfalso. apply Hkw. by apply (existsb_var_keyword sig Hid).
    + apply map_lookup_filter_None. right. intros v _. exact Hk.
Qed.

Lemma execute_keyword_sources_witness :
  signature (PythonOperator.python_callable ExampleRuns.report_operator)
  = Ok Examples.report_sig
  /\ Forall (fun p => PyStr.isidentifier (name p) = true) Examples.report_sig
  /\ ~ reserved_collision
         (updated_context ExampleRuns.report_operator Examples.small_context)
         Examples.report_sig
         (length (PythonOperator.op_args ExampleRuns.report_operator))
  /\ exists kw w' r o c,
       PythonOperator.execute
         (PythonOperator.execute_callable ExampleRuns.invoke)
         ExampleRuns.report_operator Examples.small_context
         ExampleOperators.empty_world = (w', o, c, r)
       /\ PythonOperator.op_kwargs o = kw
       /\ kw !! "ds" = Some (PyStr "mine")
       /\ kw !! "extra" = None.
Proof.
  assert (Hsig : signature (PythonOperator.python_callable
                              ExampleRuns.report_operator)
                 = Ok Examples.report_sig) by reflexivity.
  assert (Hid : Forall (fun p => PyStr.isidentifier (name p) = true)
                  Examples.report_sig) by (repeat constructor).
  assert (Hfree : ~ reserved_collision
                      (updated_context ExampleRuns.report_operator
                         Examples.small_context)
                      Examples.report_sig
                      (length (PythonOperator.op_args
                                 ExampleRuns.report_operator))).
  { intros (p & Hp & Hin). simpl in Hp.
    apply list_elem_of_singleton in Hp. subst p.
    apply elem_of_dom in Hin. destruct Hin as [v Hv]. vm_compute in Hv.
    discriminate Hv. }
  split; [exact Hsig|]. split; [exact Hid|]. split; [exact Hfree|].
  destruct (execute_keyword_sources ExampleRuns.invoke
              ExampleRuns.report_operator Examples.small_context
              ExampleOperators.empty_world Examples.report_sig Hsig Hid Hfree)
    as (kw & w' & r & t & Hexec & _ & Hsrc & Hdrop).
  eexists kw, w', r, _, _. split; [exact Hexec|]. split; [reflexivity|].
  split.
  - rewrite Hsrc; [reflexivity|]. right. simpl. right. left.
  - apply Hdrop.
    + intros (p & Hp & Hk). unfold Examples.report_sig in Hp.
      apply elem_of_cons in Hp as [->|Hp]; [discriminate Hk|].
      apply list_elem_of_singleton in Hp. subst p. discriminate Hk.
    + simpl. intros Hin.
      apply elem_of_cons in Hin as [Hin|Hin]; [discriminate Hin|].
      apply list_elem_of_singleton in Hin. discriminate Hin.
Defined.

Example execute_report :
  (PythonOperator.execute (PythonOperator.execute_callable ExampleRuns.invoke)
     ExampleRuns.report_operator Examples.small_context
     ExampleOperators.empty_world).2
  = Ok (PyStr "mine").
Proof. vm_compute. reflexivity. Qed.

(** ** What a constructed PythonVirtualenvOperator satisfies *)

Lemma existsb_dill_true (l : list string) :
  existsb id (map (fun x => PyStr.startswith (PyStr.lower x) "dill") l) = true ->
  exists x, x ∈ l /\ PyStr.startswith (PyStr.lower x) "dill" = true.
Proof.
  induction l as [|x l IH]; [discriminate|]. simpl. unfold id at 1.
  destruct (PyStr.startswith (PyStr.lower x) "dill") eqn:E.
  - intros _. exists x. split; [by left|exact E].
  - simpl. intros H. destruct (IH H) as (y & Hy & Hd). exists y.
    split; [by right|exact Hd].
Qed.

(** X4.  Every instance the constructor returns passed all its checks: the
    host's constructor accepted, the callable is a function object (made by
    a [def] statement or by a [lambda] expression, with or without source
    at hand) whose [__name__] is not ["<lambda>"], dill is only asked for when the
    system's site packages or a requirement can provide it, and no
    positional or keyword argument is held when [python_version] starts
    with another character than the host's major version.  Its attributes
    are the arguments, with [None] replaced by the empty list or dict. *)
Theorem constructed_operator_invariants
    (BaseOperator__init__ : result unit) (sys_version_major : nat)
    (python_callable : pyobj) (requirements : option (list string))
    (python_version : option string) (use_dill system_site_packages : bool)
    (op_args : option (list pyval)) (op_kwargs : option (gmap string pyval))
    (string_args : option (list string))
    (templates_dict : option (gmap string pyval))
    (templates_exts : option (list string))
    (self : PythonVirtualenvOperator.instance) :
  PythonVirtualenvOperator.__init__ BaseOperator__init__ sys_version_major
    python_callable requirements python_version use_dill
    system_site_packages op_args op_kwargs string_args templates_dict
    templates_exts = Ok self ->
  BaseOperator__init__ = Ok tt
  /\ (exists form fname params source,
        python_callable = PyFunction form fname params source
        /\ fname <> "<lambda>")
  /\ self
     = {| PythonVirtualenvOperator.base :=
            {| PythonOperator.python_callable := python_callable;
               PythonOperator.op_args := or_list op_args;
               PythonOperator.op_kwargs := or_dict op_kwargs;
               PythonOperator.templates_dict := templates_dict;
               PythonOperator.template_ext := or_list templates_exts |};
          PythonVirtualenvOperator.requirements := or_list requirements;
          PythonVirtualenvOperator.string_args := or_list string_args;
          PythonVirtualenvOperator.python_version := python_version;
          PythonVirtualenvOperator.use_dill := use_dill;
          PythonVirtualenvOperator.system_site_packages := system_site_packages |}
  /\ (use_dill = true ->
      system_site_packages = true
      \/ exists x, x ∈ or_list requirements
                   /\ PyStr.startswith (PyStr.lower x) "dill" = true)
  /\ (forall v c,
        python_version = Some v -> PyStr.first_char v = Some c ->
        c <> PyStr.str_of_nat sys_version_major ->
        PythonVirtualenvOperator._pass_op_args self = false).
Proof.
  unfold PythonVirtualenvOperator.__init__, PythonOperator.__init__.
  destruct BaseOperator__init__ as [[]|e]; [|discriminate].
  destruct python_callable as [form fname params source| | | |];
    cbn -[PyStr.startswith PyStr.lower String.append
          PythonVirtualenvOperator._pass_op_args PyStr.str_of_nat];
    try discriminate;
    try (destruct (negb system_site_packages && use_dill && _); discriminate).
  destruct (negb system_site_packages && use_dill &&
            negb (existsb id _)) eqn:Hdill; [discriminate|].
  destruct (String.eqb fname "<lambda>") eqn:Hname; [discriminate|].
  cbn [bind_result].
  intros H.
  assert (Hself : self
     = {| PythonVirtualenvOperator.base :=
            {| PythonOperator.python_callable := PyFunction form fname params source;
               PythonOperator.op_args := or_list op_args;
               PythonOperator.op_kwargs := or_dict op_kwargs;
               PythonOperator.templates_dict := templates_dict;
               PythonOperator.template_ext := or_list templates_exts |};
          PythonVirtualenvOperator.requirements := or_list requirements;
          PythonVirtualenvOperator.string_args := or_list string_args;
          PythonVirtualenvOperator.python_version := python_version;
          PythonVirtualenvOperator.use_dill := use_dill;
          PythonVirtualenvOperator.system_site_packages := system_site_packages |}).
  { destruct python_version as [v|]; cbn [bind_result] in H.
    - unfold PyStr.str in H. destruct (PyStr.first_char v) as [c|];
        [|discriminate H].
      destruct (negb (String.eqb c (PyStr.str_of_nat sys_version_major)));
        cbn [bind_result] in H;
        [destruct (PythonVirtualenvOperator._pass_op_args _);
           [discriminate H|]|];
        by injection H as <-.
    - by injection H as <-. }
  split; [reflexivity|]. split.
  { exists form, fname, params, source. split; [reflexivity|].
    by apply String.eqb_neq. }
  split; [exact Hself|]. split.
  - intros ->. destruct system_site_packages; [by left|right].
    cbn [negb andb] in Hdill. apply negb_false_iff in Hdill.
    by apply existsb_dill_true.
  - intros v c -> Hc Hne. cbn [bind_result] in H. unfold PyStr.str in H.
    rewrite Hc in H. apply String.eqb_neq in Hne. rewrite Hne in H.
    cbn [negb bind_result] in H. rewrite Hself.
    destruct (PythonVirtualenvOperator._pass_op_args _); [discriminate H|].
    reflexivity.
Qed.

Lemma constructed_operator_invariants_witness :
  PythonVirtualenvOperator.__init__ (Ok tt) 3 ExampleCallables.add
    (Some ["Dill==0.3.2"]) (Some "3.7") true false (Some [PyInt 2; PyInt 3])
    None None None None
  = Ok {| PythonVirtualenvOperator.base :=
            {| PythonOperator.python_callable := ExampleCallables.add;
               PythonOperator.op_args := [PyInt 2; PyInt 3];
               PythonOperator.op_kwargs := ∅;
               PythonOperator.templates_dict := None;
               PythonOperator.template_ext := [] |};
          PythonVirtualenvOperator.requirements := ["Dill==0.3.2"];
          PythonVirtualenvOperator.string_args := [];
          PythonVirtualenvOperator.python_version := Some "3.7";
          PythonVirtualenvOperator.use_dill := true;
          PythonVirtualenvOperator.system_site_packages := false |}
  /\ exists x, x ∈ ["Dill==0.3.2"]
               /\ PyStr.startswith (PyStr.lower x) "dill" = true.
Proof.
  assert (H : PythonVirtualenvOperator.__init__ (Ok tt) 3 ExampleCallables.add
                (Some ["Dill==0.3.2"]) (Some "3.7") true false
                (Some [PyInt 2; PyInt 3]) None None None None
              = Ok {| PythonVirtualenvOperator.base :=
                        {| PythonOperator.python_callable := ExampleCallables.add;
                           PythonOperator.op_args := [PyInt 2; PyInt 3];
                           PythonOperator.op_kwargs := ∅;
                           PythonOperator.templates_dict := None;
                           PythonOperator.template_ext := [] |};
                      PythonVirtualenvOperator.requirements := ["Dill==0.3.2"];
                      PythonVirtualenvOperator.string_args := [];
                      PythonVirtualenvOperator.python_version := Some "3.7";
                      PythonVirtualenvOperator.use_dill := true;
                      PythonVirtualenvOperator.system_site_packages := false |})
    by (vm_compute; reflexivity).
  split; [exact H|].
  destruct (constructed_operator_invariants _ _ _ _ _ _ _ _ _ _ _ _ _ H)
    as (_ & _ & _ & Hdill & _).
  destruct (Hdill eq_refl) as [Hssp|Hx]; [discriminate Hssp|exact Hx].
Defined.

(** X5.  The checks are all there is: once the host's constructor accepts,
    a function defined with [def] is accepted whenever dill is not asked
    for, or the system's site packages are included, or a requirement starts
    with [dill] in any letter case, and whenever [python_version] is absent,
    or starts with the host's major version, or no positional or keyword
    argument is given. *)
Theorem init_accepts
    (sys_version_major : nat)
    (fname : string) (params : list PyParameter) (source : string)
    (requirements : option (list string))
    (python_version : option string) (use_dill system_site_packages : bool)
    (op_args : option (list pyval)) (op_kwargs : option (gmap string pyval))
    (string_args : option (list string))
    (templates_dict : option (gmap string pyval))
    (templates_exts : option (list string)) :
  fname <> "<lambda>" ->
  (use_dill = false \/ system_site_packages = true
   \/ exists x, x ∈ or_list requirements
                /\ PyStr.startswith (PyStr.lower x) "dill" = true) ->
  (python_version = None
   \/ exists v c, python_version = Some v /\ PyStr.first_char v = Some c
        /\ (c = PyStr.str_of_nat sys_version_major
            \/ (or_list op_args = [] /\ or_dict op_kwargs = ∅))) ->
  PythonVirtualenvOperator.__init__ (Ok tt) sys_version_major
    (DefFunction fname params source) requirements python_version use_dill
    system_site_packages op_args op_kwargs string_args templates_dict
    templates_exts
  = Ok {| PythonVirtualenvOperator.base :=
            {| PythonOperator.python_callable := DefFunction fname params source;
               PythonOperator.op_args := or_list op_args;
               PythonOperator.op_kwargs := or_dict op_kwargs;
               PythonOperator.templates_dict := templates_dict;
               PythonOperator.template_ext := or_list templates_exts |};
          PythonVirtualenvOperator.requirements := or_list requirements;
          PythonVirtualenvOperator.string_args := or_list string_args;
          PythonVirtualenvOperator.python_version := python_version;
          PythonVirtualenvOperator.use_dill := use_dill;
          PythonVirtualenvOperator.system_site_packages := system_site_packages |}.
Proof.
  intros Hname Hdill Hversion.
  unfold PythonVirtualenvOperator.__init__, PythonOperator.__init__.
  cbn -[PyStr.startswith PyStr.lower String.append
        PythonVirtualenvOperator._pass_op_args PyStr.str_of_nat].
  assert (Hd : negb system_site_packages && use_dill &&
               negb (existsb id
                       (map (fun x => PyStr.startswith (PyStr.lower x) "dill")
                            (or_list requirements))) = false).
  { destruct Hdill as [->|[->|(x & Hx & Hp)]].
    - by rewrite andb_false_r.
    - reflexivity.
    - apply andb_false_intro2, negb_false_iff, existsb_exists.
      exists true. split; [|reflexivity].
      apply in_map_iff. exists x. split; [exact Hp|].
      by apply list_elem_of_In. }
  rewrite Hd. apply String.eqb_neq in Hname. rewrite Hname.
  cbn [bind_result].
  destruct Hversion as [->|(v & c & -> & Hc & Hok)]; [reflexivity|].
  unfold PyStr.str. rewrite Hc. destruct Hok as [->|[Ha Hk]].
  - rewrite String.eqb_refl. reflexivity.
  - destruct (negb (String.eqb c _)); [|reflexivity].
    cbn [bind_result]. rewrite pass_op_args_empty; [reflexivity| |];
      assumption.
Qed.

Lemma init_accepts_witness :
  "add" <> "<lambda>"
  /\ PythonVirtualenvOperator.__init__ (Ok tt) 2 ExampleCallables.add
       None (Some "3") false true None None (Some ["alpha"; "beta"]) None None
     = Ok {| PythonVirtualenvOperator.base :=
               {| PythonOperator.python_callable := ExampleCallables.add;
                  PythonOperator.op_args := [];
                  PythonOperator.op_kwargs := ∅;
                  PythonOperator.templates_dict := None;
                  PythonOperator.template_ext := [] |};
             PythonVirtualenvOperator.requirements := [];
             PythonVirtualenvOperator.string_args := ["alpha"; "beta"];
             PythonVirtualenvOperator.python_version := Some "3";
             PythonVirtualenvOperator.use_dill := false;
             PythonVirtualenvOperator.system_site_packages := true |}.
Proof.
  assert (H : "add" <> "<lambda>") by discriminate.
  split; [exact H|].
  apply (init_accepts 2 "add" _ _ None (Some "3") false true None None
           (Some ["alpha"; "beta"]) None None H).
  - by left.
  - right. exists "3", "3". split; [reflexivity|]. split; [reflexivity|].
    right. by split.
Defined.

(** ** The script file of an operator whose callable is a function *)

Lemma generate_python_code_function (dedent : string -> string)
    (self : PythonVirtualenvOperator.instance)
    (fname : string) (source : string) :
  getsource (PythonVirtualenvOperator.python_callable self) = Ok source ->
  __name__ (PythonVirtualenvOperator.python_callable self) = Ok fname ->
  PythonVirtualenvOperator.driver_script dedent self
  = Ok (script_of (configured_library (PythonVirtualenvOperator.use_dill self))
          (if PythonVirtualenvOperator._pass_op_args self
           then SLoadArgs (configured_library (PythonVirtualenvOperator.use_dill self)) 1
           else SEmptyArgs)
          (dedent source) fname).
Proof.
  intros Hs Hn. unfold PythonVirtualenvOperator.driver_script.
  rewrite Hs, Hn. reflexivity.
Qed.

Lemma write_script_of_function_aux (dedent : string -> string)
    (self : PythonVirtualenvOperator.instance)
    (fname : string) (source : string) :
  getsource (PythonVirtualenvOperator.python_callable self) = Ok source ->
  __name__ (PythonVirtualenvOperator.python_callable self) = Ok fname ->
  PythonVirtualenvOperator._generate_python_code dedent self
  = Ok (render
          (script_of (configured_library (PythonVirtualenvOperator.use_dill self))
             (if PythonVirtualenvOperator._pass_op_args self
              then SLoadArgs
                     (configured_library (PythonVirtualenvOperator.use_dill self)) 1
              else SEmptyArgs)
             (dedent source) fname))
  /\ forall (script_filename : string) (w : world),
       PythonVirtualenvOperator._write_script dedent self script_filename w
       = ({| fs := <[script_filename :=
                       render
                         (script_of
                            (configured_library (PythonVirtualenvOperator.use_dill self))
                            (if PythonVirtualenvOperator._pass_op_args self
                             then SLoadArgs
                                    (configured_library
                                       (PythonVirtualenvOperator.use_dill self)) 1
                             else SEmptyArgs)
                            (dedent source) fname)]> (fs w);
             trace := trace w ++
                      [EvOpen script_filename "w";
                       EvLog "debug" ("Writing code to file" +:+ PyStr.nl +:+ " %s")
                         [PyStr (render
                            (script_of
                               (configured_library (PythonVirtualenvOperator.use_dill self))
                               (if PythonVirtualenvOperator._pass_op_args self
                                then SLoadArgs
                                       (configured_library
                                          (PythonVirtualenvOperator.use_dill self)) 1
                                else SEmptyArgs)
                               (dedent source) fname))]] |}, Ok tt).
Proof.
  intros Hs Hn.
  assert (Hcode : PythonVirtualenvOperator._generate_python_code dedent self
                  = Ok (render
                          (script_of
                             (configured_library (PythonVirtualenvOperator.use_dill self))
                             (if PythonVirtualenvOperator._pass_op_args self
                              then SLoadArgs
                                     (configured_library
                                        (PythonVirtualenvOperator.use_dill self)) 1
                              else SEmptyArgs)
                             (dedent source) fname))).
  { rewrite render_driver_script.
    by rewrite (generate_python_code_function dedent self fname source). }
  split; [exact Hcode|]. intros script_filename w.
  unfold PythonVirtualenvOperator._write_script.
  erewrite bind_ok by reflexivity.
  erewrite bind_ok by (unfold lift; rewrite Hcode; reflexivity).
  erewrite bind_ok by reflexivity.
  unfold file_write. cbn [fs trace].
  rewrite lookup_insert_eq, insert_insert_eq, <- app_assoc. reflexivity.
Qed.

(** When the source of the callable cannot be found, nothing is
    generated: [_write_script] has opened (and so emptied) the script file,
    and raises what [inspect.getsource] raised. *)
Lemma write_script_without_source (dedent : string -> string)
    (self : PythonVirtualenvOperator.instance) (e : pyexn) :
  getsource (PythonVirtualenvOperator.python_callable self) = Raise e ->
  PythonVirtualenvOperator._generate_python_code dedent self = Raise e
  /\ forall (script_filename : string) (w : world),
       PythonVirtualenvOperator._write_script dedent self script_filename w
       = ({| fs := <[script_filename := ""]> (fs w);
             trace := trace w ++ [EvOpen script_filename "w"] |}, Raise e).
Proof.
  intros Hs.
  assert (Hcode : PythonVirtualenvOperator._generate_python_code dedent self
                  = Raise e).
  { rewrite render_driver_script.
    unfold PythonVirtualenvOperator.driver_script. by rewrite Hs. }
  split; [exact Hcode|]. intros script_filename w.
  unfold PythonVirtualenvOperator._write_script.
  erewrite bind_ok by reflexivity.
  erewrite bind_raised by (unfold lift; rewrite Hcode; reflexivity).
  reflexivity.
Qed.

(** X6.  The script of an operator follows from what [inspect.getsource]
    and [__name__] give for its callable.  When [inspect.getsource] returns
    a source text, [_generate_python_code] returns the text of the nine
    statements, with the dedented source and the callable's [__name__] in
    their places, and [_write_script] stores exactly that text in the script
    file, after logging it at debug level, and returns.  When
    [inspect.getsource] raises, as it does for a function made by [exec]
    that the constructor accepts, [_generate_python_code] raises the same
    exception, and [_write_script] raises it after opening the script file,
    which is left empty, with nothing logged. *)
Theorem write_script_of_function (dedent : string -> string)
    (self : PythonVirtualenvOperator.instance)
    (script_filename : string) (w : world) :
  (forall (source fname : string),
     getsource (PythonVirtualenvOperator.python_callable self) = Ok source ->
     __name__ (PythonVirtualenvOperator.python_callable self) = Ok fname ->
     exists text,
       text = render
                (script_of (configured_library (PythonVirtualenvOperator.use_dill self))
                   (if PythonVirtualenvOperator._pass_op_args self
                    then SLoadArgs
                           (configured_library (PythonVirtualenvOperator.use_dill self)) 1
                    else SEmptyArgs)
                   (dedent source) fname)
       /\ PythonVirtualenvOperator._generate_python_code dedent self = Ok text
       /\ PythonVirtualenvOperator._write_script dedent self script_filename w
          = ({| fs := <[script_filename := text]> (fs w);
                trace := trace w ++
                         [EvOpen script_filename "w";
                          EvLog "debug" ("Writing code to file" +:+ PyStr.nl +:+ " %s")
                            [PyStr text]] |}, Ok tt))
  /\ (forall (e : pyexn),
        getsource (PythonVirtualenvOperator.python_callable self) = Raise e ->
        PythonVirtualenvOperator._generate_python_code dedent self = Raise e
        /\ PythonVirtualenvOperator._write_script dedent self script_filename w
           = ({| fs := <[script_filename := ""]> (fs w);
                 trace := trace w ++ [EvOpen script_filename "w"] |}, Raise e)).
Proof.
  split.
  - intros source fname Hs Hn. eexists. split; [reflexivity|].
    destruct (write_script_of_function_aux dedent self fname source Hs Hn)
      as [Hcode Hwrite].
    split; [exact Hcode|apply Hwrite].
  - intros e Hs.
    destruct (write_script_without_source dedent self e Hs) as [Hcode Hwrite].
    split; [exact Hcode|apply Hwrite].
Qed.

Lemma write_script_of_function_witness :
  (getsource (PythonVirtualenvOperator.python_callable
                (ExampleOperators.operator ExampleOperators.noop [] false))
   = Ok "def noop(): pass"
   /\ exists text,
        PythonVirtualenvOperator._generate_python_code ExampleOperators.dedent
          (ExampleOperators.operator ExampleOperators.noop [] false) = Ok text
        /\ fs (PythonVirtualenvOperator._write_script ExampleOperators.dedent
                 (ExampleOperators.operator ExampleOperators.noop [] false)
                 "/tmp/venv1/script.py" ExampleOperators.empty_world).1
           !! "/tmp/venv1/script.py" = Some text)
  /\ (getsource (PythonVirtualenvOperator.python_callable
                   (ExampleOperators.operator ExampleCallables.made_by_exec [] false))
      = Raise (OSError "could not get source code")
      /\ PythonVirtualenvOperator.__init__ (Ok tt) 3 ExampleCallables.made_by_exec
           None None false true None None None None None
         = Ok (ExampleOperators.operator ExampleCallables.made_by_exec [] false)
      /\ (PythonVirtualenvOperator._write_script ExampleOperators.dedent
            (ExampleOperators.operator ExampleCallables.made_by_exec [] false)
            "/tmp/venv1/script.py" ExampleOperators.empty_world).2
         = Raise (OSError "could not get source code")).
Proof.
  split.
  - split; [reflexivity|].
    destruct (proj1 (write_script_of_function ExampleOperators.dedent
                (ExampleOperators.operator ExampleOperators.noop [] false)
                "/tmp/venv1/script.py" ExampleOperators.empty_world)
                "def noop(): pass" "noop" eq_refl eq_refl)
      as (text & _ & Hcode & Hwrite).
    exists text. split; [exact Hcode|].
    rewrite Hwrite. cbn [fst fs]. apply lookup_insert_eq.
  - split; [reflexivity|]. split; [reflexivity|].
    destruct (proj2 (write_script_of_function ExampleOperators.dedent
                (ExampleOperators.operator ExampleCallables.made_by_exec [] false)
                "/tmp/venv1/script.py" ExampleOperators.empty_world)
                (OSError "could not get source code") eq_refl)
      as [_ Hwrite].
    rewrite Hwrite. reflexivity.
Defined.

(** ** From the start of an invocation to the start of the subprocess *)



Lemma write_args_some (pickle dill : Pickler)
    (self : PythonVirtualenvOperator.instance) (f d : string) (w : world) :
  input_artifact pickle dill self (Some d) ->
  PythonVirtualenvOperator._write_args pickle dill self f w
  = ({| fs := <[f := d]> (fs w);
        trace := trace w ++
                 [EvOpen f "wb";
                  EvDump (configured_library (PythonVirtualenvOperator.use_dill self)) f] |},
     Ok tt).
Proof.
  intros [Hpass Hd]. unfold PythonVirtualenvOperator._write_args.
  rewrite Hpass. erewrite bind_ok by reflexivity.
  unfold host_library, arg_dict_of in Hd.
  destruct (PythonVirtualenvOperator.use_dill self);
    unfold pickler_dump;
    (erewrite bind_ok by reflexivity);
    (erewrite bind_ok by (unfold lift; rewrite Hd; reflexivity));
    unfold file_write; cbn [fs trace configured_library];
    rewrite lookup_insert_eq, insert_insert_eq, <- app_assoc; reflexivity.
Qed.

Lemma write_args_none (pickle dill : Pickler)
    (self : PythonVirtualenvOperator.instance) (f : string) (w : world) :
  input_artifact pickle dill self None ->
  PythonVirtualenvOperator._write_args pickle dill self f w = (w, Ok tt).
Proof.
  intros Hpass. unfold PythonVirtualenvOperator._write_args.
  simpl in Hpass. rewrite Hpass. reflexivity.
Qed.

Section Marshal.

Variable pickle dill : Pickler.
Variable venv_pickle : Pickler.
Variable venv_dill : option Pickler.
Variable exec_source : string -> script_globals -> FsM (list string).
Variable run_callable : string -> string -> pyval -> pyval -> script_globals -> FsM pyval.
Variable prepare_virtualenv : string -> option string -> bool -> list string -> FsM unit.
Variable dedent : string -> string.

(** Once the environment is provisioned and the arguments encode, the body
    of [execute_callable] reaches the subprocess in the marshalled world. *)
Lemma execute_callable_body_marshalled
    (self : PythonVirtualenvOperator.instance) (tmp_dir : string)
    (fname : string) (source : string)
    (files : gmap string string) (data : option string) (w : world) :
  getsource (PythonVirtualenvOperator.python_callable self) = Ok source ->
  __name__ (PythonVirtualenvOperator.python_callable self) = Ok fname ->
  prepare_virtualenv tmp_dir (python_bin_of self)
    (PythonVirtualenvOperator.system_site_packages self)
    (PythonVirtualenvOperator.requirements self) (fs w) = (files, Ok tt) ->
  input_artifact pickle dill self data ->
  PythonVirtualenvOperator.execute_callable_body pickle dill venv_pickle
    venv_dill exec_source run_callable prepare_virtualenv dedent self tmp_dir w
  = (execute_in_subprocess venv_pickle venv_dill exec_source run_callable
       (script_of (configured_library (PythonVirtualenvOperator.use_dill self))
          (if PythonVirtualenvOperator._pass_op_args self
           then SLoadArgs (configured_library (PythonVirtualenvOperator.use_dill self)) 1
           else SEmptyArgs)
          (dedent source) fname)
       (command_in tmp_dir) ;;;
     PythonVirtualenvOperator._read_result pickle dill self
       (PyStr.os_path_join tmp_dir "script.out"))
      (marshalled_world self tmp_dir files data
         (render
            (script_of (configured_library (PythonVirtualenvOperator.use_dill self))
               (if PythonVirtualenvOperator._pass_op_args self
                then SLoadArgs
                       (configured_library (PythonVirtualenvOperator.use_dill self)) 1
                else SEmptyArgs)
               (dedent source) fname)) w).
Proof.
  intros Hs Hn Hprep Hdata.
  unfold PythonVirtualenvOperator.execute_callable_body.
  fold (python_bin_of self).
  erewrite bind_ok by (unfold on_files; rewrite Hprep; reflexivity).
  destruct (write_script_of_function_aux dedent self fname source Hs Hn)
    as [Hcode Hwrite].
  rewrite (generate_python_code_function dedent self fname source Hs Hn).
  destruct data as [d|].
  - erewrite bind_ok by (by apply write_args_some).
    erewrite bind_ok by (apply Hwrite).
    erewrite bind_ok by (apply write_string_args_eq).
    erewrite bind_ok by reflexivity.
    unfold marshalled_world, command_in. cbn [fs trace].
    rewrite <- !app_assoc. reflexivity.
  - erewrite bind_ok by (by apply write_args_none).
    erewrite bind_ok by (apply Hwrite).
    erewrite bind_ok by (apply write_string_args_eq).
    erewrite bind_ok by reflexivity.
    unfold marshalled_world, command_in. cbn [fs trace].
    rewrite <- !app_assoc. reflexivity.
Qed.

End Marshal.

(** ** Running the script of an invocation with arguments *)


Section RunWithArguments.

Variable venv_pickle : Pickler.
Variable venv_dill : option Pickler.
Variable exec_source : string -> script_globals -> FsM (list string).
Variable run_callable : string -> string -> pyval -> pyval -> script_globals -> FsM pyval.


End RunWithArguments.

(** ** A whole invocation *)



Lemma with_templates_dict_fields (self : PythonVirtualenvOperator.instance) :
  PythonVirtualenvOperator.python_callable (with_templates_dict self)
  = PythonVirtualenvOperator.python_callable self
  /\ PythonVirtualenvOperator.requirements (with_templates_dict self)
     = PythonVirtualenvOperator.requirements self
  /\ PythonVirtualenvOperator.string_args (with_templates_dict self)
     = PythonVirtualenvOperator.string_args self
  /\ PythonVirtualenvOperator.python_version (with_templates_dict self)
     = PythonVirtualenvOperator.python_version self
  /\ PythonVirtualenvOperator.use_dill (with_templates_dict self)
     = PythonVirtualenvOperator.use_dill self
  /\ PythonVirtualenvOperator.system_site_packages (with_templates_dict self)
     = PythonVirtualenvOperator.system_site_packages self
  /\ PythonVirtualenvOperator.op_args (with_templates_dict self)
     = PythonVirtualenvOperator.op_args self.
Proof.
  unfold with_templates_dict.
  destruct (truthy_dict _); repeat split; reflexivity.
Qed.

Lemma execute_callable_unfold
    (pickle dill venv_pickle : Pickler) (venv_dill : option Pickler)
    (exec_source : string -> script_globals -> FsM (list string))
    (run_callable : string -> string -> pyval -> pyval ->
                    script_globals -> FsM pyval)
    (prepare_virtualenv : string -> option string -> bool -> list string -> FsM unit)
    (dedent : string -> string)
    (self : PythonVirtualenvOperator.instance) (tmp_dir : string) (w : world) :
  PythonVirtualenvOperator.execute_callable pickle dill venv_pickle venv_dill
    exec_source run_callable prepare_virtualenv dedent self tmp_dir w
  = (PythonVirtualenvOperator.cleanup tmp_dir
       (PythonVirtualenvOperator.execute_callable_body pickle dill venv_pickle
          venv_dill exec_source run_callable prepare_virtualenv dedent
          (with_templates_dict self) tmp_dir w).1,
     with_templates_dict self,
     (PythonVirtualenvOperator.execute_callable_body pickle dill venv_pickle
        venv_dill exec_source run_callable prepare_virtualenv dedent
        (with_templates_dict self) tmp_dir w).2).
Proof.
  unfold PythonVirtualenvOperator.execute_callable. fold (with_templates_dict self).
  destruct (PythonVirtualenvOperator.execute_callable_body _ _ _ _ _ _ _ _ _ _).
  reflexivity.
Qed.

Lemma cleanup_removes (tmp_dir path : string) (w : world) :
  inside tmp_dir path = true ->
  fs (PythonVirtualenvOperator.cleanup tmp_dir w) !! path = None.
Proof.
  intros Hin. unfold PythonVirtualenvOperator.cleanup. cbn [fs].
  apply map_lookup_filter_None. right. intros content _. cbn [fst].
  unfold inside in Hin. rewrite Hin. discriminate.
Qed.

Lemma cleanup_keeps (tmp_dir path : string) (w : world) :
  inside tmp_dir path = false ->
  fs (PythonVirtualenvOperator.cleanup tmp_dir w) !! path = fs w !! path.
Proof.
  intros Hin. unfold PythonVirtualenvOperator.cleanup. cbn [fs].
  apply option_eq. intros content. rewrite map_lookup_filter_Some. cbn [fst].
  unfold inside in Hin. rewrite Hin. split; [by intros [? _]|by split].
Qed.

Lemma prefix_append (a b : string) : String.prefix a (a +:+ b) = true.
Proof.
  induction a as [|x a IH]; [by destruct b|].
  rewrite append_head, prefix_cons.
  destruct (ascii_dec x x); [exact IH|contradiction].
Qed.

Lemma os_path_join_inside (tmp_dir name : string) :
  tmp_dir <> "" ->
  PyStr.endswith_slash tmp_dir = false ->
  String.prefix "/" name = false ->
  inside tmp_dir (PyStr.os_path_join tmp_dir name) = true.
Proof.
  intros Hne Hslash Hname. unfold inside, PyStr.os_path_join.
  rewrite Hname, Hslash. destruct tmp_dir as [|x a]; [contradiction|].
  rewrite <- append_assoc. apply prefix_append.
Qed.

(** X7.  When the environment cannot be provisioned, [execute_callable]
    raises the provisioner's exception and has done nothing else: no
    artifact was opened or written and no subprocess was started (the trace
    is unchanged), and what the provisioner left in the temporary directory
    is removed with the directory. *)
Theorem provisioning_failure_stops_everything
    (pickle dill venv_pickle : Pickler) (venv_dill : option Pickler)
    (exec_source : string -> script_globals -> FsM (list string))
    (run_callable : string -> string -> pyval -> pyval ->
                    script_globals -> FsM pyval)
    (prepare_virtualenv : string -> option string -> bool -> list string -> FsM unit)
    (dedent : string -> string)
    (self : PythonVirtualenvOperator.instance) (tmp_dir : string) (w : world)
    (files : gmap string string) (e : pyexn) :
  prepare_virtualenv tmp_dir (python_bin_of self)
    (PythonVirtualenvOperator.system_site_packages self)
    (PythonVirtualenvOperator.requirements self) (fs w) = (files, Raise e) ->
  PythonVirtualenvOperator.execute_callable pickle dill venv_pickle venv_dill
    exec_source run_callable prepare_virtualenv dedent self tmp_dir w
  = (PythonVirtualenvOperator.cleanup tmp_dir {| fs := files; trace := trace w |},
     with_templates_dict self, Raise e).
Proof.
  intros Hprep. rewrite execute_callable_unfold.
  destruct (with_templates_dict_fields self)
    as (_ & Hreq & _ & Hver & _ & Hssp & _).
  assert (Hbody : PythonVirtualenvOperator.execute_callable_body pickle dill
                    venv_pickle venv_dill exec_source run_callable prepare_virtualenv dedent
                    (with_templates_dict self) tmp_dir w
                  = ({| fs := files; trace := trace w |}, Raise e)).
  { unfold PythonVirtualenvOperator.execute_callable_body.
    rewrite Hreq, Hver, Hssp. fold (python_bin_of self).
    erewrite bind_raised; [reflexivity|].
    unfold on_files. rewrite Hprep. reflexivity. }
  rewrite Hbody. reflexivity.
Qed.

Lemma provisioning_failure_stops_everything_witness :
  ExampleFailures.failing_prepare_virtualenv "/tmp/venv1"
    (python_bin_of (ExampleOperators.operator ExampleOperators.answer [] false))
    true [] (fs ExampleFailures.world_with_home)
  = (<["/tmp/venv1/pip.log" := "no matching distribution"]>
       (fs ExampleFailures.world_with_home),
     Raise (CalledProcessError ["virtualenv"; "/tmp/venv1"]))
  /\ PythonVirtualenvOperator.execute_callable
       (MiniPickle.pickler 4 []) (MiniPickle.pickler 4 [])
       (MiniPickle.pickler 4 []) None ExampleOperators.exec_source ExampleOperators.run_callable
       ExampleFailures.failing_prepare_virtualenv ExampleOperators.dedent
       (ExampleOperators.operator ExampleOperators.answer [] false)
       "/tmp/venv1" ExampleFailures.world_with_home
     = (ExampleFailures.world_with_home,
        ExampleOperators.operator ExampleOperators.answer [] false,
        Raise (CalledProcessError ["virtualenv"; "/tmp/venv1"])).
Proof.
  assert (H : ExampleFailures.failing_prepare_virtualenv "/tmp/venv1"
                (python_bin_of
                   (ExampleOperators.operator ExampleOperators.answer [] false))
                true [] (fs ExampleFailures.world_with_home)
              = (<["/tmp/venv1/pip.log" := "no matching distribution"]>
                   (fs ExampleFailures.world_with_home),
                 Raise (CalledProcessError ["virtualenv"; "/tmp/venv1"])))
    by reflexivity.
  split; [exact H|].
  rewrite (provisioning_failure_stops_everything
             (MiniPickle.pickler 4 []) (MiniPickle.pickler 4 [])
             (MiniPickle.pickler 4 []) None ExampleOperators.exec_source ExampleOperators.run_callable
             ExampleFailures.failing_prepare_virtualenv ExampleOperators.dedent
             (ExampleOperators.operator ExampleOperators.answer [] false)
             "/tmp/venv1" ExampleFailures.world_with_home _ _ H).
  vm_compute. reflexivity.
Defined.

(** X8.  However [execute_callable] ends, with a value or with an
    exception, nothing is left in the temporary directory: no path under
    [tmp_dir/] exists afterwards, in particular none of the four artifacts
    (for a directory name that is not empty and does not end in a slash),
    and a path outside of it is as the body of the invocation left it. *)
Theorem temporary_directory_is_removed
    (pickle dill venv_pickle : Pickler) (venv_dill : option Pickler)
    (exec_source : string -> script_globals -> FsM (list string))
    (run_callable : string -> string -> pyval -> pyval ->
                    script_globals -> FsM pyval)
    (prepare_virtualenv : string -> option string -> bool -> list string -> FsM unit)
    (dedent : string -> string)
    (self : PythonVirtualenvOperator.instance) (tmp_dir : string) (w : world) :
  (forall path,
     inside tmp_dir path = true ->
     fs (PythonVirtualenvOperator.execute_callable pickle dill venv_pickle
           venv_dill exec_source run_callable prepare_virtualenv dedent self tmp_dir w).1.1
       !! path = None)
  /\ (tmp_dir <> "" -> PyStr.endswith_slash tmp_dir = false ->
      forall name, name ∈ artifact_names ->
        fs (PythonVirtualenvOperator.execute_callable pickle dill venv_pickle
              venv_dill exec_source run_callable prepare_virtualenv dedent self tmp_dir w).1.1
          !! PyStr.os_path_join tmp_dir name = None)
  /\ (forall path,
        inside tmp_dir path = false ->
        fs (PythonVirtualenvOperator.execute_callable pickle dill venv_pickle
              venv_dill exec_source run_callable prepare_virtualenv dedent self tmp_dir w).1.1
          !! path
        = fs (PythonVirtualenvOperator.execute_callable_body pickle dill
                venv_pickle venv_dill exec_source run_callable prepare_virtualenv dedent
                (with_templates_dict self) tmp_dir w).1 !! path).
Proof.
  rewrite execute_callable_unfold. cbn [fst].
  split; [|split].
  - intros path Hin. by apply cleanup_removes.
  - intros Hne Hslash name Hname. apply cleanup_removes.
    apply os_path_join_inside; [exact Hne|exact Hslash|].
    unfold artifact_names in Hname.
    repeat (apply elem_of_cons in Hname as [->|Hname]; [reflexivity|]).
    by apply elem_of_nil in Hname.
  - intros path Hout. by apply cleanup_keeps.
Qed.


Lemma tail_command_in (tmp_dir : string) :
  tail (command_in tmp_dir)
  = [PyStr.os_path_join tmp_dir "script.py";
     PyStr.os_path_join tmp_dir "script.in";
     PyStr.os_path_join tmp_dir "script.out";
     PyStr.os_path_join tmp_dir "string_args.txt"].
Proof. reflexivity. Qed.

(** X9.  When the generated script ends with an exception that gives the
    subprocess an exit status other than 0 (any exception but a
    [SystemExit] whose status is 0 or another multiple of 256),
    [execute_callable] raises [CalledProcessError] with the command line of
    the invocation and stops there: the world is the one in which the
    script stopped (minus the temporary directory), so the output file was
    never inspected and no result was decoded.  When the script is ended
    with an exit status of 0 instead, [execute_callable] does not raise
    [CalledProcessError]: it goes on to [_read_result] on the output path,
    in the world in which the script stopped, and ends as that ends. *)
Theorem script_failure_is_called_process_error
    (pickle dill venv_pickle : Pickler) (venv_dill : option Pickler)
    (exec_source : string -> script_globals -> FsM (list string))
    (run_callable : string -> string -> pyval -> pyval ->
                    script_globals -> FsM pyval)
    (prepare_virtualenv : string -> option string -> bool -> list string -> FsM unit)
    (dedent : string -> string)
    (self : PythonVirtualenvOperator.instance) (tmp_dir : string) (w : world)
    (files : gmap string string) (data : option string)
    (program : list stmt) (stopped : world) (e : pyexn) :
  prepare_virtualenv tmp_dir (python_bin_of self)
    (PythonVirtualenvOperator.system_site_packages self)
    (PythonVirtualenvOperator.requirements self) (fs w) = (files, Ok tt) ->
  input_artifact pickle dill (with_templates_dict self) data ->
  PythonVirtualenvOperator.driver_script dedent (with_templates_dict self)
  = Ok program ->
  run_script venv_pickle venv_dill exec_source run_callable program (tail (command_in tmp_dir))
    (emit (EvSubprocess (command_in tmp_dir))
       (marshalled_world (with_templates_dict self) tmp_dir files data
          (render program) w)).1
  = (stopped, Raise e) ->
  (exit_status (Raise e) <> 0 ->
   PythonVirtualenvOperator.execute_callable pickle dill venv_pickle venv_dill
     exec_source run_callable prepare_virtualenv dedent self tmp_dir w
   = (PythonVirtualenvOperator.cleanup tmp_dir stopped,
      with_templates_dict self,
      Raise (CalledProcessError (command_in tmp_dir))))
  /\ (exit_status (Raise e) = 0 ->
      PythonVirtualenvOperator.execute_callable pickle dill venv_pickle venv_dill
        exec_source run_callable prepare_virtualenv dedent self tmp_dir w
      = (PythonVirtualenvOperator.cleanup tmp_dir
           (PythonVirtualenvOperator._read_result pickle dill
              (with_templates_dict self)
              (PyStr.os_path_join tmp_dir "script.out") stopped).1,
         with_templates_dict self,
         (PythonVirtualenvOperator._read_result pickle dill
            (with_templates_dict self)
            (PyStr.os_path_join tmp_dir "script.out") stopped).2)).
Proof.
  intros Hprep Hdata Hprogram Hrun. rewrite execute_callable_unfold.
  destruct (with_templates_dict_fields self)
    as (Hcallable & Hreq & _ & Hver & _ & Hssp & _).
  assert (Hprep' : prepare_virtualenv tmp_dir (python_bin_of (with_templates_dict self))
                     (PythonVirtualenvOperator.system_site_packages
                        (with_templates_dict self))
                     (PythonVirtualenvOperator.requirements (with_templates_dict self))
                     (fs w) = (files, Ok tt)).
  { unfold python_bin_of. by rewrite Hver, Hssp, Hreq. }
  destruct (driver_script_shape dedent _ program Hprogram)
    as (source & fname & Hs & Hn & ->).
  rewrite (execute_callable_body_marshalled pickle dill venv_pickle venv_dill
             exec_source run_callable prepare_virtualenv dedent (with_templates_dict self)
             tmp_dir fname source files data w Hs Hn Hprep' Hdata).
  unfold emit in Hrun. cbn [fst] in Hrun.
  split; intros Hstatus.
  - erewrite bind_raised; [reflexivity|].
    unfold execute_in_subprocess, bind, emit. rewrite Hrun.
    apply Nat.eqb_neq in Hstatus. rewrite Hstatus. reflexivity.
  - erewrite bind_ok.
    2:{ unfold execute_in_subprocess, bind, emit. rewrite Hrun.
        apply Nat.eqb_eq in Hstatus. rewrite Hstatus. reflexivity. }
    reflexivity.
Qed.

Lemma script_failure_is_called_process_error_witness :
  PythonVirtualenvOperator.driver_script ExampleOperators.dedent
    (with_templates_dict (ExampleOperators.operator ExampleOperators.answer [] true))
  = Ok (script_of "dill" SEmptyArgs "def answer(): return 5" "answer")
  /\ (run_script (MiniPickle.pickler 4 []) None ExampleOperators.exec_source ExampleOperators.run_callable
        (script_of "dill" SEmptyArgs "def answer(): return 5" "answer")
        (tail (command_in "/tmp/venv1"))
        (emit (EvSubprocess (command_in "/tmp/venv1"))
           (marshalled_world
              (with_templates_dict
                 (ExampleOperators.operator ExampleOperators.answer [] true))
              "/tmp/venv1" ∅ None
              (render (script_of "dill" SEmptyArgs "def answer(): return 5" "answer"))
              ExampleOperators.empty_world)).1).2
     = Raise (ModuleNotFoundError "dill")
  /\ exit_status (Raise (ModuleNotFoundError "dill")) <> 0
  /\ (PythonVirtualenvOperator.execute_callable
        (MiniPickle.pickler 4 []) (MiniPickle.pickler 4 [])
        (MiniPickle.pickler 4 []) None ExampleOperators.exec_source ExampleOperators.run_callable
        ExampleOperators.prepare_virtualenv ExampleOperators.dedent
        (ExampleOperators.operator ExampleOperators.answer [] true)
        "/tmp/venv1" ExampleOperators.empty_world).2
     = Raise (CalledProcessError (command_in "/tmp/venv1")).
Proof.
  assert (Hprogram :
    PythonVirtualenvOperator.driver_script ExampleOperators.dedent
      (with_templates_dict (ExampleOperators.operator ExampleOperators.answer [] true))
    = Ok (script_of "dill" SEmptyArgs "def answer(): return 5" "answer"))
    by reflexivity.
  destruct (run_script (MiniPickle.pickler 4 []) None ExampleOperators.exec_source ExampleOperators.run_callable
              (script_of "dill" SEmptyArgs "def answer(): return 5" "answer")
              (tail (command_in "/tmp/venv1"))
              (emit (EvSubprocess (command_in "/tmp/venv1"))
                 (marshalled_world
                    (with_templates_dict
                       (ExampleOperators.operator ExampleOperators.answer [] true))
                    "/tmp/venv1" ∅ None
                    (render (script_of "dill" SEmptyArgs "def answer(): return 5"
                               "answer"))
                    ExampleOperators.empty_world)).1)
    as [stopped r] eqn:Hrun.
  assert (Hr : r = Raise (ModuleNotFoundError "dill")).
  { apply (f_equal snd) in Hrun. vm_compute in Hrun. by rewrite <- Hrun. }
  subst r.
  assert (Hstatus : exit_status (Raise (ModuleNotFoundError "dill")) <> 0)
    by discriminate.
  split; [exact Hprogram|]. split; [reflexivity|]. split; [exact Hstatus|].
  rewrite (proj1 (script_failure_is_called_process_error
             (MiniPickle.pickler 4 []) (MiniPickle.pickler 4 [])
             (MiniPickle.pickler 4 []) None ExampleOperators.exec_source ExampleOperators.run_callable
             ExampleOperators.prepare_virtualenv ExampleOperators.dedent
             (ExampleOperators.operator ExampleOperators.answer [] true)
             "/tmp/venv1" ExampleOperators.empty_world
             ∅ None _ stopped _
             eq_refl eq_refl Hprogram Hrun) Hstatus).
  reflexivity.
Defined.

(** A callable that ends the process with status 0: no
    [CalledProcessError], and the invocation ends with the
    [FileNotFoundError] of the size check on the missing output file. *)
Example execute_callable_exit_zero :
  (PythonVirtualenvOperator.execute_callable
     (MiniPickle.pickler 4 []) (MiniPickle.pickler 4 [])
     (MiniPickle.pickler 4 []) None
     ExampleOperators.exec_source ExampleOperators.run_callable
     ExampleOperators.prepare_virtualenv ExampleOperators.dedent
     (ExampleOperators.operator ExampleOperators.leave [] false)
     "/tmp/venv1" ExampleOperators.empty_world).2
  = Raise (FileNotFoundError "/tmp/venv1/script.out").
Proof. vm_compute. reflexivity. Qed.



(** * Task ids of functional operators *)

Lemma split_numeric_suffix_empty s :
  Re.split_numeric_suffix s = "" -> s = "" \/ Re.numeric_suffix s = true.
Proof.
  destruct s as [|c r]; [now left|].
  change (Re.split_numeric_suffix (String c r))
    with (if Re.numeric_suffix (String c r) then EmptyString
          else String c (Re.split_numeric_suffix r)).
  destruct (Re.numeric_suffix (String c r)); [now right | discriminate].
Qed.

Lemma split_numeric_suffix_of_suffix s :
  Re.numeric_suffix s = true -> Re.split_numeric_suffix s = "".
Proof.
  intros H. destruct s as [|c r]; [reflexivity|].
  change (Re.split_numeric_suffix (String c r))
    with (if Re.numeric_suffix (String c r) then EmptyString
          else String c (Re.split_numeric_suffix r)).
  now rewrite H.
Qed.

Lemma char_matches_refl c : Re.char_matches c c = true.
Proof.
  unfold Re.char_matches. destruct (Ascii.eqb c ".") eqn:E.
  - apply Ascii.eqb_eq in E. subst c. reflexivity.
  - apply Ascii.eqb_refl.
Qed.

Lemma match_core_self core x : Re.match_core core (core +:+ x) = Some x.
Proof.
  induction core as [|c core IH]; [reflexivity|].
  rewrite append_head. cbn [Re.match_core]. now rewrite char_matches_refl.
Qed.

Lemma match_core_split core s rest :
  Re.match_core core s = Some rest ->
  exists p, s = p +:+ rest /\ String.length p = String.length core.
Proof.
  revert s. induction core as [|c core IH]; intros s H.
  - exists "". cbn in H. now injection H as ->.
  - destruct s as [|d s]; [discriminate|]. cbn [Re.match_core] in H.
    destruct (Re.char_matches c d); [|discriminate].
    destruct (IH _ H) as (p & -> & Hl). exists (String d p). split; [reflexivity|].
    cbn. now rewrite Hl.
Qed.

Lemma all_digits_string_of_uint d : Re.all_digits (NilZero.string_of_uint d) = true.
Proof.
  assert (H : forall d, Re.all_digits (NilEmpty.string_of_uint d) = true).
  { clear d. induction d; cbn [NilEmpty.string_of_uint Re.all_digits];
      try rewrite IHd; reflexivity. }
  destruct d; try apply H. reflexivity.
Qed.

Lemma to_uint_not_Nil n : Nat.to_uint n <> Decimal.Nil.
Proof.
  intros H. pose proof (Unsigned.of_to n) as E. rewrite H in E. cbn in E. subst n.
  discriminate H.
Qed.

Lemma str_of_nat_digits n :
  exists d ds, PyStr.str_of_nat n = String d ds
               /\ Re.is_digit d = true /\ Re.all_digits ds = true.
Proof.
  unfold PyStr.str_of_nat.
  pose proof (all_digits_string_of_uint (Nat.to_uint n)) as Hd.
  pose proof (to_uint_not_Nil n) as Hn.
  destruct (Nat.to_uint n) eqn:E; try congruence;
    cbn [NilZero.string_of_uint NilEmpty.string_of_uint] in *; eexists _, _;
    (split; [reflexivity|]); cbn [Re.all_digits] in Hd;
    apply andb_true_iff in Hd; exact Hd.
Qed.

Lemma numeric_suffix_str_of_nat n :
  Re.numeric_suffix ("__" +:+ PyStr.str_of_nat n) = true.
Proof.
  destruct (str_of_nat_digits n) as (d & ds & -> & Hd & Hds).
  change (Re.numeric_suffix ("__" +:+ String d ds))
    with (Re.is_digit d && Re.all_digits ds).
  now rewrite Hd, Hds.
Qed.

Lemma int_of_digits_str_of_nat n : int_of_digits (PyStr.str_of_nat n) = Ok n.
Proof.
  unfold int_of_digits, PyStr.str_of_nat.
  rewrite NilZero.usu by apply to_uint_not_Nil. now rewrite Unsigned.of_to.
Qed.

Lemma is_digit_cases c :
  Re.is_digit c = true ->
  c = "0"%char \/ c = "1"%char \/ c = "2"%char \/ c = "3"%char \/ c = "4"%char
  \/ c = "5"%char \/ c = "6"%char \/ c = "7"%char \/ c = "8"%char \/ c = "9"%char.
Proof.
  intros Hc. unfold Re.is_digit in Hc. apply andb_true_iff in Hc as [H1 H2].
  apply Nat.leb_le in H1, H2.
  rewrite <- (ascii_nat_embedding c).
  remember (nat_of_ascii c) as n. clear Heqn.
  do 48 (destruct n as [|n]; [lia|]).
  do 10 (destruct n as [|n]; [cbn; tauto|]). lia.
Qed.

Lemma uint_of_string_digits s :
  Re.all_digits s = true -> exists d, NilEmpty.uint_of_string s = Some d.
Proof.
  induction s as [|c r IH]; intros H; [by eexists|].
  cbn [Re.all_digits] in H. apply andb_true_iff in H as [Hc Hr].
  destruct (IH Hr) as (d & Hd). cbn [NilEmpty.uint_of_string]. rewrite Hd.
  destruct (is_digit_cases c Hc) as [->|[->|[->|[->|[->|[->|[->|[->|[->| ->]]]]]]]]];
    eexists; reflexivity.
Qed.

Lemma int_of_digits_ok s :
  Re.all_digits s = true -> s <> "" -> exists n, int_of_digits s = Ok n.
Proof.
  intros H Hne. destruct (uint_of_string_digits s H) as (d & Hd).
  unfold int_of_digits, NilZero.uint_of_string.
  destruct s; [congruence|]. rewrite Hd. eauto.
Qed.

Lemma is_digit_not_underscore d : Re.is_digit d = true -> d <> "_"%char.
Proof. intros H ->. discriminate H. Qed.

Lemma after_last_dunder_digits ds :
  Re.all_digits ds = true -> Re.after_last_dunder ds = None.
Proof.
  induction ds as [|d ds IH]; intros H; [reflexivity|].
  cbn [Re.all_digits] in H. apply andb_true_iff in H as [Hd Hds].
  cbn [Re.after_last_dunder]. rewrite (IH Hds).
  pose proof (is_digit_not_underscore _ Hd).
  destruct d as [[] [] [] [] [] [] [] []]; try reflexivity.
  destruct ds as [|e ds']; [reflexivity|].
  cbn [Re.all_digits] in Hds. apply andb_true_iff in Hds as [He _].
  pose proof (is_digit_not_underscore _ He).
  destruct e as [[] [] [] [] [] [] [] []]; try reflexivity; congruence.
Qed.

Lemma after_last_dunder_underscore_digits ds :
  Re.all_digits ds = true -> ds <> "" -> Re.after_last_dunder (String "_" ds) = None.
Proof.
  intros H Hne. cbn [Re.after_last_dunder]. rewrite (after_last_dunder_digits _ H).
  destruct ds as [|d ds']; [congruence|].
  cbn [Re.all_digits] in H. apply andb_true_iff in H as [Hd _].
  pose proof (is_digit_not_underscore _ Hd).
  destruct d as [[] [] [] [] [] [] [] []]; try reflexivity; congruence.
Qed.

Lemma after_last_dunder_found x ds :
  Re.all_digits ds = true -> ds <> "" ->
  Re.after_last_dunder (x +:+ "__" +:+ ds) = Some ds.
Proof.
  intros H Hne. induction x as [|c x IH].
  - change ("" +:+ "__" +:+ ds) with (String "_" (String "_" ds)).
    change (Re.after_last_dunder (String "_" (String "_" ds)))
      with (match Re.after_last_dunder (String "_" ds) with
            | Some t => Some t
            | None => Some ds
            end).
    now rewrite after_last_dunder_underscore_digits.
  - change (String c x +:+ "__" +:+ ds) with (String c (x +:+ "__" +:+ ds)).
    cbn [Re.after_last_dunder]. now rewrite IH.
Qed.

Lemma numeric_suffix_inv s :
  Re.numeric_suffix s = true ->
  exists ds, s = "__" +:+ ds /\ Re.all_digits ds = true /\ ds <> "".
Proof.
  intros H. unfold Re.numeric_suffix in H.
  destruct s as [|a s]; [discriminate|].
  assert (Ha : a = "_"%char).
  { destruct a as [[] [] [] [] [] [] [] []];
      first [reflexivity | exfalso; cbn in H; discriminate H]. }
  subst a. destruct s as [|b s]; [discriminate|].
  assert (Hb : b = "_"%char).
  { destruct b as [[] [] [] [] [] [] [] []];
      first [reflexivity | exfalso; cbn in H; discriminate H]. }
  subst b. destruct s as [|d ds]; [discriminate|].
  exists (String d ds). split; [reflexivity|]. split; [exact H|discriminate].
Qed.

Lemma comprehension_ok_in {A B} (f : A -> result B) l ys x :
  comprehension f l = Ok ys -> x ∈ l -> exists y, f x = Ok y /\ y ∈ ys.
Proof.
  revert ys. induction l as [|a l IH]; intros ys H Hx.
  - by apply elem_of_nil in Hx.
  - cbn [comprehension] in H. destruct (f a) as [y|e] eqn:Ea; [|discriminate].
    cbn [bind_result] in H.
    destruct (comprehension f l) as [ys'|e] eqn:El; [|discriminate].
    cbn [bind_result] in H. injection H as <-.
    apply elem_of_cons in Hx as [->|Hx].
    + exists y. split; [exact Ea|]. apply elem_of_cons. by left.
    + destruct (IH _ eq_refl Hx) as (y' & Hy & Hin).
      exists y'. split; [exact Hy|]. apply elem_of_cons. by right.
Qed.

Lemma comprehension_total {A B} (f : A -> result B) l :
  (forall x, x ∈ l -> exists y, f x = Ok y) -> exists ys, comprehension f l = Ok ys.
Proof.
  induction l as [|a l IH]; intros H; [by eexists|].
  destruct (H a) as (y & Hy); [apply elem_of_cons; by left|].
  destruct IH as (ys & Hys); [intros x Hx; apply H, elem_of_cons; by right|].
  exists (y :: ys). cbn [comprehension]. by rewrite Hy, Hys.
Qed.

Lemma comprehension_raises_first {A B} (f : A -> result B) l e :
  l <> [] -> (forall x, x ∈ l -> f x = Raise e) -> comprehension f l = Raise e.
Proof.
  intros Hne H. destruct l as [|a l]; [congruence|].
  cbn [comprehension]. rewrite (H a); [reflexivity|]. apply elem_of_cons. by left.
Qed.

Lemma last_sorted_max (l : list nat) :
  match last (merge_sort le l) with
  | Some m => forall v, v ∈ l -> v <= m
  | None => l = []
  end.
Proof.
  pose proof (StronglySorted_merge_sort le l) as Hs.
  pose proof (merge_sort_Permutation le l) as Hp.
  remember (merge_sort le l) as sl eqn:E. clear E.
  assert (Hmax : match last sl with
                 | Some m => forall v, v ∈ sl -> v <= m
                 | None => sl = []
                 end).
  { clear Hp. induction Hs as [|a sl Hs IH Hall]; [reflexivity|].
    destruct sl as [|b sl'].
    - cbn. intros v Hv. apply list_elem_of_singleton in Hv. lia.
    - change (last (a :: b :: sl')) with (last (b :: sl')).
      destruct (last (b :: sl')) as [m|] eqn:El; [|discriminate IH].
      intros v Hv. apply elem_of_cons in Hv as [->|Hv]; [|by apply IH].
      assert (b <= m) by (apply IH, elem_of_cons; by left).
      apply Forall_cons in Hall as [Hab _]. lia. }
  destruct (last sl) as [m|].
  - intros v Hv. apply Hmax. by rewrite Hp.
  - subst sl. by apply Permutation_nil_l in Hp.
Qed.

(** An id that matches [core__\d+], for a non-empty [core], splits into
    the empty text and its digits, which [int] reads. *)
Lemma matched_id_number core id :
  core <> "" -> Re.match_numbered core id = true ->
  exists ds n, Re.split_greedy_dunder id = [""; ds] /\ int_of_digits ds = Ok n.
Proof.
  intros Hcore Hm. unfold Re.match_numbered in Hm.
  destruct (Re.match_core core id) as [rest|] eqn:Hc; [|discriminate].
  destruct (match_core_split _ _ _ Hc) as (p & -> & Hlen).
  destruct (numeric_suffix_inv _ Hm) as (ds & -> & Hds & Hne).
  destruct (int_of_digits_ok ds Hds Hne) as (n & Hn).
  exists ds, n. split; [|exact Hn].
  destruct p as [|c p]; [destruct core; [congruence|discriminate Hlen]|].
  rewrite append_head. unfold Re.split_greedy_dunder.
  by rewrite (after_last_dunder_found p ds Hds Hne).
Qed.

Lemma numbered_matches core n : Re.match_numbered core (numbered core n) = true.
Proof.
  unfold Re.match_numbered, numbered. rewrite match_core_self.
  apply numeric_suffix_str_of_nat.
Qed.

Lemma numbered_number core n :
  core <> "" -> Re.split_greedy_dunder (numbered core n) = [""; PyStr.str_of_nat n].
Proof.
  intros Hcore. unfold numbered. destruct core as [|c core]; [congruence|].
  rewrite append_head. unfold Re.split_greedy_dunder.
  destruct (str_of_nat_digits n) as (d & ds & E & Hd & Hds).
  rewrite after_last_dunder_found; [reflexivity| |rewrite E; discriminate].
  rewrite E. cbn [Re.all_digits]. by rewrite Hd, Hds.
Qed.

Lemma valid_key_nonempty s : Re.valid_key s = true -> s <> "".
Proof. intros H ->. discriminate H. Qed.

(** X11. [_get_unique_task_id] on a DAG in use whose task ids, like
    [task_id], are valid keys: unless [task_id] is a bare [__<digits>],
    it returns an id that is not among the DAG's task ids.  That is
    [task_id] itself when the DAG does not have it; otherwise it is
    [core__n], with [core] the id without its numeric suffix, [n >= 1],
    and [n] greater than every [k] for which the DAG has [core__k]. *)
Theorem unique_task_id_is_fresh (current_dag dag : option DAG) (d : DAG)
    (task_id : string) :
  dag_in_use dag current_dag = Some d ->
  Forall (fun id => Re.valid_key id = true) (task_id :: task_ids d) ->
  Re.numeric_suffix task_id = false ->
  exists r,
    _PythonFunctionalOperator._get_unique_task_id current_dag task_id dag = Ok r
    /\ (r ∉ task_ids d)
    /\ ((task_id ∉ task_ids d) -> r = task_id)
    /\ ((task_id ∈ task_ids d) ->
        exists n, r = numbered (Re.split_numeric_suffix task_id) n
                  /\ 1 <= n
                  /\ forall k, (numbered (Re.split_numeric_suffix task_id) k ∈ task_ids d)
                               -> k < n).
Proof.
  intros Hdag Hvalid Hbare.
  unfold _PythonFunctionalOperator._get_unique_task_id. rewrite Hdag.
  destruct (bool_decide (task_id ∈ task_ids d)) eqn:Hin.
  2:{ apply bool_decide_eq_false in Hin. exists task_id. cbn [negb].
      repeat split; [exact Hin|contradiction]. }
  apply bool_decide_eq_true in Hin. cbn [negb].
  set (core := Re.split_numeric_suffix task_id).
  assert (Hcore : core <> "").
  { intros E. destruct (split_numeric_suffix_empty _ E) as [E'|E']; [|congruence].
    apply Forall_cons in Hvalid as [Hv _]. by apply valid_key_nonempty in Hv. }
  set (f := fun task_id : string =>
              let* text := list_item (Re.split_greedy_dunder task_id) 1 in
              int_of_digits text).
  set (matched := filter (fun id => Re.match_numbered core id = true) (task_ids d)).
  destruct (comprehension_total f matched) as (suffixes & Hs).
  { intros x Hx. apply list_elem_of_filter in Hx as [Hm _].
    destruct (matched_id_number core x Hcore Hm) as (ds & n & Hsplit & Hn).
    exists n. unfold f. by rewrite Hsplit. }
  rewrite Hs. cbn [bind_result].
  assert (Hnum : forall k, (numbered core k ∈ task_ids d) -> k ∈ suffixes).
  { intros k Hk.
    destruct (comprehension_ok_in f matched suffixes (numbered core k) Hs) as (y & Hy & Hyin).
    { apply list_elem_of_filter. split; [apply numbered_matches|exact Hk]. }
    unfold f in Hy. rewrite (numbered_number core k Hcore) in Hy.
    cbn in Hy. rewrite int_of_digits_str_of_nat in Hy. by injection Hy as ->. }
  pose proof (last_sorted_max suffixes) as Hmax.
  assert (Hgoal : forall n, 1 <= n -> (forall k, k ∈ suffixes -> k < n) ->
            exists r, Ok (numbered core n) = Ok r /\ (r ∉ task_ids d)
              /\ ((task_id ∉ task_ids d) -> r = task_id)
              /\ ((task_id ∈ task_ids d) ->
                  exists n0, r = numbered core n0 /\ 1 <= n0
                    /\ forall k, (numbered core k ∈ task_ids d) -> k < n0)).
  { intros n Hn Hlt. exists (numbered core n). split; [reflexivity|]. split.
    - intros Hr. specialize (Hlt n (Hnum n Hr)). lia.
    - split; [contradiction|]. intros _. exists n. split; [reflexivity|].
      split; [exact Hn|]. intros k Hk. by apply Hlt, Hnum. }
  destruct (last (merge_sort le suffixes)) as [m|].
  - apply (Hgoal (m + 1)); [lia|]. intros k Hk. specialize (Hmax k Hk). lia.
  - subst suffixes. apply (Hgoal 1); [lia|]. intros k Hk. by apply elem_of_nil in Hk.
Qed.

Lemma unique_task_id_is_fresh_witness :
  exists r,
    _PythonFunctionalOperator._get_unique_task_id None "load__3"
      (Some {| task_ids := ["load__3"; "extract"; "load"; "l.ad__9"; "load__12"] |}) = Ok r
    /\ r ∉ ["load__3"; "extract"; "load"; "l.ad__9"; "load__12"].
Proof.
  destruct (unique_task_id_is_fresh None
              (Some {| task_ids := ["load__3"; "extract"; "load"; "l.ad__9"; "load__12"] |})
              {| task_ids := ["load__3"; "extract"; "load"; "l.ad__9"; "load__12"] |}
              "load__3" eq_refl)
    as (r & Hr & Hfresh & _).
  - repeat constructor.
  - reflexivity.
  - exists r. split; [exact Hr|exact Hfresh].
Defined.

(** X12. A task id that is a bare [__<digits>] and that the DAG in use
    already has cannot be made unique: [_get_unique_task_id] raises
    [IndexError], because with an empty [core] no id that matches
    [__\d+] has a character before its [__] for [.+] to take. *)
Theorem unique_task_id_of_bare_number (current_dag dag : option DAG) (d : DAG)
    (task_id : string) :
  dag_in_use dag current_dag = Some d ->
  Forall (fun id => Re.valid_key id = true) (task_id :: task_ids d) ->
  task_id ∈ task_ids d ->
  Re.numeric_suffix task_id = true ->
  _PythonFunctionalOperator._get_unique_task_id current_dag task_id dag
  = Raise (IndexError "list index out of range").
Proof.
  intros Hdag _ Hin Hbare.
  unfold _PythonFunctionalOperator._get_unique_task_id. rewrite Hdag.
  rewrite bool_decide_eq_true_2 by exact Hin. cbn [negb].
  rewrite (split_numeric_suffix_of_suffix _ Hbare).
  rewrite (comprehension_raises_first _ _ (IndexError "list index out of range"));
    [reflexivity| |].
  - intros E. assert (Hm : task_id ∈ filter (fun id => Re.match_numbered "" id = true) (task_ids d)).
    { apply list_elem_of_filter. split; [exact Hbare|exact Hin]. }
    rewrite E in Hm. by apply elem_of_nil in Hm.
  - intros x Hx. apply list_elem_of_filter in Hx as [Hm _].
    change (Re.match_numbered "" x) with (Re.numeric_suffix x) in Hm.
    destruct (numeric_suffix_inv _ Hm) as (ds & -> & Hds & Hne).
    change ("__" +:+ ds) with (String "_" (String "_" ds)).
    unfold Re.split_greedy_dunder.
    by rewrite (after_last_dunder_underscore_digits ds Hds Hne).
Qed.

Lemma unique_task_id_of_bare_number_witness :
  _PythonFunctionalOperator._get_unique_task_id (Some {| task_ids := ["extract"; "__5"] |})
    "__5" None
  = Raise (IndexError "list index out of range").
Proof.
  apply (unique_task_id_of_bare_number _ None {| task_ids := ["extract"; "__5"] |} "__5" eq_refl).
  - repeat constructor.
  - apply elem_of_cons. right. apply elem_of_cons. by left.
  - reflexivity.
Defined.

(** * Functional operators: multiple outputs, and the decorator *)

Section MultipleOutputs.

Variable invoke : pyobj -> list pyval -> gmap string pyval -> result returned.
Variable xcom_push : gmap string pyval -> pyval -> pyval -> result unit.
Variables str_of type_of : pyval -> string.

Local Abbreviation check_keys := (_PythonFunctionalOperator.check_keys str_of type_of).
Local Abbreviation push_items := (_PythonFunctionalOperator.push_items xcom_push).

Lemma check_keys_ok (items : list (pyval * pyval)) :
  check_keys (map fst items) = Ok tt <-> string_keys items.
Proof.
  unfold string_keys. induction items as [|[k v] items IH].
  - split; [constructor|reflexivity].
  - cbn [map fst _PythonFunctionalOperator.check_keys].
    destruct (isinstance_str k) eqn:Hk; cbn [negb].
    + rewrite IH. split; [intros H; by constructor|].
      intros H. by apply Forall_cons in H as [_ H].
    + split; [discriminate|]. intros H. apply Forall_cons in H as [H _].
      cbn in H. congruence.
Qed.

Lemma check_keys_raises (keys : list pyval) (e : pyexn) :
  check_keys keys = Raise e -> exists msg, e = AirflowException msg.
Proof.
  induction keys as [|k keys IH]; [discriminate|].
  cbn [_PythonFunctionalOperator.check_keys].
  destruct (isinstance_str k); cbn [negb]; [exact IH|].
  intros [= <-]. by eexists.
Qed.

(** The second loop pushes the items in order and stops at the first
    push that raises. *)
Lemma push_items_trace (context : gmap string pyval)
    (items : list (pyval * pyval)) (t t' : list functional_event)
    (r : result unit) :
  push_items context items t = (t', r) ->
  exists pushed,
    t' = (t ++ map (fun kv => FXComPush (fst kv) (snd kv)) pushed)%list
    /\ pushed `prefix_of` items
    /\ (r = Ok tt -> pushed = items).
Proof.
  revert t. induction items as [|[k v] items IH]; intros t H.
  - cbn in H. injection H as <- <-. exists []. by rewrite app_nil_r.
  - cbn [_PythonFunctionalOperator.push_items] in H.
    destruct (xcom_push context k v) as [[]|e].
    + destruct (IH _ H) as (pushed & -> & Hpre & Hall).
      exists ((k, v) :: pushed). split; [by rewrite <- app_assoc|].
      split; [destruct Hpre as (rest & ->); by exists rest|].
      intros Hr. by rewrite (Hall Hr).
    + injection H as <- <-. exists [(k, v)]. split; [reflexivity|].
      split; [|discriminate]. by exists items.
Qed.

End MultipleOutputs.

(** X15. With [multiple_outputs], [_PythonFunctionalOperator.execute]
    checks every key before it pushes any value: a value is pushed to
    XCom only if [multiple_outputs] is set and the callable returned a
    dict all of whose keys are strings, and then it is an item of that
    dict.  A returned value that is not a dict, or a dict with a key
    that is not a string, ends in [AirflowException] after the call and
    the log line, with nothing pushed. *)
Theorem multiple_outputs_checks_before_pushing
    (invoke : pyobj -> list pyval -> gmap string pyval -> result returned)
    (xcom_push : gmap string pyval -> pyval -> pyval -> result unit)
    (str_of type_of : pyval -> string)
    (self : _PythonFunctionalOperator.instance) (context : gmap string pyval)
    (t : list functional_event) (r : result returned) :
  _PythonFunctionalOperator.execute invoke xcom_push str_of type_of self context = (t, r) ->
  (forall key value, FXComPush key value ∈ t ->
     _PythonFunctionalOperator.multiple_outputs self = true
     /\ exists return_value items,
          invoke (_PythonFunctionalOperator.python_callable self)
            (_PythonFunctionalOperator.op_args self)
            (_PythonFunctionalOperator.op_kwargs self) = Ok return_value
          /\ dict_items return_value = Some items
          /\ string_keys items
          /\ (key, value) ∈ items)
  /\ (forall return_value,
        _PythonFunctionalOperator.multiple_outputs self = true ->
        invoke (_PythonFunctionalOperator.python_callable self)
          (_PythonFunctionalOperator.op_args self)
          (_PythonFunctionalOperator.op_kwargs self) = Ok return_value ->
        match dict_items return_value with
        | Some items => ~ string_keys items
        | None => True
        end ->
        (exists msg, r = Raise (AirflowException msg))
        /\ t = [FCall (_PythonFunctionalOperator.python_callable self)
                  (_PythonFunctionalOperator.op_args self)
                  (_PythonFunctionalOperator.op_kwargs self);
                FLog "debug" "Done. Returned value was: %s" return_value]).
Proof.
  unfold _PythonFunctionalOperator.execute.
  set (f := _PythonFunctionalOperator.python_callable self).
  set (args := _PythonFunctionalOperator.op_args self).
  set (kwargs := _PythonFunctionalOperator.op_kwargs self).
  assert (Hnil : forall (l : list functional_event) key value,
            Forall (fun e => is_push e = false) l -> FXComPush key value ∈ l -> False).
  { intros l key value Hl Hin. rewrite Forall_forall in Hl.
    specialize (Hl _ Hin). discriminate Hl. }
  destruct (invoke f args kwargs) as [return_value|e] eqn:Hinv.
  2:{ intros [= <- <-]. split; [|discriminate].
      intros key value Hin. exfalso. eapply Hnil; [|exact Hin]. by repeat constructor. }
  destruct (_PythonFunctionalOperator.multiple_outputs self) eqn:Hmo; cbn [negb].
  2:{ intros [= <- <-]. split; [|discriminate].
      intros key value Hin. exfalso. eapply Hnil; [|exact Hin]. by repeat constructor. }
  destruct (dict_items return_value) as [items|] eqn:Hitems.
  2:{ intros [= <- <-]. split.
      - intros key value Hin. exfalso. eapply Hnil; [|exact Hin]. by repeat constructor.
      - intros rv _ [= <-] _. split; [by eexists|reflexivity]. }
  destruct (_PythonFunctionalOperator.check_keys str_of type_of (map fst items))
    as [[]|e] eqn:Hkeys.
  2:{ intros [= <- <-]. split.
      - intros key value Hin. exfalso. eapply Hnil; [|exact Hin]. by repeat constructor.
      - intros rv _ [= <-] _. destruct (check_keys_raises _ _ _ _ Hkeys) as (msg & ->).
        split; [by eexists|reflexivity]. }
  apply check_keys_ok in Hkeys.
  destruct (_PythonFunctionalOperator.push_items xcom_push context items _)
    as [t' r'] eqn:Hpush.
  destruct (push_items_trace _ _ _ _ _ _ Hpush) as (pushed & -> & Hpre & _).
  intros Ht. assert (t = ([FCall f args kwargs] ++
                          [FLog "debug" "Done. Returned value was: %s" return_value]) ++
                         map (fun kv => FXComPush (fst kv) (snd kv)) pushed)%list as ->
    by (destruct r'; by injection Ht as <- _).
  split.
  - intros key value Hin. split; [reflexivity|].
    exists return_value, items. repeat split; try done.
    apply elem_of_app in Hin as [Hin|Hin].
    { exfalso. eapply Hnil; [|exact Hin]. by repeat constructor. }
    apply list_elem_of_fmap in Hin as ([k v] & [= -> ->] & Hin).
    destruct Hpre as (rest & ->). apply elem_of_app. by left.
  - intros rv _ [= <-]. rewrite Hitems. contradiction.
Qed.

Lemma multiple_outputs_checks_before_pushing_witness :
  exists msg,
    _PythonFunctionalOperator.execute ExampleOutputs.invoke ExampleOutputs.xcom_push
      ExampleOutputs.str_of ExampleOutputs.type_of
      (ExampleOutputs.operator ExampleOutputs.totals) ∅
    = ([FCall ExampleOutputs.totals [] ∅;
        FLog "debug" "Done. Returned value was: %s"
          (RDict [(PyStr "rows", PyInt 3); (PyInt 7, PyStr "seven")])],
       Raise (AirflowException msg)).
Proof.
  destruct (_PythonFunctionalOperator.execute ExampleOutputs.invoke
              ExampleOutputs.xcom_push ExampleOutputs.str_of ExampleOutputs.type_of
              (ExampleOutputs.operator ExampleOutputs.totals) ∅) as [t r] eqn:E.
  destruct (multiple_outputs_checks_before_pushing _ _ _ _ _ _ _ _ E) as [_ H].
  destruct (H (RDict [(PyStr "rows", PyInt 3); (PyInt 7, PyStr "seven")])
              eq_refl eq_refl) as ((msg & ->) & ->).
  - cbn. intros Hk. apply Forall_cons in Hk as [_ Hk].
    apply Forall_cons in Hk as [Hk _]. discriminate Hk.
  - by exists msg.
Defined.

(** X16. When [_PythonFunctionalOperator.execute] returns, it returns
    the callable's value unchanged.  Without [multiple_outputs] nothing
    is pushed; with it the value is a dict with string keys, and after
    the call and the log line every item has been pushed, once, in the
    order of the dict. *)
Theorem multiple_outputs_pushes_every_item
    (invoke : pyobj -> list pyval -> gmap string pyval -> result returned)
    (xcom_push : gmap string pyval -> pyval -> pyval -> result unit)
    (str_of type_of : pyval -> string)
    (self : _PythonFunctionalOperator.instance) (context : gmap string pyval)
    (t : list functional_event) (return_value : returned) :
  _PythonFunctionalOperator.execute invoke xcom_push str_of type_of self context
  = (t, Ok return_value) ->
  invoke (_PythonFunctionalOperator.python_callable self)
    (_PythonFunctionalOperator.op_args self)
    (_PythonFunctionalOperator.op_kwargs self) = Ok return_value
  /\ exists pushed,
       t = ([FCall (_PythonFunctionalOperator.python_callable self)
               (_PythonFunctionalOperator.op_args self)
               (_PythonFunctionalOperator.op_kwargs self);
             FLog "debug" "Done. Returned value was: %s" return_value]
            ++ map (fun kv => FXComPush (fst kv) (snd kv)) pushed)%list
       /\ Forall (fun kv => xcom_push context (fst kv) (snd kv) = Ok tt) pushed
       /\ if _PythonFunctionalOperator.multiple_outputs self
          then dict_items return_value = Some pushed /\ string_keys pushed
          else pushed = [].
Proof.
  unfold _PythonFunctionalOperator.execute.
  set (f := _PythonFunctionalOperator.python_callable self).
  set (args := _PythonFunctionalOperator.op_args self).
  set (kwargs := _PythonFunctionalOperator.op_kwargs self).
  destruct (invoke f args kwargs) as [rv|e] eqn:Hinv; [|discriminate].
  destruct (_PythonFunctionalOperator.multiple_outputs self) eqn:Hmo; cbn [negb].
  2:{ intros [= <- <-]. split; [reflexivity|]. exists []. by repeat split. }
  destruct (dict_items rv) as [items|] eqn:Hitems; [|discriminate].
  destruct (_PythonFunctionalOperator.check_keys str_of type_of (map fst items))
    as [[]|e] eqn:Hkeys; [|discriminate].
  apply check_keys_ok in Hkeys.
  assert (Hpushes : forall items t0 t1,
            _PythonFunctionalOperator.push_items xcom_push context items t0 = (t1, Ok tt) ->
            t1 = (t0 ++ map (fun kv => FXComPush (fst kv) (snd kv)) items)%list
            /\ Forall (fun kv => xcom_push context (fst kv) (snd kv) = Ok tt) items).
  { clear. induction items as [|[k v] items IH]; intros t0 t1 H.
    - cbn in H. injection H as <-. by rewrite app_nil_r.
    - cbn [_PythonFunctionalOperator.push_items] in H.
      destruct (xcom_push context k v) as [[]|e] eqn:Hp; [|discriminate].
      destruct (IH _ _ H) as [-> Hall]. split; [by rewrite <- app_assoc|].
      by constructor. }
  destruct (_PythonFunctionalOperator.push_items xcom_push context items _)
    as [t' [[]|e]] eqn:Hpush; [|discriminate].
  intros [= <- <-]. destruct (Hpushes _ _ _ Hpush) as [-> Hall].
  split; [reflexivity|]. exists items. by repeat split.
Qed.

Lemma multiple_outputs_pushes_every_item_witness :
  _PythonFunctionalOperator.execute ExampleOutputs.invoke ExampleOutputs.xcom_push
    ExampleOutputs.str_of ExampleOutputs.type_of
    (ExampleOutputs.operator ExampleOutputs.sizes) ∅
  = ([FCall ExampleOutputs.sizes [] ∅;
      FLog "debug" "Done. Returned value was: %s"
        (RDict [(PyStr "rows", PyInt 3); (PyStr "cols", PyInt 2)]);
      FXComPush (PyStr "rows") (PyInt 3);
      FXComPush (PyStr "cols") (PyInt 2)],
     Ok (RDict [(PyStr "rows", PyInt 3); (PyStr "cols", PyInt 2)])).
Proof.
  destruct (_PythonFunctionalOperator.execute ExampleOutputs.invoke
              ExampleOutputs.xcom_push ExampleOutputs.str_of ExampleOutputs.type_of
              (ExampleOutputs.operator ExampleOutputs.sizes) ∅) as [t r] eqn:E.
  assert (Hr : r = Ok (RDict [(PyStr "rows", PyInt 3); (PyStr "cols", PyInt 2)])).
  { vm_compute in E. by injection E as _ <-. }
  subst r.
  destruct (multiple_outputs_pushes_every_item _ _ _ _ _ _ _ _ E)
    as (_ & pushed & -> & _ & Hitems & _).
  cbn in Hitems. by injection Hitems as <-.
Defined.

Lemma setdefault_lookup (kwargs : gmap string pyval) (key : string) (value : pyval) :
  Task.setdefault kwargs key value !! key = Some (default value (kwargs !! key)).
Proof.
  unfold Task.setdefault. destruct (kwargs !! key) as [v|] eqn:E; [exact E|].
  apply lookup_insert_eq.
Qed.

Lemma setdefault_present (kwargs : gmap string pyval) (key : string) (value : pyval) :
  is_Some (kwargs !! key) -> Task.setdefault kwargs key value = kwargs.
Proof. unfold Task.setdefault. by intros [v ->]. Qed.

Lemma wrapper_ok_inv (f : pyobj) (kwargs kwargs' : gmap string pyval) (d : Task.decorated) :
  Task.wrapper f kwargs = (kwargs', Ok d) ->
  exists n, _PythonFunctionalOperator.validate_python_callable f = Ok tt
            /\ __name__ f = Ok n
            /\ kwargs' = Task.setdefault kwargs "task_id" (PyStr n)
            /\ d = Task.Factory f.
Proof.
  unfold Task.wrapper.
  destruct (_PythonFunctionalOperator.validate_python_callable f) as [[]|e]; [|discriminate].
  destruct (__name__ f) as [n|e]; [|discriminate].
  intros [= <- <-]. by exists n.
Qed.

(** X17. The decorator [task]: called with a callable it validates it
    and returns its factory; called with [None] it returns the
    decorator and leaves [kwargs] alone; any other object is refused
    with [AirflowException].  A factory is only made of a callable that
    has a signature without a parameter named [self] and that has a
    [__name__], and then [kwargs] holds a [task_id]: the one given, else
    the function's name, with every other entry as it was.  When the
    call raises, [kwargs] is unchanged. *)
Theorem task_decorator_cases (python_callable : pyobj) (multiple_outputs : bool)
    (kwargs kwargs' : gmap string pyval) (r : result Task.decorated) :
  Task.task python_callable multiple_outputs kwargs = (kwargs', r) ->
  (r = Ok Task.Wrapper <-> python_callable = NotCallable PyNone)
  /\ (forall f, r = Ok (Task.Factory f) ->
        f = python_callable
        /\ exists sig n,
             signature f = Ok sig /\ ("self" ∉ map name sig) /\ __name__ f = Ok n
             /\ kwargs' !! "task_id" = Some (default (PyStr n) (kwargs !! "task_id"))
             /\ forall k, k <> "task_id" -> kwargs' !! k = kwargs !! k)
  /\ (callable python_callable = false -> python_callable <> NotCallable PyNone ->
      r = Raise (AirflowException "No args allowed while using @task, use kwargs instead"))
  /\ (raises r \/ r = Ok Task.Wrapper -> kwargs' = kwargs).
Proof.
  unfold Task.task. destruct (callable python_callable) eqn:Hc.
  - intros Hw. assert (Hnn : python_callable <> NotCallable PyNone)
      by (intros ->; discriminate Hc).
    split; [|split; [|split]].
    + split; [|contradiction]. intros ->.
      by destruct (wrapper_ok_inv _ _ _ _ Hw) as (n & _ & _ & _ & ?).
    + intros f ->. destruct (wrapper_ok_inv _ _ _ _ Hw) as (n & Hval & Hn & -> & [= ->]).
      split; [reflexivity|].
      unfold _PythonFunctionalOperator.validate_python_callable in Hval.
      rewrite Hc in Hval. cbn [negb] in Hval.
      destruct (signature python_callable) as [sig|e]; [|discriminate].
      cbn [bind_result] in Hval.
      destruct (bool_decide ("self" ∈ map name sig)) eqn:Hself; [discriminate|].
      apply bool_decide_eq_false in Hself.
      exists sig, n. repeat split; try done; [apply setdefault_lookup|].
      intros k Hk. unfold Task.setdefault.
      destruct (kwargs !! "task_id"); [reflexivity|]. by rewrite lookup_insert_ne.
    + discriminate.
    + unfold Task.wrapper in Hw.
      destruct (_PythonFunctionalOperator.validate_python_callable python_callable)
        as [[]|e]; [|by injection Hw as <- _].
      destruct (__name__ python_callable) as [n|e]; [|by injection Hw as <- _].
      injection Hw as <- <-. intros [[]|[=]].
  - assert (Hcase : Task.is_not_None_object python_callable = false
                    <-> python_callable = NotCallable PyNone).
    { destruct python_callable as [| | | |[]]; cbn; split; congruence. }
    destruct (Task.is_not_None_object python_callable) eqn:Hn; intros [= <- <-].
    + assert (Hne : python_callable <> NotCallable PyNone)
        by (intros H; apply Hcase in H; discriminate).
      split; [split; [discriminate|contradiction]|].
      split; [discriminate|]. by split.
    + assert (He : python_callable = NotCallable PyNone) by by apply Hcase.
      split; [by split|]. split; [discriminate|]. split; [contradiction|reflexivity].
Qed.

Lemma task_decorator_cases_witness :
  exists kwargs',
    Task.task ExampleOutputs.sizes false {[ "retries" := PyInt 2 ]}
    = (kwargs', Ok (Task.Factory ExampleOutputs.sizes))
    /\ kwargs' !! "task_id" = Some (PyStr "sizes")
    /\ kwargs' !! "retries" = Some (PyInt 2).
Proof.
  destruct (Task.task ExampleOutputs.sizes false {[ "retries" := PyInt 2 ]})
    as [kwargs' r] eqn:E.
  assert (Hr : r = Ok (Task.Factory ExampleOutputs.sizes)).
  { vm_compute in E. by injection E as _ <-. }
  destruct (task_decorator_cases _ _ _ _ _ E) as (_ & Hf & _).
  destruct (Hf _ Hr) as (_ & sig & n & _ & _ & Hn & Hid & Hother).
  injection Hn as <-. exists kwargs'. rewrite Hr. split; [reflexivity|].
  split; [exact Hid|]. by rewrite Hother.
Defined.

(** X18. A decorator is tied to the first function it decorates:
    [wrapper] writes the default [task_id] into the [kwargs] that all
    its factories share, so when one [wrapper] decorates a first and
    then a second function, the second leaves [kwargs] as the first left
    it: the [task_id] both factories hand to the operator's constructor
    is the first function's name, unless one was given to [task]. *)
Theorem wrapper_reuse_keeps_first_task_id (f g : pyobj)
    (kwargs kwargs1 kwargs2 : gmap string pyval) (d1 d2 : Task.decorated) :
  Task.wrapper f kwargs = (kwargs1, Ok d1) ->
  Task.wrapper g kwargs1 = (kwargs2, Ok d2) ->
  kwargs2 = kwargs1
  /\ exists n, __name__ f = Ok n
               /\ kwargs2 !! "task_id" = Some (default (PyStr n) (kwargs !! "task_id")).
Proof.
  intros Hf Hg.
  destruct (wrapper_ok_inv _ _ _ _ Hf) as (n & _ & Hn & -> & _).
  destruct (wrapper_ok_inv _ _ _ _ Hg) as (m & _ & _ & -> & _).
  rewrite (setdefault_present (Task.setdefault kwargs "task_id" (PyStr n)))
    by (rewrite setdefault_lookup; by eexists).
  split; [reflexivity|]. exists n. split; [exact Hn|apply setdefault_lookup].
Qed.

Lemma wrapper_reuse_keeps_first_task_id_witness :
  exists kwargs1 kwargs2,
    Task.wrapper ExampleOutputs.sizes ∅ = (kwargs1, Ok (Task.Factory ExampleOutputs.sizes))
    /\ Task.wrapper ExampleOutputs.totals kwargs1
       = (kwargs2, Ok (Task.Factory ExampleOutputs.totals))
    /\ kwargs2 !! "task_id" = Some (PyStr "sizes").
Proof.
  destruct (Task.wrapper ExampleOutputs.sizes ∅) as [kwargs1 r1] eqn:E1.
  assert (Hr1 : r1 = Ok (Task.Factory ExampleOutputs.sizes)).
  { vm_compute in E1. by injection E1 as _ <-. }
  subst r1.
  destruct (Task.wrapper ExampleOutputs.totals kwargs1) as [kwargs2 r2] eqn:E2.
  assert (Hr2 : r2 = Ok (Task.Factory ExampleOutputs.totals)).
  { destruct (wrapper_ok_inv _ _ _ _ E1) as (n & _ & _ & -> & _).
    vm_compute in E2. by injection E2 as _ <-. }
  subst r2.
  destruct (wrapper_reuse_keeps_first_task_id _ _ _ _ _ _ _ E1 E2) as (_ & n & Hn & Hid).
  injection Hn as <-. by exists kwargs1, kwargs2.
Defined.

(** * The operators that skip tasks *)

(** [PythonOperator.execute] hands back the context it has updated. *)
Lemma execute_updates_context
    (execute_callable : PythonOperator.instance -> M pyval)
    (self : PythonOperator.instance) (context : gmap string pyval) (w : world)
    w' self' context' r :
  PythonOperator.execute execute_callable self context w = (w', self', context', r) ->
  context' = updated_context self context.
Proof.
  unfold PythonOperator.execute, updated_context.
  destruct (PythonOperator.determine_op_kwargs _ _ _) as [kw|e]; [|congruence].
  destruct (execute_callable _ w) as [w1 [v|e]]; congruence.
Qed.

Lemma context_item_source (self : PythonOperator.instance)
    (context : gmap string pyval) (key : string) (v : pyval) :
  context_item (updated_context self context) key = Ok v ->
  keyword_source self context key = Some v.
Proof.
  unfold context_item. rewrite updated_context_lookup.
  destruct (keyword_source self context key); congruence.
Qed.

(** X13. [ShortCircuitOperator.execute] never returns the condition: a
    value it returns is [None].  It calls [skip] at most once, and only
    when the callable returned a false condition and the task has
    downstream tasks; the call names all of them.  The task, the DAG
    run and the task instance are read from the context that
    [PythonOperator.execute] has updated, so an entry of the operator's
    [op_kwargs] under [task], [dag_run] or [ti] replaces the run's.
    A true condition skips nothing, whatever the context holds. *)
Theorem short_circuit_skips
    (invoke : pyobj -> list pyval -> gmap string pyval -> FsM pyval)
    (get_flat_relatives : pyval -> result (list pyval))
    (execution_date : pyval -> result pyval)
    (skip : pyval -> pyval -> list pyval -> result unit)
    (self : PythonOperator.instance) (context : gmap string pyval)
    (w w' : world) (calls : list skip_call) (r : result pyval) :
  ShortCircuitOperator.execute invoke get_flat_relatives execution_date skip
    self context w = (w', calls, r) ->
  (forall v, r = Ok v -> v = PyNone)
  /\ (forall c, c ∈ calls ->
        exists condition task downstream dag_run ti date,
          callable_returned invoke self context w = Some condition
          /\ truthy condition = false
          /\ keyword_source self context "task" = Some task
          /\ get_flat_relatives task = Ok downstream
          /\ downstream <> []
          /\ keyword_source self context "dag_run" = Some dag_run
          /\ keyword_source self context "ti" = Some ti
          /\ execution_date ti = Ok date
          /\ calls = [Skip dag_run date downstream])
  /\ (forall condition,
        callable_returned invoke self context w = Some condition ->
        truthy condition = true ->
        calls = [] /\ r = Ok PyNone).
Proof.
  unfold ShortCircuitOperator.execute, callable_returned.
  destruct (PythonOperator.execute _ self context w) as [[[w1 self1] context1] r1] eqn:Hex.
  pose proof (execute_updates_context _ _ _ _ _ _ _ _ Hex) as ->.
  destruct r1 as [condition|e].
  2:{ intros [= <- <- <-]. split; [discriminate|]. split; [|discriminate].
      intros c Hc. by apply elem_of_nil in Hc. }
  destruct (truthy condition) eqn:Ht.
  { intros [= <- <- <-]. split; [by intros v [= <-]|]. split.
    - intros c Hc. by apply elem_of_nil in Hc.
    - by intros. }
  destruct (context_item (updated_context self context) "task") as [task|e] eqn:Htask;
    cbn [bind_result].
  2:{ intros [= <- <- <-]. split; [discriminate|]. split.
      - intros c Hc. by apply elem_of_nil in Hc.
      - intros c [= <-]. congruence. }
  destruct (get_flat_relatives task) as [downstream|e] eqn:Hdown.
  2:{ intros [= <- <- <-]. split; [discriminate|]. split.
      - intros c Hc. by apply elem_of_nil in Hc.
      - intros c [= <-]. congruence. }
  destruct downstream as [|t0 rest].
  { intros [= <- <- <-]. split; [by intros v [= <-]|]. split.
    - intros c Hc. by apply elem_of_nil in Hc.
    - intros c [= <-]. congruence. }
  unfold ShortCircuitOperator.skip_arguments.
  destruct (context_item (updated_context self context) "dag_run") as [dag_run|e] eqn:Hrun;
    cbn [bind_result].
  2:{ intros [= <- <- <-]. split; [discriminate|]. split.
      - intros c Hc. by apply elem_of_nil in Hc.
      - intros c [= <-]. congruence. }
  destruct (context_item (updated_context self context) "ti") as [ti|e] eqn:Hti;
    cbn [bind_result].
  2:{ intros [= <- <- <-]. split; [discriminate|]. split.
      - intros c Hc. by apply elem_of_nil in Hc.
      - intros c [= <-]. congruence. }
  destruct (execution_date ti) as [date|e] eqn:Hdate; cbn [bind_result].
  2:{ intros [= <- <- <-]. split; [discriminate|]. split.
      - intros c Hc. by apply elem_of_nil in Hc.
      - intros c [= <-]. congruence. }
  assert (Hcall : exists condition0 task0 downstream dag_run0 ti0 date0,
            Some condition = Some condition0
            /\ truthy condition0 = false
            /\ keyword_source self context "task" = Some task0
            /\ get_flat_relatives task0 = Ok downstream
            /\ downstream <> []
            /\ keyword_source self context "dag_run" = Some dag_run0
            /\ keyword_source self context "ti" = Some ti0
            /\ execution_date ti0 = Ok date0
            /\ [Skip dag_run date (t0 :: rest)] = [Skip dag_run0 date0 downstream]).
  { exists condition, task, (t0 :: rest), dag_run, ti, date.
    repeat split; try done; by apply context_item_source. }
  destruct (skip dag_run date (t0 :: rest)) as [[]|e]; intros [= <- <- <-].
  - split; [by intros v [= <-]|]. split; [by intros|].
    intros c [= <-]. congruence.
  - split; [discriminate|]. split; [by intros|].
    intros c [= <-]. congruence.
Qed.

Lemma short_circuit_skips_witness :
  exists w',
    ShortCircuitOperator.execute ExampleRuns.invoke ExampleSkips.get_flat_relatives
      ExampleSkips.execution_date ExampleSkips.skip
      ExampleSkips.gate_operator ExampleSkips.run_context
      ExampleOperators.empty_world
    = (w', [], Ok PyNone).
Proof.
  destruct (ShortCircuitOperator.execute ExampleRuns.invoke
              ExampleSkips.get_flat_relatives ExampleSkips.execution_date
              ExampleSkips.skip ExampleSkips.gate_operator ExampleSkips.run_context
              ExampleOperators.empty_world) as [[w' calls] r] eqn:E.
  pose proof (short_circuit_skips _ _ _ _ _ _ _ _ _ _ E) as (Hnone & Hcalls & _).
  exists w'.
  assert (Hr : exists v, r = Ok v).
  { vm_compute in E. injection E as _ _ <-. by eexists. }
  destruct Hr as (v & ->). rewrite (Hnone v eq_refl).
  assert (Hc : calls = []).
  { vm_compute in E. by injection E as _ <- _. }
  by rewrite Hc.
Defined.

(** X14. [BranchPythonOperator.execute] returns what the callable
    returned, and only after it has called [skip_all_except] once, with
    that value and with the task instance of the updated context: the
    entry [ti] of the operator's [op_kwargs] if it has one, else the
    run's.  When the callable raises or the context has no [ti],
    nothing is skipped. *)
Theorem branch_follows_the_callable
    (invoke : pyobj -> list pyval -> gmap string pyval -> FsM pyval)
    (skip_all_except : pyval -> pyval -> result unit)
    (self : PythonOperator.instance) (context : gmap string pyval)
    (w w' : world) (calls : list skip_call) (r : result pyval) :
  BranchPythonOperator.execute invoke skip_all_except self context w = (w', calls, r) ->
  (forall branch, r = Ok branch ->
     callable_returned invoke self context w = Some branch
     /\ exists ti, keyword_source self context "ti" = Some ti
                   /\ skip_all_except ti branch = Ok tt
                   /\ calls = [SkipAllExcept ti branch])
  /\ (forall c, c ∈ calls ->
        exists branch ti,
          callable_returned invoke self context w = Some branch
          /\ keyword_source self context "ti" = Some ti
          /\ calls = [SkipAllExcept ti branch])
  /\ (callable_returned invoke self context w = None
      \/ keyword_source self context "ti" = None ->
      calls = [] /\ raises r).
Proof.
  unfold BranchPythonOperator.execute, callable_returned.
  destruct (PythonOperator.execute _ self context w) as [[[w1 self1] context1] r1] eqn:Hex.
  pose proof (execute_updates_context _ _ _ _ _ _ _ _ Hex) as ->.
  destruct r1 as [branch|e].
  2:{ intros [= <- <- <-]. split; [discriminate|]. split; [|done].
      intros c Hc. by apply elem_of_nil in Hc. }
  destruct (context_item (updated_context self context) "ti") as [ti|e] eqn:Hti.
  2:{ intros [= <- <- <-]. split; [discriminate|]. split; [|done].
      intros c Hc. by apply elem_of_nil in Hc. }
  apply context_item_source in Hti.
  destruct (skip_all_except ti branch) as [[]|e] eqn:Hskip; intros [= <- <- <-].
  - split; [intros b [= <-]; split; [done|by exists ti]|].
    split; [intros c _; by exists branch, ti|].
    intros [H|H]; congruence.
  - split; [discriminate|].
    split; [intros c _; by exists branch, ti|].
    intros [H|H]; congruence.
Qed.

Lemma branch_follows_the_callable_witness :
  exists w',
    BranchPythonOperator.execute ExampleRuns.invoke ExampleSkips.skip_all_except
      ExampleRuns.report_operator ExampleSkips.run_context
      ExampleOperators.empty_world
    = (w', [SkipAllExcept (PyObject "<TaskInstance>") (PyStr "mine")], Ok (PyStr "mine")).
Proof.
  destruct (BranchPythonOperator.execute ExampleRuns.invoke ExampleSkips.skip_all_except
              ExampleRuns.report_operator ExampleSkips.run_context
              ExampleOperators.empty_world) as [[w' calls] r] eqn:E.
  pose proof (branch_follows_the_callable _ _ _ _ _ _ _ _ E) as (Hret & _ & _).
  assert (Hr : r = Ok (PyStr "mine")).
  { vm_compute in E. by injection E as _ _ <-. }
  destruct (Hret _ Hr) as (_ & ti & Hti & _ & Hcalls).
  vm_compute in Hti. injection Hti as <-.
  exists w'. by rewrite Hcalls, Hr.
Defined.
